(** * PyCurl: a shallow embedding of [HttpOld.py]

    The [Http] class wraps [requests] and [ftplib].  Its methods are
    embedded here as state-passing functions over the client object and
    the part of the outside world they touch: the cookie file
    'cookies.json', the files written by a download, the log, and the
    record of the calls handed to the network libraries.  The libraries
    themselves ([requests.Session], [ftplib.FTP]) are not part of the
    program; the answers they give are inputs of the embedding. *)

From Stdlib Require Import ZArith Ascii String List Bool Lia QArith Lqa.
From stdpp Require Import base option list gmap strings pretty.

Local Open Scope string_scope.
Local Open Scope Z_scope.

(** ** Python strings

    [str] methods used by the program, on Rocq strings read as text. *)
Module PyStr.

Definition quote : ascii := "034"%char.
Definition slash : ascii := "/"%char.

Definition is_upper (c : ascii) : bool :=
  let n := nat_of_ascii c in (65 <=? n)%nat && (n <=? 90)%nat.

Definition lower_char (c : ascii) : ascii :=
  if is_upper c then ascii_of_nat (nat_of_ascii c + 32) else c.

(** [s.lower()] on ASCII letters. *)
Fixpoint lower (s : string) : string :=
  match s with
  | EmptyString => EmptyString
  | String c s' => String (lower_char c) (lower s')
  end.

Definition upper_char (c : ascii) : ascii :=
  let n := nat_of_ascii c in
  if (97 <=? n)%nat && (n <=? 122)%nat then ascii_of_nat (n - 32) else c.

(** [s.upper()] on ASCII letters. *)
Fixpoint upper (s : string) : string :=
  match s with
  | EmptyString => EmptyString
  | String c s' => String (upper_char c) (upper s')
  end.

(** [s.startswith(p)]. *)
Fixpoint startswith (p s : string) : bool :=
  match p, s with
  | EmptyString, _ => true
  | String a p', String b s' => Ascii.eqb a b && startswith p' s'
  | String _ _, EmptyString => false
  end.

(** [s.endswith(c)] for a one-character suffix. *)
Fixpoint endswith_char (c : ascii) (s : string) : bool :=
  match s with
  | EmptyString => false
  | String a EmptyString => Ascii.eqb a c
  | String _ s' => endswith_char c s'
  end.

(** [s.find(sub)]: the lowest index where [sub] occurs, [None] for
    Python's [-1]. *)
Fixpoint find (sub s : string) : option nat :=
  if startswith sub s then Some 0%nat
  else match s with
       | EmptyString => None
       | String _ s' => S <$> find sub s'
       end.

(** [sub in s]. *)
Definition contains (sub s : string) : bool :=
  match find sub s with Some _ => true | None => false end.

(** [s[n:]]. *)
Fixpoint slice_from (n : nat) (s : string) : string :=
  match n, s with
  | O, _ => s
  | S n', String _ s' => slice_from n' s'
  | S _, EmptyString => EmptyString
  end.

Fixpoint lstrip (c : ascii) (s : string) : string :=
  match s with
  | String a s' => if Ascii.eqb a c then lstrip c s' else s
  | EmptyString => EmptyString
  end.

Fixpoint rstrip (c : ascii) (s : string) : string :=
  match s with
  | EmptyString => EmptyString
  | String a s' =>
      match rstrip c s' with
      | EmptyString => if Ascii.eqb a c then EmptyString else String a EmptyString
      | r => String a r
      end
  end.

(** [s.strip(c)] for a one-character set. *)
Definition strip (c : ascii) (s : string) : string := rstrip c (lstrip c s).

(** [s.split(sep)] for a one-character separator: never the empty
    list, and empty pieces are kept. *)
Fixpoint split (sep : ascii) (s : string) : list string :=
  match s with
  | EmptyString => [EmptyString]
  | String c s' =>
      if Ascii.eqb c sep then EmptyString :: split sep s'
      else match split sep s' with
           | h :: t => String c h :: t
           | [] => [String c EmptyString]
           end
  end.

(** The characters [int] skips at both ends, among the 256 a header
    value is made of (its bytes read as Latin-1): tab to carriage
    return, the blank, NEL (133) and the no-break space (160). *)
Definition is_space (c : ascii) : bool :=
  let n := nat_of_ascii c in
  ((9 <=? n)%nat && (n <=? 13)%nat) || (n =? 32)%nat
  || (n =? 133)%nat || (n =? 160)%nat.

Definition is_digit (c : ascii) : bool :=
  let n := nat_of_ascii c in (48 <=? n)%nat && (n <=? 57)%nat.

Definition digit_val (c : ascii) : Z := Z.of_nat (nat_of_ascii c - 48).

Fixpoint lstrip_space (s : string) : string :=
  match s with
  | String a s' => if is_space a then lstrip_space s' else s
  | EmptyString => EmptyString
  end.

Fixpoint rstrip_space (s : string) : string :=
  match s with
  | EmptyString => EmptyString
  | String a s' =>
      match rstrip_space s' with
      | EmptyString => if is_space a then EmptyString else String a EmptyString
      | r => String a r
      end
  end.

(** Digits of a decimal literal; a single underscore may separate two
    digits.  [seen] is true right after a digit. *)
Fixpoint digits (s : string) (acc : Z) (seen : bool) : option Z :=
  match s with
  | EmptyString => if seen then Some acc else None
  | String c s' =>
      if is_digit c then digits s' (10 * acc + digit_val c) true
      else if Ascii.eqb c "_"%char && seen then digits s' acc false
      else None
  end.

(** The number of decimal digits in [s]. *)
Fixpoint count_digits (s : string) : Z :=
  match s with
  | EmptyString => 0
  | String c s' => (if is_digit c then 1 else 0) + count_digits s'
  end.

(** [int(s)] for a text argument, base ten; [None] stands for the
    [ValueError] Python raises on anything else, which includes a
    literal of more than 4300 digits (the default limit of Python 3.11
    and later).  Among the 256 characters of a header value the decimal
    digits are the ASCII ones. *)
Definition int (s : string) : option Z :=
  let t := rstrip_space (lstrip_space s) in
  if 4300 <? count_digits t then None
  else match t with
       | String "-"%char s' => Z.opp <$> digits s' 0 false
       | String "+"%char s' => digits s' 0 false
       | s' => digits s' 0 false
       end.

End PyStr.

(** ** POSIX paths ([os.path]) *)
Module PyPath.

(** [os.path.join(a, b)] for two text arguments. *)
Definition join (a b : string) : string :=
  if PyStr.startswith "/" b then b
  else if String.eqb a "" || PyStr.endswith_char PyStr.slash a then a ++ b
  else a ++ "/" ++ b.

(** [os.path.basename(p)]: what follows the last slash. *)
Definition basename (p : string) : string :=
  List.last (PyStr.split PyStr.slash p) "".

End PyPath.

(** ** Values, responses and exceptions *)

(** A decoded JSON body, what [response.json()] returns. *)
#[warnings="-register-all"]
Inductive json : Type :=
| JNull
| JBool (b : bool)
| JNum (n : Z)
| JStr (s : string)
| JList (l : list json)
| JObject (fields : list (string * json)).

(** A [requests.Response], as far as the program looks at it.  The three
    header fields are the results of [response.headers.get] for
    'content-type', 'content-length' and 'content-disposition'. *)
Record Response := mkResponse {
  resp_status_code : Z;
  resp_reason : string;
  resp_url : string;
  resp_content_type : option string;
  resp_content_length : option string;
  resp_content_disposition : option string;
  (** [response.cookies], in the order the jar iterates: name, value *)
  resp_cookies : list (string * string);
  resp_text : string;
  (** [response.json()]; [None] when the body does not decode *)
  resp_json : option json;
  (** the text of the exception [response.json()] raises when the body
      does not decode; it depends on the body *)
  resp_json_error : string;
  (** [response.iter_content(chunk_size)]: the chunks it yields and, if
      the transfer breaks off after them, the error message *)
  resp_iter_content : Z -> list string * option string
}.

(** The exception classes the program raises or names in an [except]
    clause.  [IOError] is Python 3's [OSError]. *)
Inductive exn : Type :=
| RequestException (msg : string) (response : option Response)
| ValueError (msg : string)
| TypeError (msg : string)
| IOError (msg : string)
| JSONDecodeError (msg : string)
| error_perm (msg : string).

Definition is_RequestException (e : exn) : bool :=
  match e with RequestException _ _ => true | _ => false end.

Definition is_IOError (e : exn) : bool :=
  match e with IOError _ => true | _ => false end.

Definition is_JSONDecodeError (e : exn) : bool :=
  match e with JSONDecodeError _ => true | _ => false end.

Definition is_error_perm (e : exn) : bool :=
  match e with error_perm _ => true | _ => false end.

(** [str(e)] *)
Definition str_exn (e : exn) : string :=
  match e with
  | RequestException m _ | ValueError m | TypeError m | IOError m
  | JSONDecodeError m | error_perm m => m
  end.

(** A call either returns a value or raises. *)
Inductive outcome (A : Type) : Type :=
| Returned (a : A)
| Raised (e : exn).
Arguments Returned {A} a.
Arguments Raised {A} e.

(** What the two transfer methods return: [False], [None] or a path. *)
Inductive pyret : Type :=
| PyFalse
| PyNone
| PyPathStr (path : string).

(** ** State and exceptions

    A method is a function from the state before the call to its outcome
    and the state after it; the state reached when an exception is raised
    is kept, as in Python. *)
Module Exec.

Definition M (S A : Type) : Type := S -> outcome A * S.

Definition ret {S A} (a : A) : M S A := fun s => (Returned a, s).

Definition raise {S A} (e : exn) : M S A := fun s => (Raised e, s).

Definition bind {S A B} (m : M S A) (k : A -> M S B) : M S B :=
  fun s => match m s with
           | (Returned a, s') => k a s'
           | (Raised e, s') => (Raised e, s')
           end.

Definition gets {S A} (f : S -> A) : M S A := fun s => (Returned (f s), s).

Definition modify {S} (f : S -> S) : M S unit := fun s => (Returned tt, f s).

(** [try: m  except <classes> as e: h e] where [catches] tells whether
    the clause names the class of [e]. *)
Definition try_except {S A} (m : M S A) (catches : exn -> bool)
    (h : exn -> M S A) : M S A :=
  fun s => match m s with
           | (Returned a, s') => (Returned a, s')
           | (Raised e, s') => if catches e then h e s' else (Raised e, s')
           end.

(** [try: m  finally: f], for a clause [f] that runs to its end. *)
Definition try_finally {S A} (m : M S A) (f : S -> S) : M S A :=
  fun s => let '(r, s') := m s in (r, f s').

End Exec.
Import Exec.

Declare Scope py_scope.
Delimit Scope py_scope with py.
Notation "x <~ m ; k" := (bind m (fun x => k))
  (at level 200, m at level 100, k at level 200, right associativity) : py_scope.
Notation "m ;> k" := (bind m (fun _ => k))
  (at level 200, k at level 200, right associativity) : py_scope.
Local Open Scope py_scope.

(** ** The client object and its surroundings *)

(** An instance of [Http].  [session] counts the [requests.Session]
    objects the instance has created, so that a fresh one differs from
    the one it replaces. *)
Record Http := mkHttp {
  base_url : string;
  session : nat;
  headers : gmap string string;
  cookies : gmap string string;
  auth : option (string * string);
  timeout : option Z;
  follow_redirects : bool;
  _error_message : option string;
  _error_code : option Z
}.

(** [Http()] *)
Definition __init__ : Http :=
  {| base_url := ""; session := 0%nat; headers := ∅; cookies := ∅;
     auth := None; timeout := None; follow_redirects := true;
     _error_message := None; _error_code := None |}.

(** What a call to [session.request], [session.get] or [session.post]
    is given. *)
Record http_request := mkRequest {
  req_method : string;
  req_url : string;
  req_params : option json;
  req_json : option json;
  req_headers : gmap string string;
  req_auth : option (string * string);
  req_timeout : option Z;
  req_allow_redirects : bool;
  req_cookies : gmap string string;
  req_stream : bool
}.

(** What the [requests] library answers: a response, or an exception of
    the [RequestException] family, which may carry a response. *)
Inductive net_result : Type :=
| Responds (r : Response)
| Fails (msg : string) (response : option Response).

(** The file 'cookies.json' as [open] and [json.load] see it.  Its bytes
    are taken to decode as text (bytes that do not decode make
    [json.load] raise [UnicodeDecodeError], a case that is not
    modelled), and an object in it maps names to texts, which is what
    [_save_cookies] writes. *)
Inductive jar_file : Type :=
| Absent                       (* [open] raises [FileNotFoundError] *)
| Unreadable (msg : string)    (* [open] or the read raises another [OSError] *)
| Malformed (msg : string)     (* [json.load] raises [JSONDecodeError] *)
| NotAnObject                  (* JSON text of a list, string, number, ... *)
| Object (d : gmap string string).

(** What [json.load] returns. *)
Inductive pyobj : Type :=
| PyDict (d : gmap string string)
| PyOther.

Inductive output : Type :=
| Info (msg : string)          (* [logger.info], [logging.info] *)
| Error (msg : string)         (* [logger.error], [logging.error] *)
| Print (msg : string)         (* [print] *)
| Bar (total : Z) (desc : option string)   (* [tqdm(total=.., desc=..)] *)
| BarUpdate (n : Z).           (* [pbar.update(n)] *)

Record World := mkWorld {
  (** the file 'cookies.json' in the working directory *)
  jar : jar_file;
  (** [Some msg]: opening 'cookies.json' for writing raises [IOError] *)
  jar_write_error : option string;
  (** what downloads wrote, by the text of the path they opened *)
  disk : gmap string string;
  (** paths [open(path, 'wb')] refuses, with the [OSError] message *)
  disk_write_error : gmap string string;
  (** the path texts that name the file 'cookies.json' of the working
      directory, such as './cookies.json' *)
  cookie_paths : string -> bool;
  (** what the cookie file is once it holds the given bytes, that is
      what [open] and [json.load] then make of it *)
  jar_of_bytes : string -> jar_file;
  (** every call made to the [requests] session, oldest first *)
  sent : list http_request;
  (** log lines, prints and progress-bar updates, oldest first *)
  console : list output
}.

Record Env := mkEnv { self : Http; world : World }.

Definition with_base_url (v : string) (h : Http) : Http :=
  {| base_url := v; session := session h; headers := headers h;
     cookies := cookies h; auth := auth h; timeout := timeout h;
     follow_redirects := follow_redirects h;
     _error_message := _error_message h; _error_code := _error_code h |}.

Definition with_session (v : nat) (h : Http) : Http :=
  {| base_url := base_url h; session := v; headers := headers h;
     cookies := cookies h; auth := auth h; timeout := timeout h;
     follow_redirects := follow_redirects h;
     _error_message := _error_message h; _error_code := _error_code h |}.

Definition with_headers (v : gmap string string) (h : Http) : Http :=
  {| base_url := base_url h; session := session h; headers := v;
     cookies := cookies h; auth := auth h; timeout := timeout h;
     follow_redirects := follow_redirects h;
     _error_message := _error_message h; _error_code := _error_code h |}.

Definition with_cookies (v : gmap string string) (h : Http) : Http :=
  {| base_url := base_url h; session := session h; headers := headers h;
     cookies := v; auth := auth h; timeout := timeout h;
     follow_redirects := follow_redirects h;
     _error_message := _error_message h; _error_code := _error_code h |}.

Definition with_auth (v : option (string * string)) (h : Http) : Http :=
  {| base_url := base_url h; session := session h; headers := headers h;
     cookies := cookies h; auth := v; timeout := timeout h;
     follow_redirects := follow_redirects h;
     _error_message := _error_message h; _error_code := _error_code h |}.

Definition with_timeout (v : option Z) (h : Http) : Http :=
  {| base_url := base_url h; session := session h; headers := headers h;
     cookies := cookies h; auth := auth h; timeout := v;
     follow_redirects := follow_redirects h;
     _error_message := _error_message h; _error_code := _error_code h |}.

Definition with_follow_redirects (v : bool) (h : Http) : Http :=
  {| base_url := base_url h; session := session h; headers := headers h;
     cookies := cookies h; auth := auth h; timeout := timeout h;
     follow_redirects := v;
     _error_message := _error_message h; _error_code := _error_code h |}.

Definition with_error_message (v : option string) (h : Http) : Http :=
  {| base_url := base_url h; session := session h; headers := headers h;
     cookies := cookies h; auth := auth h; timeout := timeout h;
     follow_redirects := follow_redirects h;
     _error_message := v; _error_code := _error_code h |}.

Definition with_error_code (v : option Z) (h : Http) : Http :=
  {| base_url := base_url h; session := session h; headers := headers h;
     cookies := cookies h; auth := auth h; timeout := timeout h;
     follow_redirects := follow_redirects h;
     _error_message := _error_message h; _error_code := v |}.

Definition with_jar (v : jar_file) (w : World) : World :=
  {| jar := v; jar_write_error := jar_write_error w; disk := disk w;
     disk_write_error := disk_write_error w;
     cookie_paths := cookie_paths w; jar_of_bytes := jar_of_bytes w; sent := sent w;
     console := console w |}.

Definition with_disk (v : gmap string string) (w : World) : World :=
  {| jar := jar w; jar_write_error := jar_write_error w; disk := v;
     disk_write_error := disk_write_error w;
     cookie_paths := cookie_paths w; jar_of_bytes := jar_of_bytes w; sent := sent w;
     console := console w |}.

Definition with_sent (v : list http_request) (w : World) : World :=
  {| jar := jar w; jar_write_error := jar_write_error w; disk := disk w;
     disk_write_error := disk_write_error w;
     cookie_paths := cookie_paths w; jar_of_bytes := jar_of_bytes w; sent := v;
     console := console w |}.

Definition with_console (v : list output) (w : World) : World :=
  {| jar := jar w; jar_write_error := jar_write_error w; disk := disk w;
     disk_write_error := disk_write_error w;
     cookie_paths := cookie_paths w; jar_of_bytes := jar_of_bytes w; sent := sent w;
     console := v |}.

(** The files once the file opened as [path] holds [bytes]: when the
    path names the cookie file, this is a change of the cookie file. *)
Definition holding (path bytes : string) (w : World) : World :=
  with_disk (<[path := bytes]> (disk w))
    (if cookie_paths w path then with_jar (jar_of_bytes w bytes) w else w).

(** Reading and assigning attributes of [self]; acting on the world. *)
Definition getattr {A} (f : Http -> A) : M Env A := gets (fun s => f (self s)).

Definition setattr (upd : Http -> Http) : M Env unit :=
  modify (fun s => {| self := upd (self s); world := world s |}).

Definition inspect {A} (f : World -> A) : M Env A := gets (fun s => f (world s)).

Definition act (upd : World -> World) : M Env unit :=
  modify (fun s => {| self := self s; world := upd (world s) |}).

Definition emit (o : output) : M Env unit :=
  act (fun w => with_console (console w ++ [o]) w).

(** ** Library calls *)

Definition COOKIE_FILE : string := "cookies.json".

(** [with open('cookies.json', 'r') as file: json.load(file)] *)
Definition json_load_cookie_file : M Env pyobj :=
  j <~ inspect jar;
  match j with
  | Absent => raise (IOError "[Errno 2] No such file or directory: 'cookies.json'")
  | Unreadable msg => raise (IOError msg)
  | Malformed msg => raise (JSONDecodeError msg)
  | NotAnObject => ret PyOther
  | Object d => ret (PyDict d)
  end.

(** [with open('cookies.json', 'w') as file: json.dump(d, file)] *)
Definition json_dump_cookie_file (d : gmap string string) : M Env unit :=
  err <~ inspect jar_write_error;
  match err with
  | Some msg => raise (IOError msg)
  | None => act (with_jar (Object d))
  end.

(** [{**a, **b}]: the entries of [a] overridden by those of [b].  Only a
    mapping can be unpacked. *)
Definition dict_unpack (a b : pyobj) : M Env (gmap string string) :=
  match a, b with
  | PyDict da, PyDict db => ret (db ∪ da)
  | _, _ => raise (TypeError "object is not a mapping")
  end.

(** [requests.utils.dict_from_cookiejar]: one entry per cookie name, a
    later cookie of the same name replacing an earlier one. *)
Definition dict_from_cookiejar (cj : list (string * string)) : gmap string string :=
  foldl (fun d c => <[c.1 := c.2]> d) ∅ cj.

(** [session.request], [session.get], [session.post]: the call is
    recorded and the library's answer returned or raised. *)
Definition session_call (net : http_request -> net_result) (req : http_request)
    : M Env Response :=
  act (fun w => with_sent (sent w ++ [req]) w) ;>
  match net req with
  | Responds r => ret r
  | Fails msg r => raise (RequestException msg r)
  end.

(** [response.raise_for_status()] *)
Definition raise_for_status (r : Response) : M Env unit :=
  let code := resp_status_code r in
  if (400 <=? code) && (code <? 500) then
    raise (RequestException
             (pretty code ++ " Client Error: " ++ resp_reason r
                ++ " for url: " ++ resp_url r) (Some r))
  else if (500 <=? code) && (code <? 600) then
    raise (RequestException
             (pretty code ++ " Server Error: " ++ resp_reason r
                ++ " for url: " ++ resp_url r) (Some r))
  else ret tt.

(** The value a verb method returns. *)
Inductive body : Type :=
| Json (v : json)
| Text (s : string).

(** [response.json()]; a body that does not decode raises
    [requests.exceptions.JSONDecodeError], which in requests 2.27 and
    later is a [RequestException] that carries no response. *)
Definition response_json (r : Response) : M Env body :=
  match resp_json r with
  | Some v => ret (Json v)
  | None => raise (RequestException (resp_json_error r) None)
  end.

(** [getattr(e.response, 'status_code', None)] *)
Definition status_code_of (e : exn) : option Z :=
  match e with
  | RequestException _ (Some r) => Some (resp_status_code r)
  | _ => None
  end.

(** [str(x)] of an optional status code, as an f-string prints it. *)
Definition show_code (c : option Z) : string :=
  match c with Some n => pretty n | None => "None" end.

(** Keyword arguments a verb method passes on to [_request]. *)
Record kwargs := mkKwargs { kw_params : option json; kw_json : option json }.

(** ** The FTP side

    [upload_ftp] does not touch [self]; it talks to an FTP server through
    [ftplib] and reads one local file.  The server is a directory tree
    with accounts; it answers 5xx ([error_perm]) to a [CWD] into a
    directory that does not exist, to an [MKD] of a directory that
    exists or whose parent does not, and to [MKD] and [STOR] when it is
    read-only.  These and a refused connection are the failures of the
    model: 4xx replies, timeouts and connections that drop are not in
    it. *)

(** Server paths are lists of names from the root. *)
Definition step_into (cur : list string) (name : string) : list string :=
  if String.eqb name "" || String.eqb name "." then cur
  else if String.eqb name ".." then removelast cur
  else cur ++ [name].

(** The directory a path names, seen from the directory [cwd]. *)
Definition resolve (cwd : list string) (p : string) : list string :=
  foldl step_into (if PyStr.startswith "/" p then [] else cwd)
        (PyStr.split PyStr.slash p).

(** A directory exists when it is the root or lies on the way to a
    listed directory. *)
Definition dir_exists (dirs : list (list string)) (d : list string) : bool :=
  bool_decide (d = []) || existsb (fun l => bool_decide (d `prefix_of` l)) dirs.

Record FtpServer := mkServer {
  srv_listening : bool;
  srv_accounts : list (string * string);
  srv_home : list string;
  srv_dirs : list (list string);
  (** stored files, newest first: directory, name, contents *)
  srv_files : list (list string * string * string);
  srv_readonly : bool
}.

Inductive ftp_command : Type :=
| CONNECT (host : string) (port : Z)
| LOGIN (user : string)
| CWD (dirname : string)
| MKD (dirname : string)
| STOR (name : string) (data : string)
| QUIT.

Record FtpWorld := mkFtpWorld {
  server : FtpServer;
  (** local files, by path *)
  local_files : gmap string string;
  (** [ftp.sock]: the control connection is open *)
  ftp_sock : bool;
  ftp_passive : bool;
  (** the directory the session is in *)
  ftp_cwd : list string;
  (** commands sent to the server, oldest first *)
  commands : list ftp_command;
  ftp_console : list output
}.

Definition with_server (v : FtpServer) (w : FtpWorld) : FtpWorld :=
  {| server := v; local_files := local_files w; ftp_sock := ftp_sock w;
     ftp_passive := ftp_passive w; ftp_cwd := ftp_cwd w;
     commands := commands w; ftp_console := ftp_console w |}.

Definition with_sock (v : bool) (w : FtpWorld) : FtpWorld :=
  {| server := server w; local_files := local_files w; ftp_sock := v;
     ftp_passive := ftp_passive w; ftp_cwd := ftp_cwd w;
     commands := commands w; ftp_console := ftp_console w |}.

Definition with_passive (v : bool) (w : FtpWorld) : FtpWorld :=
  {| server := server w; local_files := local_files w; ftp_sock := ftp_sock w;
     ftp_passive := v; ftp_cwd := ftp_cwd w;
     commands := commands w; ftp_console := ftp_console w |}.

Definition with_cwd (v : list string) (w : FtpWorld) : FtpWorld :=
  {| server := server w; local_files := local_files w; ftp_sock := ftp_sock w;
     ftp_passive := ftp_passive w; ftp_cwd := v;
     commands := commands w; ftp_console := ftp_console w |}.

Definition with_commands (v : list ftp_command) (w : FtpWorld) : FtpWorld :=
  {| server := server w; local_files := local_files w; ftp_sock := ftp_sock w;
     ftp_passive := ftp_passive w; ftp_cwd := ftp_cwd w;
     commands := v; ftp_console := ftp_console w |}.

Definition with_ftp_console (v : list output) (w : FtpWorld) : FtpWorld :=
  {| server := server w; local_files := local_files w; ftp_sock := ftp_sock w;
     ftp_passive := ftp_passive w; ftp_cwd := ftp_cwd w;
     commands := commands w; ftp_console := v |}.

Definition with_dirs (v : list (list string)) (s : FtpServer) : FtpServer :=
  {| srv_listening := srv_listening s; srv_accounts := srv_accounts s;
     srv_home := srv_home s; srv_dirs := v; srv_files := srv_files s;
     srv_readonly := srv_readonly s |}.

Definition with_files (v : list (list string * string * string)) (s : FtpServer)
    : FtpServer :=
  {| srv_listening := srv_listening s; srv_accounts := srv_accounts s;
     srv_home := srv_home s; srv_dirs := srv_dirs s; srv_files := v;
     srv_readonly := srv_readonly s |}.

Module Ftp.

Definition send (c : ftp_command) : M FtpWorld unit :=
  modify (fun w => with_commands (commands w ++ [c]) w).

Definition logging (o : output) : M FtpWorld unit :=
  modify (fun w => with_ftp_console (ftp_console w ++ [o]) w).

(** [FTP()]: a new client object, not connected, passive by default. *)
Definition FTP : M FtpWorld unit :=
  modify (fun w => with_passive true (with_sock false w)).

(** [ftp.connect(host, port)] *)
Definition connect (host : string) (port : Z) : M FtpWorld unit :=
  send (CONNECT host port) ;>
  up <~ gets (fun w => srv_listening (server w));
  if up : bool then modify (with_sock true)
  else raise (IOError "[Errno 111] Connection refused").

(** [ftp.login(user=.., passwd=..)] *)
Definition login (user passwd : string) : M FtpWorld unit :=
  send (LOGIN user) ;>
  known <~ gets (fun w => bool_decide ((user, passwd) ∈ srv_accounts (server w)));
  if known : bool then
    home <~ gets (fun w => srv_home (server w));
    modify (with_cwd home)
  else raise (error_perm "530 Login incorrect.").

(** [ftp.set_pasv(val)] *)
Definition set_pasv (val : bool) : M FtpWorld unit := modify (with_passive val).

(** [ftp.cwd(dirname)] *)
Definition cwd (dirname : string) : M FtpWorld unit :=
  send (CWD dirname) ;>
  target <~ gets (fun w => resolve (ftp_cwd w) dirname);
  found <~ gets (fun w => dir_exists (srv_dirs (server w)) target);
  if found : bool then modify (with_cwd target)
  else raise (error_perm ("550 " ++ dirname ++ ": No such file or directory")).

(** [ftp.mkd(dirname)] *)
Definition mkd (dirname : string) : M FtpWorld unit :=
  send (MKD dirname) ;>
  target <~ gets (fun w => resolve (ftp_cwd w) dirname);
  srv <~ gets server;
  if srv_readonly srv then
    raise (error_perm ("550 " ++ dirname ++ ": Permission denied"))
  else if dir_exists (srv_dirs srv) target then
    raise (error_perm ("550 " ++ dirname ++ ": File exists"))
  else if negb (dir_exists (srv_dirs srv) (removelast target)) then
    raise (error_perm ("550 " ++ dirname ++ ": No such file or directory"))
  else modify (with_server (with_dirs (target :: srv_dirs srv) srv)).

(** The blocks [fp.read(blocksize)] returns until the file is
    exhausted; [fuel] bounds their number. *)
Fixpoint blocks (fuel blocksize : nat) (data : string) : list string :=
  match fuel with
  | O => []
  | S fuel' =>
      if String.eqb data "" then []
      else String.substring 0 blocksize data
             :: blocks fuel' blocksize (PyStr.slice_from blocksize data)
  end.

(** [ftp.storbinary('STOR ' + name, file, callback=callback)] with the
    default block size, [callback] being [pbar.update(len(data))]. *)
Definition storbinary (name data : string) : M FtpWorld unit :=
  send (STOR name data) ;>
  srv <~ gets server;
  if srv_readonly srv then
    raise (error_perm ("553 " ++ name ++ ": Permission denied"))
  else
    here <~ gets ftp_cwd;
    modify (with_server (with_files ((here, name, data) :: srv_files srv) srv)) ;>
    modify (fun w =>
              with_ftp_console
                (ftp_console w
                   ++ map (fun b => BarUpdate (Z.of_nat (String.length b)))
                          (blocks (String.length data) (Z.to_nat 8192) data)) w).

(** [ftp.quit()] *)
Definition quit : M FtpWorld unit :=
  send QUIT ;> modify (with_sock false).

End Ftp.

(** ** The methods of [Http] *)
Module HttpOld.


Definition set_header (key value : string) : M Env unit :=
  h <~ getattr headers;
  setattr (with_headers (<[key := value]> h)).



Definition set_bearer_auth (token : string) : M Env unit :=
  set_header "Authorization" ("Bearer " ++ token).


Definition set_follow_redirects (follow : bool) : M Env unit :=
  setattr (with_follow_redirects follow).

Definition set_cookie (name value : string) : M Env unit :=
  c <~ getattr cookies;
  setattr (with_cookies (<[name := value]> c)).

(** The inner [try] of [_save_cookies] and of [_request]: the file
    'cookies.json' decoded, or [{}] when [IOError] or
    [JSONDecodeError] is raised. *)
Definition load_cookie_file : M Env pyobj :=
  try_except json_load_cookie_file
    (fun e => is_IOError e || is_JSONDecodeError e)
    (fun _ => ret (PyDict ∅)).

Definition _save_cookies (cookie_jar : list (string * string)) : M Env unit :=
  try_except
    (existing_cookies <~ load_cookie_file;
     let new_cookies := dict_from_cookiejar cookie_jar in
     all_cookies <~ dict_unpack existing_cookies (PyDict new_cookies);
     json_dump_cookie_file all_cookies ;>
     emit (Info "Cookies saved to file 'cookies.json'"))
    is_IOError
    (fun e => emit (Error ("Error saving cookies to file: " ++ str_exn e))).

(** Lines 161 to 179 of [_request]: everything before the call to the
    session.  Returns the arguments of that call. *)
Definition _request_setup (method url : string) (kw : kwargs) : M Env http_request :=
  saved_cookies <~ load_cookie_file;
  own_cookies <~ getattr cookies;
  combined_cookies <~ dict_unpack saved_cookies (PyDict own_cookies);
  h <~ getattr headers;
  a <~ getattr auth;
  t <~ getattr timeout;
  f <~ getattr follow_redirects;
  setattr (with_error_message None) ;>
  setattr (with_error_code None) ;>
  setattr (with_base_url url) ;>
  ret {| req_method := method; req_url := url;
         req_params := kw_params kw; req_json := kw_json kw;
         req_headers := h; req_auth := a; req_timeout := t;
         req_allow_redirects := f; req_cookies := combined_cookies;
         req_stream := false |}.

Definition _request (net : http_request -> net_result)
    (method url : string) (kw : kwargs) : M Env body :=
  try_except
    (req <~ _request_setup method url kw;
     response <~ session_call net req;
     raise_for_status response ;>
     _save_cookies (resp_cookies response) ;>
     if PyStr.contains "application/json"
          (default "" (resp_content_type response))
     then response_json response
     else ret (Text (resp_text response)))
    is_RequestException
    (fun e =>
       setattr (with_error_message (Some (str_exn e))) ;>
       setattr (with_error_code (status_code_of e)) ;>
       code <~ getattr _error_code;
       emit (Error (PyStr.upper method ++ " request to " ++ url ++ " failed: "
                      ++ str_exn e ++ " (code: " ++ show_code code ++ ")")) ;>
       raise e).

Definition get net (url : string) (params : option json) : M Env body :=
  _request net "get" url {| kw_params := params; kw_json := None |}.




(** [os.path.join(download_dir, filename)]; a [filename] of [None]
    raises [TypeError]. *)
Definition os_path_join (a : string) (b : option string) : M Env string :=
  match b with
  | Some f => ret (PyPath.join a f)
  | None =>
      raise (TypeError "expected str, bytes or os.PathLike object, not NoneType")
  end.

(** [int(response.headers.get('content-length', 0))] *)
Definition content_length (r : Response) : M Env Z :=
  match resp_content_length r with
  | None => ret 0
  | Some s =>
      match PyStr.int s with
      | Some n => ret n
      | None =>
          raise (ValueError ("invalid literal for int() with base 10: '" ++ s ++ "'"))
      end
  end.

(** Lines 360 to 369: the name in the content-disposition header if it
    has one, else [file_name]. *)
Definition choose_filename (r : Response) (file_name : option string)
    : option string :=
  match resp_content_disposition r with
  | Some content_disposition =>
      if String.eqb content_disposition "" then file_name
      else match PyStr.find "filename=" content_disposition with
           | Some filename_index =>
               Some (PyStr.strip PyStr.quote
                       (PyStr.slice_from
                          (filename_index + String.length "filename=")
                          content_disposition))
           | None => file_name
           end
  | None => file_name
  end.

(** [open(download_path, 'wb')]: the file is created or emptied. *)
Definition open_wb (path : string) : M Env unit :=
  refused <~ inspect (fun w => disk_write_error w !! path);
  match refused with
  | Some msg => raise (IOError msg)
  | None => act (holding path "")
  end.

(** [file.write(chunk)] *)
Definition file_write (path chunk : string) : M Env unit :=
  act (fun w => holding path (default "" (disk w !! path) ++ chunk) w).

(** The body of the [for chunk in ...] loop, over the chunks the
    iterator yields. *)
Fixpoint write_chunks (path : string) (chunks : list string) : M Env unit :=
  match chunks with
  | [] => ret tt
  | chunk :: rest =>
      (if String.eqb chunk "" then ret tt
       else file_write path chunk ;>
            emit (BarUpdate (Z.of_nat (String.length chunk)))) ;>
      write_chunks path rest
  end.

(** Lines 356 to 387 of [download_large_file]: what is done with the
    response once the session has returned it. *)
Definition store_response (dir : string) (file_name : option string)
    (chunk_size : Z) (response : Response) : M Env pyret :=
  raise_for_status response ;>
  total_size <~ content_length response;
  let filename := choose_filename response file_name in
  download_path <~ os_path_join dir filename;
  open_wb download_path ;>
  emit (Bar total_size filename) ;>
  (let '(chunks, broken) := resp_iter_content response chunk_size in
   write_chunks download_path chunks ;>
   match broken with
   | Some msg => raise (RequestException msg None)
   | None => ret tt
   end) ;>
  present <~ inspect (fun w => bool_decide (is_Some (disk w !! download_path)));
  if present : bool then ret (PyPathStr download_path)
  else emit (Print "Downloaded file not found.") ;> ret PyNone.

Definition download_large_file (net : http_request -> net_result)
    (url method : string) (params : option json) (chunk_size : Z)
    (download_dir file_name : option string) : M Env pyret :=
  match download_dir with
  | None | Some EmptyString =>
      emit (Print "No download directory provided. Download skipped.") ;>
      ret PyFalse
  | Some dir =>
      try_except
        (h <~ getattr headers;
         c <~ getattr cookies;
         a <~ getattr auth;
         t <~ getattr timeout;
         response <~
           (if String.eqb (PyStr.lower method) "get" then
              session_call net
                {| req_method := "GET"; req_url := url;
                   req_params := params; req_json := None;
                   req_headers := h; req_auth := a; req_timeout := t;
                   req_allow_redirects := true; req_cookies := c;
                   req_stream := true |}
            else if String.eqb (PyStr.lower method) "post" then
              session_call net
                {| req_method := "POST"; req_url := url;
                   req_params := None; req_json := params;
                   req_headers := h; req_auth := a; req_timeout := t;
                   req_allow_redirects := true; req_cookies := c;
                   req_stream := true |}
            else raise (ValueError ("Unsupported HTTP method: " ++ method)));
         store_response dir file_name chunk_size response)
        is_RequestException
        (fun e =>
           emit (Print ("Error downloading large file: " ++ str_exn e)) ;>
           ret PyNone)
  end.

(** The [for dir in dirs] loop of [upload_ftp], [current_dir] being
    the prefix built so far. *)
Fixpoint make_dirs (dirs : list string) (current_dir : string) : M FtpWorld unit :=
  match dirs with
  | [] => ret tt
  | dir :: rest =>
      if String.eqb dir "" then make_dirs rest current_dir
      else
        let current_dir := current_dir ++ "/" ++ dir in
        try_except (Ftp.cwd current_dir) is_error_perm
          (fun _ => Ftp.mkd current_dir ;> Ftp.cwd current_dir) ;>
        make_dirs rest current_dir
  end.

(** The [finally] clause of [upload_ftp]. *)
Definition disconnect (host : string) (port : Z) (w : FtpWorld) : FtpWorld :=
  if ftp_sock w then
    snd ((Ftp.quit ;>
          Ftp.logging (Info ("Disconnected from FTP server " ++ host ++ ":"
                               ++ pretty port ++ "."))) w)
  else w.

(** Lines 268 to 272 of [upload_ftp]: connect, log in, set the mode. *)
Definition open_session (host username password : string) (port : Z)
    (passive : bool) : M FtpWorld unit :=
  Ftp.FTP ;>
  Ftp.connect host port ;>
  Ftp.login username password ;>
  Ftp.set_pasv passive ;>
  Ftp.logging (Info ("Connected to FTP server " ++ host ++ ":" ++ pretty port
                       ++ " with passive mode set to "
                       ++ (if passive then "True" else "False") ++ ".")).

(** Lines 275 to 293: enter the target directory, creating it level by
    level if it cannot be entered.  [Some r] stands for the [return r]
    of the inner handler, [None] for falling through. *)
Definition ensure_directory (upload_dir : string) : M FtpWorld (option pyret) :=
  try_except (Ftp.cwd upload_dir ;> ret None) is_error_perm
    (fun _ =>
       Ftp.logging (Info ("Directory " ++ upload_dir
                            ++ " does not exist. Creating it.")) ;>
       try_except
         (make_dirs (PyStr.split PyStr.slash upload_dir) "" ;> ret None)
         (fun _ => true)
         (fun e =>
            Ftp.logging (Error ("Failed to create directory " ++ upload_dir
                                  ++ ": " ++ str_exn e)) ;>
            ret (Some PyNone))).

(** Lines 295 to 315: send the file and compose the remote path. *)
Definition transfer_file (file_path upload_dir : string) : M FtpWorld pyret :=
  Ftp.logging (Info ("Changed to directory " ++ upload_dir ++ " on FTP server.")) ;>
  data <~ gets (fun w => default "" (local_files w !! file_path));
  let file_size := Z.of_nat (String.length data) in
  let name := PyPath.basename file_path in
  Ftp.logging (Bar file_size (Some name)) ;>
  Ftp.storbinary name data ;>
  Ftp.logging (Info ("File " ++ name ++ " uploaded and overwritten successfully.")) ;>
  let uploaded_path := upload_dir ++ "/" ++ name in
  Ftp.logging (Info ("File uploaded successfully to " ++ uploaded_path ++ ".")) ;>
  ret (PyPathStr uploaded_path).

Definition upload_ftp (host username password file_path upload_dir : string)
    (port : Z) (passive : bool) : M FtpWorld pyret :=
  isfile <~ gets (fun w => bool_decide (is_Some (local_files w !! file_path)));
  if negb isfile then
    Ftp.logging (Error ("The file " ++ file_path ++ " does not exist.")) ;>
    ret PyNone
  else
    try_finally
      (try_except
         (open_session host username password port passive ;>
          returned <~ ensure_directory upload_dir;
          match returned with
          | Some r => ret r
          | None => transfer_file file_path upload_dir
          end)
         (fun _ => true)
         (fun e =>
            Ftp.logging (Error ("Error uploading file: " ++ str_exn e)) ;>
            ret PyNone))
      (disconnect host port).

Definition reset : M Env unit :=
  setattr (with_base_url "") ;>
  s <~ getattr session;
  setattr (with_session (S s)) ;>
  setattr (with_headers ∅) ;>
  setattr (with_cookies ∅) ;>
  setattr (with_auth None) ;>
  setattr (with_timeout None) ;>
  setattr (with_follow_redirects true) ;>
  setattr (with_error_message None) ;>
  setattr (with_error_code None).

Definition get_error_message : M Env (option string) := getattr _error_message.

Definition get_error_code : M Env (option Z) := getattr _error_code.

(** The [for unit in ...] loop of [_format_size].  [size] is the exact
    quotient: for an integer argument below 2^53 the floats Python
    computes are these numbers, a division by 1024.0 being exact in
    binary floating point. *)
Fixpoint format_loop (units : list string) (size : Q) : option (Q * string) :=
  match units with
  | [] => None
  | unit :: rest =>
      if Qlt_le_dec size 1024 then Some (size, unit)
      else format_loop rest (size / 1024)%Q
  end.

(** [_format_size(size)] for an integer [size]; [None] is Python's
    [None], returned when the loop ends without a [return]. *)
Definition _format_size (size : Z) : option (Q * string) :=
  format_loop ["bytes"; "KB"; "MB"; "GB"; "TB"] (inject_Z size).

End HttpOld.

(** ** Notions used in the statements *)

(** A returned failure indicator: [False] or [None]. *)
Definition failure_result (o : outcome pyret) : Prop :=
  o = Returned PyFalse \/ o = Returned PyNone.

(** An answering server and a fresh client, used in the examples. *)
Definition plain_response : Response :=
  {| resp_status_code := 200; resp_reason := "OK"; resp_url := "http://host/file";
     resp_content_type := Some "application/octet-stream";
     resp_content_length := Some "4"; resp_content_disposition := None;
     resp_cookies := []; resp_text := "data"; resp_json := None;
     resp_json_error := "Expecting value: line 1 column 1 (char 0)";
     resp_iter_content := fun _ => (["da"; ""; "ta"], None) |}.

(** In the examples the cookie file is reached as 'cookies.json' and
    as './cookies.json', and no download carries JSON text: whatever a
    download writes into the cookie file, [json.load] rejects at its
    first character (an empty file as well). *)
Definition cwd_cookie_paths (p : string) : bool :=
  String.eqb p "cookies.json" || String.eqb p "./cookies.json".

Definition no_json (bytes : string) : jar_file :=
  Malformed "Expecting value: line 1 column 1 (char 0)".

Definition quiet_world : World :=
  {| jar := Absent; jar_write_error := None; disk := ∅;
     disk_write_error := ∅; cookie_paths := cwd_cookie_paths;
     jar_of_bytes := no_json; sent := []; console := [] |}.

Definition fresh_env : Env := {| self := __init__; world := quiet_world |}.

(** The state [env] with the cookie file replaced. *)
Definition set_jar (j : jar_file) (env : Env) : Env :=
  {| self := self env; world := with_jar j (world env) |}.

(** The state [env] in which opening the cookie file for writing
    fails ([Some msg]) or succeeds ([None]). *)
Definition set_jar_write_error (err : option string) (env : Env) : Env :=
  {| self := self env;
     world := {| jar := jar (world env); jar_write_error := err;
                 disk := disk (world env);
                 disk_write_error := disk_write_error (world env);
                 cookie_paths := cookie_paths (world env);
                 jar_of_bytes := jar_of_bytes (world env);
                 sent := sent (world env); console := console (world env) |} |}.

(** The state [env] after one more line of output. *)
Definition logged (o : output) (env : Env) : Env :=
  {| self := self env; world := with_console (console (world env) ++ [o]) (world env) |}.

(** The mapping the cookie file stands for when it is read tolerantly:
    its entries when it holds a JSON object, none otherwise. *)
Definition persisted_cookies (j : jar_file) : gmap string string :=
  match j with Object d => d | _ => ∅ end.

(** [response.raise_for_status()] raises for these status codes. *)
Definition error_status (r : Response) : bool :=
  (400 <=? resp_status_code r) && (resp_status_code r <? 600).

(** The arguments [_request] hands to [session.request]: the client's
    settings and the cookie file's entries overridden by the client's
    own cookies. *)
Definition dispatch_request (method url : string) (kw : kwargs) (env : Env)
    : http_request :=
  {| req_method := method; req_url := url;
     req_params := kw_params kw; req_json := kw_json kw;
     req_headers := headers (self env); req_auth := auth (self env);
     req_timeout := timeout (self env);
     req_allow_redirects := follow_redirects (self env);
     req_cookies := cookies (self env) ∪ persisted_cookies (jar (world env));
     req_stream := false |}.

(** The state after lines 177 to 179. *)
Definition cleared (url : string) (env : Env) : Env :=
  {| self := with_base_url url
               (with_error_code None (with_error_message None (self env)));
     world := world env |}.

(** The state after a call to the session has been recorded. *)
Definition sending (req : http_request) (env : Env) : Env :=
  {| self := self env; world := with_sent (sent (world env) ++ [req]) (world env) |}.

(** The state after [_save_cookies] has run on a loadable cookie file. *)
Definition after_save (cookie_jar : list (string * string)) (env : Env) : Env :=
  match jar_write_error (world env) with
  | Some msg => logged (Error ("Error saving cookies to file: " ++ msg)) env
  | None =>
      logged (Info "Cookies saved to file 'cookies.json'")
        (set_jar (Object (dict_from_cookiejar cookie_jar
                            ∪ persisted_cookies (jar (world env)))) env)
  end.

(** The state after the handler of [_request] has recorded [e]. *)
Definition failed (method url : string) (e : exn) (env : Env) : Env :=
  logged (Error (PyStr.upper method ++ " request to " ++ url ++ " failed: "
                   ++ str_exn e ++ " (code: " ++ show_code (status_code_of e) ++ ")"))
    {| self := with_error_code (status_code_of e)
                 (with_error_message (Some (str_exn e)) (self env));
       world := world env |}.

(** The [HTTPError] that [raise_for_status] raises for [r]. *)
Definition http_error (r : Response) : exn :=
  RequestException
    (pretty (resp_status_code r)
       ++ (if resp_status_code r <? 500 then " Client Error: " else " Server Error: ")
       ++ resp_reason r ++ " for url: " ++ resp_url r) (Some r).

(** The exception of a body that does not decode. *)
Definition undecodable (r : Response) : exn :=
  RequestException (resp_json_error r) None.

(** Only [sent] and [console] differ between two worlds. *)
Definition same_files (w w' : World) : Prop :=
  jar w' = jar w /\ jar_write_error w' = jar_write_error w
  /\ disk w' = disk w /\ disk_write_error w' = disk_write_error w.

(** Example answers: a missing page, and a JSON page that sets two
    cookies. *)
Definition not_found_response : Response :=
  {| resp_status_code := 404; resp_reason := "Not Found";
     resp_url := "http://host/x";
     resp_content_type := Some "text/html"; resp_content_length := None;
     resp_content_disposition := None; resp_cookies := [];
     resp_text := "not here"; resp_json := None;
     resp_json_error := "Expecting value: line 1 column 1 (char 0)";
     resp_iter_content := fun _ => ([], None) |}.

Definition json_response : Response :=
  {| resp_status_code := 200; resp_reason := "OK"; resp_url := "http://host/x";
     resp_content_type := Some "application/json; charset=utf-8";
     resp_content_length := None; resp_content_disposition := None;
     resp_cookies := [("a", "2"); ("b", "3")];
     resp_text := "{}"; resp_json := Some (JObject [("ok", JBool true)]);
     resp_json_error := "";
     resp_iter_content := fun _ => ([], None) |}.

(** The client after a GET that was answered 404. *)
Definition env_after_404 : Env :=
  snd (HttpOld.get (fun _ => Responds not_found_response) "http://host/x" None
         fresh_env).

(** An FTP server with one account and an empty tree, and a machine with
    one local file and no connection yet. *)
Definition empty_server : FtpServer :=
  {| srv_listening := true; srv_accounts := [("user", "secret")];
     srv_home := []; srv_dirs := []; srv_files := []; srv_readonly := false |}.

Definition ftp_start : FtpWorld :=
  {| server := empty_server;
     local_files := {[ "/tmp/report.txt" := "hello" ]};
     ftp_sock := false; ftp_passive := false; ftp_cwd := [];
     commands := []; ftp_console := [] |}.

(** The call [download_large_file] makes to the session, when the method
    is GET or POST in some letter case. *)
Definition stream_request (method url : string) (params : option json) (h : Http)
    : option http_request :=
  if String.eqb (PyStr.lower method) "get" then
    Some {| req_method := "GET"; req_url := url; req_params := params;
            req_json := None; req_headers := headers h; req_auth := auth h;
            req_timeout := timeout h; req_allow_redirects := true;
            req_cookies := cookies h; req_stream := true |}
  else if String.eqb (PyStr.lower method) "post" then
    Some {| req_method := "POST"; req_url := url; req_params := None;
            req_json := params; req_headers := headers h; req_auth := auth h;
            req_timeout := timeout h; req_allow_redirects := true;
            req_cookies := cookies h; req_stream := true |}
  else None.

(** The total size read from the content-length header. *)
Definition declared_length (r : Response) : option Z :=
  match resp_content_length r with
  | None => Some 0
  | Some s => PyStr.int s
  end.

(** The [ValueError] of a content-length that is not a number. *)
Definition bad_length (r : Response) : exn :=
  ValueError ("invalid literal for int() with base 10: '"
                ++ default "" (resp_content_length r) ++ "'").

(** The [TypeError] of [os.path.join(download_dir, None)]. *)
Definition no_filename : exn :=
  TypeError "expected str, bytes or os.PathLike object, not NoneType".

(** The state after the destination file and the progress bar are opened. *)
Definition opened (path : string) (total : Z) (filename : string) (env : Env) : Env :=
  logged (Bar total (Some filename))
    {| self := self env; world := holding path "" (world env) |}.

(** The state after the handler of [download_large_file] has run. *)
Definition download_failed (e : exn) (env : Env) : Env :=
  logged (Print ("Error downloading large file: " ++ str_exn e)) env.

(** What [store_response] comes to, branch by branch. *)
Definition stored (dir : string) (file_name : option string) (chunk_size : Z)
    (r : Response) (env1 : Env) : outcome pyret * Env :=
  if error_status r then (Raised (http_error r), env1)
  else
    match declared_length r with
    | None => (Raised (bad_length r), env1)
    | Some total =>
        match HttpOld.choose_filename r file_name with
        | None => (Raised no_filename, env1)
        | Some filename =>
            let path := PyPath.join dir filename in
            match disk_write_error (world env1) !! path with
            | Some msg => (Raised (IOError msg), env1)
            | None =>
                let env2 :=
                  snd (HttpOld.write_chunks path
                         (fst (resp_iter_content r chunk_size))
                         (opened path total filename env1)) in
                match snd (resp_iter_content r chunk_size) with
                | Some msg => (Raised (RequestException msg None), env2)
                | None =>
                    if bool_decide (is_Some (disk (world env2) !! path))
                    then (Returned (PyPathStr path), env2)
                    else (Returned PyNone,
                          logged (Print "Downloaded file not found.") env2)
                end
            end
        end
    end.

(** What [download_large_file] comes to when a directory is given. *)
Definition downloaded (net : http_request -> net_result) (url method : string)
    (params : option json) (chunk_size : Z) (dir : string)
    (file_name : option string) (env : Env) : outcome pyret * Env :=
  match stream_request method url params (self env) with
  | None => (Raised (ValueError ("Unsupported HTTP method: " ++ method)), env)
  | Some req =>
      match net req with
      | Fails msg r =>
          (Returned PyNone,
           download_failed (RequestException msg r) (sending req env))
      | Responds r =>
          match stored dir file_name chunk_size r (sending req env) with
          | (Raised (RequestException msg r'), env2) =>
              (Returned PyNone, download_failed (RequestException msg r') env2)
          | other => other
          end
      end
  end.

(** The file name the content-disposition header carries, if any. *)
Definition disposition_filename (r : Response) : option string :=
  match resp_content_disposition r with
  | Some cd =>
      match PyStr.find "filename=" cd with
      | Some i => Some (PyStr.strip PyStr.quote (PyStr.slice_from (i + 9) cd))
      | None => None
      end
  | None => None
  end.

(** Between [env] and [env'] only the contents of files and the output
    differ. *)
Definition only_disk_and_console (env env' : Env) : Prop :=
  self env' = self env
  /\ jar_write_error (world env') = jar_write_error (world env)
  /\ disk_write_error (world env') = disk_write_error (world env)
  /\ cookie_paths (world env') = cookie_paths (world env)
  /\ jar_of_bytes (world env') = jar_of_bytes (world env)
  /\ sent (world env') = sent (world env).

(** The path [store_response] opens for writing, when the response gets
    it that far. *)
Definition target (dir : string) (file_name : option string) (r : Response)
    : option string :=
  if error_status r then None
  else match declared_length r, HttpOld.choose_filename r file_name with
       | Some _, Some filename => Some (PyPath.join dir filename)
       | _, _ => None
       end.


(** The state after one chunk that is not empty. *)
Definition chunk_written (path chunk : string) (env : Env) : Env :=
  logged (BarUpdate (Z.of_nat (String.length chunk)))
    {| self := self env;
       world := holding path (default "" (disk (world env) !! path) ++ chunk)
                  (world env) |}.

(** The character [c] occurs in [s]. *)
Fixpoint mentions (c : ascii) (s : string) : bool :=
  match s with
  | EmptyString => false
  | String a s' => Ascii.eqb a c || mentions c s'
  end.


Definition fresh_get_request : http_request :=
  {| req_method := "GET"; req_url := "http://host/file"; req_params := None;
     req_json := None; req_headers := ∅; req_auth := None; req_timeout := None;
     req_allow_redirects := true; req_cookies := ∅; req_stream := true |}.

(** A prefix the creation loop has built: empty, or starting at the root. *)
Definition rooted (p : string) : Prop := p = "" \/ PyStr.startswith "/" p = true.

(** The progressively longer prefixes the loop of [upload_ftp] builds
    from the pieces [dirs] of the path, starting from [current_dir]. *)
Fixpoint prefixes_from (current_dir : string) (dirs : list string) : list string :=
  match dirs with
  | [] => []
  | dir :: rest =>
      if String.eqb dir "" then prefixes_from current_dir rest
      else (current_dir ++ "/" ++ dir) :: prefixes_from (current_dir ++ "/" ++ dir) rest
  end.

(** The prefixes of [upload_dir]: for '/a/b/c' they are '/a', '/a/b' and
    '/a/b/c'. *)
Definition prefixes (upload_dir : string) : list string :=
  prefixes_from "" (PyStr.split PyStr.slash upload_dir).

(** Creating incrementally: for each prefix in turn, try to enter it;
    if it does not exist, create it and then enter it.  [dirs] are the
    directories that exist so far. *)
Fixpoint incremental_plan (dirs : list (list string)) (ps : list string)
    : list ftp_command :=
  match ps with
  | [] => []
  | p :: rest =>
      if dir_exists dirs (resolve [] p) then CWD p :: incremental_plan dirs rest
      else CWD p :: MKD p :: CWD p :: incremental_plan (resolve [] p :: dirs) rest
  end.

(** The session after one prefix has been entered, or created and
    entered. *)
Definition enter_or_create (p : string) (w : FtpWorld) : FtpWorld :=
  let t := resolve [] p in
  let w1 := with_commands (commands w ++ [CWD p]) w in
  if dir_exists (srv_dirs (server w)) t then with_cwd t w1
  else
    let w2 := with_commands (commands w1 ++ [MKD p]) w1 in
    let w3 := with_server (with_dirs (t :: srv_dirs (server w2)) (server w2)) w2 in
    let w4 := with_commands (commands w3 ++ [CWD p]) w3 in
    with_cwd t w4.

(** The session after the prefixes [ps] have been dealt with in turn. *)
Fixpoint walk (ps : list string) (w : FtpWorld) : FtpWorld :=
  match ps with
  | [] => w
  | p :: rest => walk rest (enter_or_create p w)
  end.

(** The session after [open_session] has gone through. *)
Definition session_opened (host : string) (port : Z) (username : string)
    (passive : bool) (w : FtpWorld) : FtpWorld :=
  let w0 := with_passive true (with_sock false w) in
  let w1 := with_commands (commands w0 ++ [CONNECT host port]) w0 in
  let w2 := with_sock true w1 in
  let w3 := with_commands (commands w2 ++ [LOGIN username]) w2 in
  let w4 := with_cwd (srv_home (server w3)) w3 in
  let w5 := with_passive passive w4 in
  with_ftp_console
    (ftp_console w5
       ++ [Info ("Connected to FTP server " ++ host ++ ":" ++ pretty port
                   ++ " with passive mode set to "
                   ++ (if passive then "True" else "False") ++ ".")]) w5.

(** The session after [ensure_directory] has created what was missing. *)
Definition directory_ensured (upload_dir : string) (w : FtpWorld) : FtpWorld :=
  let w1 := with_commands (commands w ++ [CWD upload_dir]) w in
  let w2 := with_ftp_console
              (ftp_console w1
                 ++ [Info ("Directory " ++ upload_dir ++ " does not exist. Creating it.")])
              w1 in
  walk (prefixes upload_dir) w2.

(** The session after [transfer_file] has gone through. *)
Definition file_transferred (file_path upload_dir data : string) (w : FtpWorld)
    : FtpWorld :=
  let name := PyPath.basename file_path in
  let w1 := with_ftp_console
              (ftp_console w
                 ++ [Info ("Changed to directory " ++ upload_dir ++ " on FTP server.")]) w in
  let w2 := with_ftp_console
              (ftp_console w1 ++ [Bar (Z.of_nat (String.length data)) (Some name)]) w1 in
  let w3 := with_commands (commands w2 ++ [STOR name data]) w2 in
  let w4 := with_server
              (with_files ((ftp_cwd w3, name, data) :: srv_files (server w3)) (server w3))
              w3 in
  let w5 := with_ftp_console
              (ftp_console w4
                 ++ map (fun b => BarUpdate (Z.of_nat (String.length b)))
                        (Ftp.blocks (String.length data) (Z.to_nat 8192) data)) w4 in
  let w6 := with_ftp_console
              (ftp_console w5
                 ++ [Info ("File " ++ name ++ " uploaded and overwritten successfully.")])
              w5 in
  with_ftp_console
    (ftp_console w6
       ++ [Info ("File uploaded successfully to " ++ (upload_dir ++ "/" ++ name) ++ ".")])
    w6.

(** The state a successful [upload_ftp] ends in. *)
Definition upload_done (host username file_path upload_dir data : string) (port : Z)
    (passive : bool) (w : FtpWorld) : FtpWorld :=
  HttpOld.disconnect host port
    (file_transferred file_path upload_dir data
       (directory_ensured upload_dir
          (session_opened host port username passive w))).

(** A path piece that is the name of an entry, not "." or "..". *)
Definition plain_name (seg : string) : Prop := seg <> "." /\ seg <> "..".

(** ** Notions used in the further properties *)

(** Calls of [set_header], one after the other. *)
Fixpoint set_headers (kvs : list (string * string)) : M Env unit :=
  match kvs with
  | [] => ret tt
  | (key, value) :: rest => HttpOld.set_header key value ;> set_headers rest
  end.

(** The value the last pair for [key] in [kvs] carries, if there is one. *)
Definition last_set (key : string) (kvs : list (string * string)) : option string :=
  foldl (fun acc kv => if String.eqb kv.1 key then Some kv.2 else acc) None kvs.

(** An environment that differs from [env] in the client only. *)
Definition with_self (h : Http) (env : Env) : Env :=
  {| self := h; world := world env |}.


(** A 200 answer that announces JSON, sets a cookie and has no body. *)
Definition empty_json_response : Response :=
  {| resp_status_code := 200; resp_reason := "OK"; resp_url := "http://host/x";
     resp_content_type := Some "application/json";
     resp_content_length := Some "0"; resp_content_disposition := None;
     resp_cookies := [("sid", "7")]; resp_text := ""; resp_json := None;
     resp_json_error := "Expecting value: line 1 column 1 (char 0)";
     resp_iter_content := fun _ => ([], None) |}.

(** The bytes of a list of chunks, one after the other. *)
Definition joined (chunks : list string) : string := foldr String.append "" chunks.

(** How far the output has advanced its progress bars. *)
Definition bar_progress (out : list output) : Z :=
  foldr (fun o n => match o with BarUpdate k => k + n | _ => n end) 0 out.

(** A response whose content-disposition header names an absolute path. *)
Definition absolute_name_response : Response :=
  {| resp_status_code := 200; resp_reason := "OK"; resp_url := "http://host/file";
     resp_content_type := Some "application/octet-stream";
     resp_content_length := None;
     resp_content_disposition := Some "attachment; filename=/etc/motd";
     resp_cookies := []; resp_text := "data"; resp_json := None;
     resp_json_error := "Expecting value: line 1 column 1 (char 0)";
     resp_iter_content := fun _ => (["da"; "ta"], None) |}.

(** A response whose stream breaks after the first chunk. *)
Definition broken_response : Response :=
  {| resp_status_code := 200; resp_reason := "OK"; resp_url := "http://host/file";
     resp_content_type := Some "application/octet-stream";
     resp_content_length := Some "4"; resp_content_disposition := None;
     resp_cookies := []; resp_text := "data"; resp_json := None;
     resp_json_error := "Expecting value: line 1 column 1 (char 0)";
     resp_iter_content := fun _ => (["da"], Some "Connection broken") |}.

(** A response whose content-length header is no number, and a machine
    on which the file [downloads/f.bin] cannot be opened for writing. *)
Definition odd_length_response : Response :=
  {| resp_status_code := 200; resp_reason := "OK"; resp_url := "http://host/file";
     resp_content_type := None; resp_content_length := Some "4 bytes";
     resp_content_disposition := None;
     resp_cookies := []; resp_text := "data"; resp_json := None;
     resp_json_error := "Expecting value: line 1 column 1 (char 0)";
     resp_iter_content := fun _ => (["data"], None) |}.

Definition locked_env : Env :=
  {| self := __init__;
     world := {| jar := Absent; jar_write_error := None; disk := ∅;
                 disk_write_error := {[ "downloads/f.bin" := "Permission denied" ]};
                 cookie_paths := cwd_cookie_paths; jar_of_bytes := no_json;
                 sent := []; console := [] |} |}.

(** [m], run from a state that satisfies [I], ends in a state that
    satisfies [I]; what it returns satisfies [P], what it raises
    satisfies [E]. *)
Definition spec {S A : Type} (I : S -> Prop) (P : A -> Prop) (E : exn -> Prop)
    (m : M S A) : Prop :=
  forall s, I s ->
    I (snd (m s))
    /\ match fst (m s) with Returned a => P a | Raised e => E e end.

(** The server [v] has what [v0] had: the same accounts and settings,
    every directory of [v0], and nothing new at all when [v0] is
    read-only. *)
Definition server_safe (v0 v : FtpServer) : Prop :=
  srv_listening v = srv_listening v0
  /\ srv_accounts v = srv_accounts v0
  /\ srv_home v = srv_home v0
  /\ srv_readonly v = srv_readonly v0
  /\ (forall d, dir_exists (srv_dirs v0) d = true -> dir_exists (srv_dirs v) d = true)
  /\ (srv_readonly v0 = true -> v = v0).

(** From [w0] to [w] the local files are untouched and the server has
    only gained. *)
Definition ftp_safe (w0 w : FtpWorld) : Prop :=
  local_files w = local_files w0 /\ server_safe (server w0) (server w).

(** Postconditions: no constraint, and being a refusal of the server
    ([error_perm]). *)
Definition anything {A : Type} (_ : A) : Prop := True.

Definition refusal (e : exn) : Prop := is_error_perm e = true.

(** What [upload_ftp] can return for these arguments. *)
Definition upload_result (file_path upload_dir : string) (r : pyret) : Prop :=
  r = PyNone \/ r = PyPathStr (upload_dir ++ "/" ++ PyPath.basename file_path).

(** The machine of [ftp_start] facing a server that takes no writes. *)
Definition readonly_start : FtpWorld :=
  with_server
    {| srv_listening := true; srv_accounts := [("user", "secret")];
       srv_home := []; srv_dirs := [["pub"]]; srv_files := [];
       srv_readonly := true |} ftp_start.

(** A server whose accounts log in to '/home/u', and the machine of
    [ftp_start] facing it. *)
Definition home_start : FtpWorld :=
  with_server
    {| srv_listening := true; srv_accounts := [("user", "secret")];
       srv_home := ["home"; "u"]; srv_dirs := [["home"; "u"; "in"]];
       srv_files := []; srv_readonly := false |} ftp_start.

(** The machine of [ftp_start] facing a server that is down. *)
Definition down_start : FtpWorld :=
  with_server
    {| srv_listening := false; srv_accounts := [("user", "secret")];
       srv_home := []; srv_dirs := []; srv_files := []; srv_readonly := false |}
    ftp_start.

(** * Properties *)

(** ** Configuration *)

(** A header set twice keeps the value set last. *)
Lemma set_header_last_wins (key v1 v2 : string) (env : Env) :
  headers (self (snd ((HttpOld.set_header key v1 ;> HttpOld.set_header key v2) env)))
  !! key = Some v2.
Proof.
  unfold HttpOld.set_header, bind, getattr, setattr, gets, modify. simpl.
  apply lookup_insert_eq.
Qed.

(** [reset] puts every field back to its value in a new client, with a
    new session. *)
Lemma reset_restores_defaults (env : Env) :
  HttpOld.reset env
  = (Returned tt,
     {| self := with_session (S (session (self env))) __init__;
        world := world env |}).
Proof. reflexivity. Qed.

(** A GET with a bearer token, answered with a JSON body and two
    cookies: the decoded body is returned, no error is recorded, the
    request carries the file's cookie and the cookie file is rewritten
    with the merge. *)
Example get_json_end_to_end :
  let env := set_jar (Object {[ "a" := "1" ]})
               (snd (HttpOld.set_bearer_auth "T" fresh_env)) in
  let run := HttpOld.get (fun _ => Responds json_response) "http://host/x" None env in
  fst run = Returned (Json (JObject [("ok", JBool true)]))
  /\ HttpOld.get_error_message (snd run) = (Returned None, snd run)
  /\ HttpOld.get_error_code (snd run) = (Returned None, snd run)
  /\ (req_headers <$> sent (world (snd run)))
     = [ {[ "Authorization" := "Bearer T" ]} ]
  /\ (req_cookies <$> sent (world (snd run))) = [ {[ "a" := "1" ]} ]
  /\ jar (world (snd run)) = Object {[ "a" := "2"; "b" := "3" ]}.
Proof. cbv zeta. repeat apply conj; reflexivity. Qed.

(** A client cookie overrides the file's cookie of the same name in the
    request, and the file keeps its own entries after a 404. *)
Example cookie_precedence_and_404 :
  let env := set_jar (Object {[ "a" := "1"; "b" := "2" ]})
               (snd (HttpOld.set_cookie "a" "9" fresh_env)) in
  let run := HttpOld.get (fun _ => Responds not_found_response) "http://host/x" None env in
  (req_cookies <$> sent (world (snd run))) = [ {[ "a" := "9"; "b" := "2" ]} ]
  /\ jar (world (snd run)) = Object {[ "a" := "1"; "b" := "2" ]}
  /\ _error_code (self (snd run)) = Some 404.
Proof. cbv zeta. repeat apply conj; reflexivity. Qed.

(** A download that names its file in the content-disposition header:
    empty chunks are skipped and the file holds the rest, in order. *)
Example download_named_file :
  let r := {| resp_status_code := 200; resp_reason := "OK";
              resp_url := "http://host/file";
              resp_content_type := None; resp_content_length := None;
              resp_content_disposition :=
                Some ("attachment; filename=" ++ String PyStr.quote "r.bin"
                        ++ String PyStr.quote "");
              resp_cookies := []; resp_text := ""; resp_json := None;
     resp_json_error := "Expecting value: line 1 column 1 (char 0)";
              resp_iter_content := fun _ => (["ab"; ""; "cd"], None) |} in
  let run := HttpOld.download_large_file (fun _ => Responds r) "http://host/file"
               "GET" None 8192 (Some "downloads") None fresh_env in
  fst run = Returned (PyPathStr "downloads/r.bin")
  /\ disk (world (snd run)) !! "downloads/r.bin" = Some "abcd"
  /\ console (world (snd run))
     = [Bar 0 (Some "r.bin"); BarUpdate 2; BarUpdate 2].
Proof. cbv zeta. repeat apply conj; reflexivity. Qed.

(** ** Downloads: the method guard *)

(** C1, at the failing input: with a destination directory and the
    method PUT the call does not come back with a failure indicator, as
    the claim and the docstring ('None otherwise') have it.  The
    [ValueError] raised at line 354 is not of the class the handler at
    line 388 names, so it leaves the method as an exception. *)
Lemma download_unsupported_method_not_a_result :
  fst (HttpOld.download_large_file (fun _ => Responds plain_response)
         "http://host/file" "PUT" None 8192 (Some "downloads") None fresh_env)
  = Raised (ValueError "Unsupported HTTP method: PUT")
  /\ ~ failure_result
        (fst (HttpOld.download_large_file (fun _ => Responds plain_response)
                "http://host/file" "PUT" None 8192 (Some "downloads") None
                fresh_env)).
Proof.
  split.
  - vm_compute. reflexivity.
  - vm_compute. intros [H | H]; discriminate H.
Qed.

(** C1, what the code does at every such input: with a destination
    directory and a method that is neither GET nor POST in any letter
    case, the call raises the [ValueError] 'Unsupported HTTP method:
    <method>' to its caller instead of returning [None], and nothing
    else happens: no call reaches the session, nothing is printed, no
    file is touched and the client is unchanged. *)
Theorem download_unsupported_method_raises
    (net : http_request -> net_result) (url method : string)
    (params : option json) (chunk_size : Z) (dir : string)
    (file_name : option string) (env : Env) :
  dir <> "" ->
  PyStr.lower method <> "get" ->
  PyStr.lower method <> "post" ->
  HttpOld.download_large_file net url method params chunk_size (Some dir)
      file_name env
  = (Raised (ValueError ("Unsupported HTTP method: " ++ method)), env).
Proof.
  intros Hdir Hget Hpost.
  apply String.eqb_neq in Hget, Hpost.
  destruct dir as [|c dir]; [congruence|].
  unfold HttpOld.download_large_file, try_except, bind, getattr, gets.
  rewrite Hget, Hpost. reflexivity.
Qed.

Lemma download_unsupported_method_raises_witness :
  HttpOld.download_large_file (fun _ => Responds plain_response)
      "http://host/file" "PUT" None 8192 (Some "downloads") None fresh_env
  = (Raised (ValueError "Unsupported HTTP method: PUT"), fresh_env).
Proof.
  apply (download_unsupported_method_raises (fun _ => Responds plain_response)
           "http://host/file" "PUT" None 8192 "downloads" None fresh_env);
    vm_compute; discriminate.
Defined.

(** ** The cookie file *)

Lemma lookup_union_override (N D : gmap string string) (k : string) :
  (N ∪ D) !! k = match N !! k with Some v => Some v | None => D !! k end.
Proof.
  destruct (N !! k) as [v|] eqn:HN.
  - by apply lookup_union_Some_l.
  - by rewrite lookup_union_r.
Qed.

Lemma foldl_insert_nodup (l : list (string * string)) (m : gmap string string) :
  NoDup (l.*1) ->
  foldl (fun d c => <[c.1 := c.2]> d) m l = list_to_map l ∪ m.
Proof.
  revert m. induction l as [|[k v] l IH]; intros m Hnd; simpl.
  - by rewrite (left_id_L ∅ (∪)).
  - inversion Hnd as [|? ? Hk Hl]; subst.
    rewrite IH by done.
    rewrite <- insert_union_l. symmetry.
    apply insert_union_r.
    by apply not_elem_of_list_to_map_1.
Qed.

(** Every mapping is the dictionary of some cookie jar. *)
Lemma dict_from_cookiejar_onto (N : gmap string string) :
  dict_from_cookiejar (map_to_list N) = N.
Proof.
  unfold dict_from_cookiejar.
  rewrite foldl_insert_nodup by apply NoDup_fst_map_to_list.
  by rewrite list_to_map_to_list, (right_id_L ∅ (∪)).
Qed.

(** A later cookie of the same name replaces an earlier one. *)
Lemma dict_from_cookiejar_snoc (cj : list (string * string)) (name value : string) :
  dict_from_cookiejar (cj ++ [(name, value)])
  = <[name := value]> (dict_from_cookiejar cj).
Proof. unfold dict_from_cookiejar. by rewrite foldl_snoc. Qed.

(** The tolerant load: a file that holds an object gives its entries. *)
Lemma load_cookie_file_object (env : Env) (d : gmap string string) :
  jar (world env) = Object d ->
  HttpOld.load_cookie_file env = (Returned (PyDict d), env).
Proof.
  intros Hj. unfold HttpOld.load_cookie_file, try_except, json_load_cookie_file,
    bind, inspect, gets. by rewrite Hj.
Qed.

(** C4: when the cookie file holds the mapping [D] and can be written,
    saving the cookies of a response, whose dictionary is [N], leaves the
    file holding exactly [D] overridden by [N]: a key of [N] has [N]'s
    value, any other key keeps [D]'s.  (With [D = {a:1}] and
    [N = {a:2, b:3}] the file then holds [{a:2, b:3}]; every mapping [N]
    is the dictionary of some jar, [dict_from_cookiejar_onto].) *)
Theorem save_cookies_overwrites_with_merge
    (D N : gmap string string) (cookie_jar : list (string * string)) (env : Env) :
  jar (world env) = Object D ->
  jar_write_error (world env) = None ->
  dict_from_cookiejar cookie_jar = N ->
  HttpOld._save_cookies cookie_jar env
  = (Returned tt,
     logged (Info "Cookies saved to file 'cookies.json'") (set_jar (Object (N ∪ D)) env))
  /\ jar (world (snd (HttpOld._save_cookies cookie_jar env))) = Object (N ∪ D)
  /\ forall k, (N ∪ D) !! k = match N !! k with Some v => Some v | None => D !! k end.
Proof.
  intros Hj Hw HN.
  assert (Hrun : HttpOld._save_cookies cookie_jar env
                 = (Returned tt,
                    logged (Info "Cookies saved to file 'cookies.json'")
                           (set_jar (Object (N ∪ D)) env))).
  { unfold HttpOld._save_cookies, try_except at 1, bind at 1.
    rewrite (load_cookie_file_object env D Hj).
    unfold dict_unpack, json_dump_cookie_file, emit, act, modify, bind, ret,
      inspect, gets.
    rewrite Hw, HN. reflexivity. }
  split; [exact Hrun|]. split.
  - rewrite Hrun. reflexivity.
  - intros k. apply lookup_union_override.
Qed.

Lemma save_cookies_overwrites_with_merge_witness :
  jar (world (snd (HttpOld._save_cookies [("a", "2"); ("b", "3")]
                     (set_jar (Object {[ "a" := "1" ]}) fresh_env))))
  = Object ({[ "a" := "2"; "b" := "3" ]} ∪ {[ "a" := "1" ]})
  /\ ({[ "a" := "2"; "b" := "3" ]} ∪ {[ "a" := "1" ]} : gmap string string)
     = {[ "a" := "2"; "b" := "3" ]}.
Proof.
  split.
  - apply (save_cookies_overwrites_with_merge
             {[ "a" := "1" ]} {[ "a" := "2"; "b" := "3" ]}
             [("a", "2"); ("b", "3")] (set_jar (Object {[ "a" := "1" ]}) fresh_env));
      [reflexivity | reflexivity | vm_compute; reflexivity].
  - vm_compute. reflexivity.
Defined.

(** ** Running a dispatch *)

Lemma raise_for_status_run (r : Response) (env : Env) :
  raise_for_status r env
  = if error_status r then (Raised (http_error r), env) else (Returned tt, env).
Proof.
  unfold raise_for_status, error_status, http_error, raise, ret.
  destruct (400 <=? resp_status_code r) eqn:H4;
    destruct (resp_status_code r <? 500) eqn:H5;
    destruct (500 <=? resp_status_code r) eqn:H5';
    destruct (resp_status_code r <? 600) eqn:H6; simpl; try reflexivity; lia.
Qed.

Lemma load_cookie_file_run (env : Env) :
  jar (world env) <> NotAnObject ->
  HttpOld.load_cookie_file env
  = (Returned (PyDict (persisted_cookies (jar (world env)))), env).
Proof.
  intros Hj.
  unfold HttpOld.load_cookie_file, try_except, json_load_cookie_file, bind,
    inspect, gets.
  destruct (jar (world env)); try reflexivity. congruence.
Qed.

Lemma request_setup_run (method url : string) (kw : kwargs) (env : Env) :
  jar (world env) <> NotAnObject ->
  HttpOld._request_setup method url kw env
  = (Returned (dispatch_request method url kw env), cleared url env).
Proof.
  intros Hj. unfold HttpOld._request_setup. unfold bind at 1.
  rewrite (load_cookie_file_run env Hj). reflexivity.
Qed.

Lemma save_cookies_run (cookie_jar : list (string * string)) (env : Env) :
  jar (world env) <> NotAnObject ->
  HttpOld._save_cookies cookie_jar env = (Returned tt, after_save cookie_jar env).
Proof.
  intros Hj. unfold HttpOld._save_cookies, try_except at 1, bind at 1.
  rewrite (load_cookie_file_run env Hj).
  unfold after_save, dict_unpack, json_dump_cookie_file, emit, act, modify,
    bind, ret, raise, inspect, gets.
  destruct (jar_write_error (world env)); reflexivity.
Qed.

(** What a dispatch does, by the answer of the network, when the cookie
    file can be loaded. *)
Lemma request_run (net : http_request -> net_result) (method url : string)
    (kw : kwargs) (env : Env) :
  jar (world env) <> NotAnObject ->
  let req := dispatch_request method url kw env in
  let env2 := sending req (cleared url env) in
  HttpOld._request net method url kw env
  = match net req with
    | Fails msg r =>
        (Raised (RequestException msg r),
         failed method url (RequestException msg r) env2)
    | Responds r =>
        if error_status r then
          (Raised (http_error r), failed method url (http_error r) env2)
        else
          let env3 := after_save (resp_cookies r) env2 in
          if PyStr.contains "application/json" (default "" (resp_content_type r))
          then match resp_json r with
               | Some v => (Returned (Json v), env3)
               | None => (Raised (undecodable r), failed method url (undecodable r) env3)
               end
          else (Returned (Text (resp_text r)), env3)
    end.
Proof.
  intros Hj req env2.
  unfold HttpOld._request, try_except at 1, bind at 1.
  rewrite (request_setup_run method url kw env Hj).
  fold req.
  unfold bind at 1, session_call, bind at 1, act, modify.
  cbv beta iota. fold (sending req (cleared url env)). fold env2.
  destruct (net req) as [r | msg r].
  - unfold ret at 1. unfold bind at 1. rewrite raise_for_status_run.
    destruct (error_status r) eqn:Hs.
    + reflexivity.
    + unfold bind at 1. rewrite save_cookies_run by exact Hj.
      destruct (PyStr.contains "application/json" (default "" (resp_content_type r))).
      * unfold response_json. destruct (resp_json r); reflexivity.
      * reflexivity.
  - reflexivity.
Qed.

(** A cookie file that decodes to something other than an object stops
    the dispatch at line 167, before anything else is done. *)
Lemma request_not_an_object (net : http_request -> net_result)
    (method url : string) (kw : kwargs) (env : Env) :
  jar (world env) = NotAnObject ->
  HttpOld._request net method url kw env
  = (Raised (TypeError "object is not a mapping"), env).
Proof.
  intros Hj.
  unfold HttpOld._request, HttpOld._request_setup, HttpOld.load_cookie_file,
    json_load_cookie_file, try_except, bind, inspect, gets.
  rewrite Hj. reflexivity.
Qed.

Lemma jar_cases (j : jar_file) : j = NotAnObject \/ j <> NotAnObject.
Proof. destruct j; (by left) || (by right). Qed.

Lemma sent_after_request (net : http_request -> net_result) (method url : string)
    (kw : kwargs) (env : Env) :
  jar (world env) <> NotAnObject ->
  sent (world (snd (HttpOld._request net method url kw env)))
  = (sent (world env) ++ [dispatch_request method url kw env])%list.
Proof.
  intros Hj. rewrite (request_run net method url kw env Hj). cbv zeta.
  destruct (net _) as [r | msg r]; [|reflexivity].
  destruct (error_status r); [reflexivity|].
  unfold after_save.
  destruct (PyStr.contains _ _); [destruct (resp_json r)|];
    destruct (jar_write_error _); reflexivity.
Qed.

(** ** The error state of a dispatch *)

(** The error state of a dispatch whose cookie file loads: in every verb
    dispatch ([_request], which [get], [post], [put]
    and [delete] call), when the request is handed to the session the
    message and the code are both [None]; a transport failure then sets
    the message and sets the code to the status of the response the
    exception carries, [None] when it carries none; an error status sets
    the message and the code to that status; every dispatch that raises
    a request error leaves message and code set from that exception; and
    a dispatch that returns leaves both [None], whatever an earlier
    dispatch left in them. *)
Theorem dispatch_error_state (net : http_request -> net_result)
    (method url : string) (kw : kwargs) (env : Env) :
  let out := fst (HttpOld._request net method url kw env) in
  let env' := snd (HttpOld._request net method url kw env) in
  (forall req env1,
      HttpOld._request_setup method url kw env = (Returned req, env1) ->
      (_error_message (self env1) = None /\ _error_code (self env1) = None)
      /\ (forall msg r, net req = Fails msg r ->
            out = Raised (RequestException msg r)
            /\ _error_message (self env') = Some msg
            /\ _error_code (self env') = resp_status_code <$> r)
      /\ (forall r, net req = Responds r -> error_status r = true ->
            out = Raised (http_error r)
            /\ _error_message (self env') = Some (str_exn (http_error r))
            /\ _error_code (self env') = Some (resp_status_code r)))
  /\ (forall e, out = Raised e -> is_RequestException e = true ->
        _error_message (self env') = Some (str_exn e)
        /\ _error_code (self env') = status_code_of e)
  /\ (forall v, out = Returned v ->
        _error_message (self env') = None /\ _error_code (self env') = None).
Proof.
  intros out env'. subst out env'.
  destruct (jar_cases (jar (world env))) as [Hj | Hj].
  { rewrite (request_not_an_object net method url kw env Hj). cbn [fst snd].
    split; [|split].
    - intros req env1 Hsetup. exfalso. revert Hsetup.
      unfold HttpOld._request_setup, HttpOld.load_cookie_file,
        json_load_cookie_file, try_except, bind, inspect, gets.
      rewrite Hj. discriminate.
    - intros e [= <-]. discriminate.
    - discriminate. }
  rewrite (request_run net method url kw env Hj). cbv zeta.
  split; [|split].
  - intros req env1 Hsetup.
    rewrite (request_setup_run method url kw env Hj) in Hsetup.
    injection Hsetup as <- <-.
    split; [split; reflexivity|]. split.
    + intros msg r ->. split; [reflexivity|]. split; [reflexivity|].
      destruct r; reflexivity.
    + intros r -> ->. repeat split; reflexivity.
  - intros e. destruct (net _) as [r | msg r].
    + destruct (error_status r).
      * intros [= <-] _. split; reflexivity.
      * destruct (PyStr.contains _ _); [destruct (resp_json r)|];
          intros [= <-] _. split; reflexivity.
    + intros [= <-] _. split; reflexivity.
  - intros v. destruct (net _) as [r | msg r]; [|discriminate].
    destruct (error_status r); [discriminate|].
    unfold after_save.
    destruct (PyStr.contains _ _); [destruct (resp_json r)|]; intros [= <-];
      destruct (jar_write_error _); split; reflexivity.
Qed.

Lemma dispatch_error_state_witness :
  (_error_message (self env_after_404) = Some "404 Client Error: Not Found for url: http://host/x"
   /\ _error_code (self env_after_404) = Some 404)
  /\ (_error_message
        (self (snd (HttpOld._request (fun _ => Responds json_response) "get"
                      "http://host/x" {| kw_params := None; kw_json := None |}
                      env_after_404))) = None
      /\ _error_code
           (self (snd (HttpOld._request (fun _ => Responds json_response) "get"
                         "http://host/x" {| kw_params := None; kw_json := None |}
                         env_after_404))) = None).
Proof.
  split.
  - vm_compute. split; reflexivity.
  - apply (proj2 (proj2
             (dispatch_error_state (fun _ => Responds json_response) "get"
                "http://host/x" {| kw_params := None; kw_json := None |}
                env_after_404))
             (Json (JObject [("ok", JBool true)]))).
    vm_compute. reflexivity.
Defined.

(** C2, at the failing input: with a cookie file that holds JSON which
    is no object (the text of a list, say), a verb dispatch fails with
    the error state neither cleared nor set.  The unpacking at line 167
    raises [TypeError] before lines 177 and 178 are reached, and the
    handler at line 185 does not name that class.  After an earlier
    dispatch that was answered 404, the message and the code are still
    those of the 404 and nothing was sent; on a new client both stay
    [None] although the dispatch failed. *)
Lemma list_cookie_file_leaves_error_state_stale :
  (exists msg,
     fst (HttpOld.get (fun _ => Responds json_response) "http://host/x" None
            (set_jar NotAnObject env_after_404))
     = Raised (TypeError msg))
  /\ _error_message
       (self (snd (HttpOld.get (fun _ => Responds json_response) "http://host/x"
                     None (set_jar NotAnObject env_after_404))))
     = Some "404 Client Error: Not Found for url: http://host/x"
  /\ _error_code
       (self (snd (HttpOld.get (fun _ => Responds json_response) "http://host/x"
                     None (set_jar NotAnObject env_after_404))))
     = Some 404
  /\ sent (world (snd (HttpOld.get (fun _ => Responds json_response)
                         "http://host/x" None
                         (set_jar NotAnObject env_after_404))))
     = sent (world env_after_404)
  /\ (exists msg,
        fst (HttpOld.get (fun _ => Responds json_response) "http://host/x" None
               (set_jar NotAnObject fresh_env))
        = Raised (TypeError msg))
  /\ _error_message
       (self (snd (HttpOld.get (fun _ => Responds json_response) "http://host/x"
                     None (set_jar NotAnObject fresh_env))))
     = None
  /\ _error_code
       (self (snd (HttpOld.get (fun _ => Responds json_response) "http://host/x"
                     None (set_jar NotAnObject fresh_env))))
     = None.
Proof.
  split; [eexists; reflexivity|]. split; [reflexivity|]. split; [reflexivity|].
  split; [reflexivity|]. split; [eexists; reflexivity|]. split; reflexivity.
Qed.

(** ** The cookie file and the dispatch *)

(** C3: a dispatch that fails by a transport failure or by an error
    status leaves the files as they were, the cookie file among them:
    only the record of calls and the log differ.  The cookie file differs
    after a dispatch only if the session answered with a response whose
    status is not an error. *)
Theorem failed_dispatch_keeps_cookie_file (net : http_request -> net_result)
    (method url : string) (kw : kwargs) (env : Env) :
  let req := dispatch_request method url kw env in
  let env' := snd (HttpOld._request net method url kw env) in
  (forall msg r, net req = Fails msg r -> same_files (world env) (world env'))
  /\ (forall r, net req = Responds r -> error_status r = true ->
        same_files (world env) (world env'))
  /\ (jar (world env') <> jar (world env) ->
        exists r, net req = Responds r /\ error_status r = false).
Proof.
  intros req env'. subst env'.
  destruct (jar_cases (jar (world env))) as [Hj | Hj].
  - rewrite (request_not_an_object net method url kw env Hj). simpl.
    repeat split; try reflexivity. intros H. by destruct H.
  - rewrite (request_run net method url kw env Hj). cbv zeta. fold req.
    split; [|split].
    + intros msg r ->. repeat split; reflexivity.
    + intros r -> ->. repeat split; reflexivity.
    + destruct (net req) as [r | msg r].
      * destruct (error_status r) eqn:Hs.
        -- intros H. by destruct H.
        -- intros _. by exists r.
      * intros H. by destruct H.
Qed.

(** C5: every request a dispatch hands to the session carries, as its
    cookies, the entries of the cookie file overridden by the client's own
    cookies: a name the client has set carries the client's value, any
    other name the file's.  When the cookie file can be loaded, exactly
    one request is handed over. *)
Theorem dispatch_sends_merged_cookies (net : http_request -> net_result)
    (method url : string) (kw : kwargs) (env : Env) :
  exists reqs : list http_request,
    sent (world (snd (HttpOld._request net method url kw env)))
    = (sent (world env) ++ reqs)%list
    /\ (forall req, req ∈ reqs ->
          req_cookies req = cookies (self env) ∪ persisted_cookies (jar (world env))
          /\ forall k, req_cookies req !! k
                       = match cookies (self env) !! k with
                         | Some v => Some v
                         | None => persisted_cookies (jar (world env)) !! k
                         end)
    /\ (jar (world env) <> NotAnObject ->
          reqs = [dispatch_request method url kw env]).
Proof.
  destruct (jar_cases (jar (world env))) as [Hj | Hj].
  - exists []. rewrite (request_not_an_object net method url kw env Hj). simpl.
    split; [by rewrite app_nil_r|]. split; [|done].
    intros req Hin. by apply elem_of_nil in Hin.
  - exists [dispatch_request method url kw env].
    split; [by apply sent_after_request|]. split; [|done].
    intros req Hin. apply list_elem_of_singleton in Hin. subst req. simpl.
    split; [reflexivity|]. intros k. apply lookup_union_override.
Qed.

Lemma load_cookie_file_tolerant (j : jar_file) (env : Env) :
  (j = Absent \/ (exists m, j = Unreadable m) \/ (exists m, j = Malformed m)) ->
  HttpOld.load_cookie_file (set_jar j env) = (Returned (PyDict ∅), set_jar j env).
Proof.
  intros [-> | [[m ->] | [m ->]]]; reflexivity.
Qed.

Lemma request_ignores_write_error (net : http_request -> net_result)
    (method url : string) (kw : kwargs) (env : Env) (err1 err2 : option string) :
  jar (world env) <> NotAnObject ->
  fst (HttpOld._request net method url kw (set_jar_write_error err1 env))
  = fst (HttpOld._request net method url kw (set_jar_write_error err2 env))
  /\ self (snd (HttpOld._request net method url kw (set_jar_write_error err1 env)))
     = self (snd (HttpOld._request net method url kw (set_jar_write_error err2 env))).
Proof.
  intros Hj.
  rewrite (request_run net method url kw (set_jar_write_error err1 env)) by exact Hj.
  rewrite (request_run net method url kw (set_jar_write_error err2 env)) by exact Hj.
  cbv zeta.
  change (dispatch_request method url kw (set_jar_write_error err1 env))
    with (dispatch_request method url kw env).
  change (dispatch_request method url kw (set_jar_write_error err2 env))
    with (dispatch_request method url kw env).
  destruct (net _) as [r | m r]; [|split; reflexivity].
  destruct (error_status r); [split; reflexivity|].
  unfold after_save.
  destruct (PyStr.contains _ _); [destruct (resp_json r)|];
    destruct err1, err2; split; reflexivity.
Qed.

Lemma request_unloadable_as_empty (net : http_request -> net_result)
    (method url : string) (kw : kwargs) (env : Env) (j : jar_file) :
  (j = Absent \/ (exists m, j = Unreadable m) \/ (exists m, j = Malformed m)) ->
  fst (HttpOld._request net method url kw (set_jar j env))
  = fst (HttpOld._request net method url kw (set_jar (Object ∅) env))
  /\ self (snd (HttpOld._request net method url kw (set_jar j env)))
     = self (snd (HttpOld._request net method url kw (set_jar (Object ∅) env))).
Proof.
  intros Hcase.
  assert (Hj : jar (world (set_jar j env)) <> NotAnObject)
    by (destruct Hcase as [-> | [[m ->] | [m ->]]]; discriminate).
  assert (Hreq : dispatch_request method url kw (set_jar j env)
                 = dispatch_request method url kw (set_jar (Object ∅) env))
    by (destruct Hcase as [-> | [[m ->] | [m ->]]]; reflexivity).
  rewrite (request_run net method url kw (set_jar j env) Hj).
  rewrite (request_run net method url kw (set_jar (Object ∅) env)) by discriminate.
  cbv zeta. rewrite Hreq.
  destruct (net _) as [r | m r]; [|split; reflexivity].
  destruct (error_status r); [split; reflexivity|].
  unfold after_save.
  destruct (PyStr.contains _ _); [destruct (resp_json r)|];
    simpl; destruct (jar_write_error (world env)); split; reflexivity.
Qed.

(** The failures the cookie handling does keep to itself: a cookie file
    that is missing, cannot be read or does not parse
    as JSON loads as the empty mapping, without an exception, and a
    dispatch then returns or raises the same, and leaves the client in
    the same state, as with a file holding [{}].  When the file cannot be
    opened for writing, [_save_cookies] (on a file it can load) logs the
    error and returns normally, and what a dispatch returns or raises,
    and the state it leaves in the client, are the same as when the write
    succeeds. *)
Theorem cookie_persistence_failures_stay_inside
    (net : http_request -> net_result) (method url : string) (kw : kwargs)
    (cookie_jar : list (string * string)) (env : Env) (why : string) :
  jar (world env) <> NotAnObject ->
  (forall j,
      (j = Absent \/ (exists m, j = Unreadable m) \/ (exists m, j = Malformed m)) ->
      HttpOld.load_cookie_file (set_jar j env) = (Returned (PyDict ∅), set_jar j env)
      /\ fst (HttpOld._request net method url kw (set_jar j env))
         = fst (HttpOld._request net method url kw (set_jar (Object ∅) env))
      /\ self (snd (HttpOld._request net method url kw (set_jar j env)))
         = self (snd (HttpOld._request net method url kw (set_jar (Object ∅) env))))
  /\ HttpOld._save_cookies cookie_jar (set_jar_write_error (Some why) env)
     = (Returned tt,
        logged (Error ("Error saving cookies to file: " ++ why))
               (set_jar_write_error (Some why) env))
  /\ fst (HttpOld._request net method url kw (set_jar_write_error (Some why) env))
     = fst (HttpOld._request net method url kw (set_jar_write_error None env))
  /\ self (snd (HttpOld._request net method url kw (set_jar_write_error (Some why) env)))
     = self (snd (HttpOld._request net method url kw (set_jar_write_error None env))).
Proof.
  intros Hj. split; [|split].
  - intros j Hcase. split.
    + by apply load_cookie_file_tolerant.
    + by apply request_unloadable_as_empty.
  - rewrite save_cookies_run by exact Hj. reflexivity.
  - by apply request_ignores_write_error.
Qed.

Lemma cookie_persistence_failures_stay_inside_witness :
  HttpOld._save_cookies [("a", "2")] (set_jar_write_error (Some "[Errno 13] Permission denied: 'cookies.json'") fresh_env)
  = (Returned tt,
     logged (Error ("Error saving cookies to file: " ++ "[Errno 13] Permission denied: 'cookies.json'"))
            (set_jar_write_error (Some "[Errno 13] Permission denied: 'cookies.json'") fresh_env))
  /\ fst (HttpOld._request (fun _ => Responds json_response) "get" "http://host/x"
            {| kw_params := None; kw_json := None |}
            (set_jar_write_error (Some "[Errno 13] Permission denied: 'cookies.json'") fresh_env))
     = Returned (Json (JObject [("ok", JBool true)])).
Proof.
  assert (Hj : jar (world fresh_env) <> NotAnObject) by (vm_compute; discriminate).
  pose proof (cookie_persistence_failures_stay_inside
                (fun _ => Responds json_response) "get" "http://host/x"
                {| kw_params := None; kw_json := None |} [("a", "2")] fresh_env
                "[Errno 13] Permission denied: 'cookies.json'" Hj)
    as (_ & Hsave & Hout & _).
  split.
  - exact Hsave.
  - rewrite Hout. vm_compute. reflexivity.
Defined.

(** C6, at the failing input: a cookie file that holds JSON which is no
    object (the text of a list, say) is not tolerated.  [json.load]
    returns the value, the unpacking at line 167 (line 136 in
    [_save_cookies]) raises [TypeError], and neither [except] clause
    names it: the dispatch raises to the caller before anything is sent,
    and [_save_cookies] raises as well, the state being as before. *)
Lemma list_cookie_file_reaches_the_caller :
  (exists msg,
     HttpOld.get (fun _ => Responds json_response) "http://host/x" None
       (set_jar NotAnObject fresh_env)
     = (Raised (TypeError msg), set_jar NotAnObject fresh_env))
  /\ (exists msg,
        HttpOld._save_cookies [("a", "2")] (set_jar NotAnObject fresh_env)
        = (Raised (TypeError msg), set_jar NotAnObject fresh_env)).
Proof. split; eexists; reflexivity. Qed.

(** ** FTP upload: the local file *)

(** C7: when [file_path] names no local file, [upload_ftp] logs the
    error and returns [None] at once: no command is sent, no connection
    is opened and the server is as before. *)
Theorem upload_missing_file_opens_no_connection
    (host username password file_path upload_dir : string) (port : Z)
    (passive : bool) (w : FtpWorld) :
  local_files w !! file_path = None ->
  HttpOld.upload_ftp host username password file_path upload_dir port passive w
  = (Returned PyNone,
     with_ftp_console
       (ftp_console w ++ [Error ("The file " ++ file_path ++ " does not exist.")]) w)
  /\ commands (snd (HttpOld.upload_ftp host username password file_path
                      upload_dir port passive w)) = commands w
  /\ ftp_sock (snd (HttpOld.upload_ftp host username password file_path
                      upload_dir port passive w)) = ftp_sock w
  /\ server (snd (HttpOld.upload_ftp host username password file_path
                    upload_dir port passive w)) = server w.
Proof.
  intros Hfile.
  assert (Hrun : HttpOld.upload_ftp host username password file_path upload_dir
                   port passive w
                 = (Returned PyNone,
                    with_ftp_console
                      (ftp_console w
                         ++ [Error ("The file " ++ file_path ++ " does not exist.")]) w)).
  { unfold HttpOld.upload_ftp. unfold bind at 1, gets at 1.
    rewrite Hfile.
    rewrite bool_decide_eq_false_2 by (intros [x Hx]; discriminate Hx).
    reflexivity. }
  rewrite Hrun. repeat split; reflexivity.
Qed.

Lemma upload_missing_file_opens_no_connection_witness :
  HttpOld.upload_ftp "ftp.host" "user" "secret" "/tmp/missing.txt" "/a/b/c" 21
    true ftp_start
  = (Returned PyNone,
     with_ftp_console
       (ftp_console ftp_start
          ++ [Error ("The file " ++ "/tmp/missing.txt" ++ " does not exist.")])
       ftp_start).
Proof.
  apply (upload_missing_file_opens_no_connection "ftp.host" "user" "secret"
           "/tmp/missing.txt" "/a/b/c" 21 true ftp_start).
  vm_compute. reflexivity.
Defined.

(** ** Running a download *)

Lemma content_length_run r env :
  HttpOld.content_length r env
  = match declared_length r with
    | Some n => (Returned n, env)
    | None => (Raised (bad_length r), env)
    end.
Proof.
  unfold HttpOld.content_length, declared_length, bad_length, ret, raise.
  destruct (resp_content_length r) as [s|]; [|reflexivity].
  simpl. destruct (PyStr.int s); reflexivity.
Qed.

Lemma write_chunks_returns path chunks env :
  fst (HttpOld.write_chunks path chunks env) = Returned tt.
Proof.
  revert env. induction chunks as [|c chunks IH]; intros env; [reflexivity|].
  simpl. unfold bind at 1.
  destruct (String.eqb c "").
  - unfold ret at 1. apply IH.
  - unfold bind at 1, HttpOld.file_write, act, modify. cbv beta iota.
    unfold emit, act, modify. cbv beta iota. apply IH.
Qed.


Lemma store_response_run dir file_name chunk_size r env1 :
  HttpOld.store_response dir file_name chunk_size r env1
  = stored dir file_name chunk_size r env1.
Proof.
  unfold HttpOld.store_response, stored.
  unfold bind at 1. rewrite raise_for_status_run.
  destruct (error_status r); [reflexivity|].
  unfold bind at 1. rewrite content_length_run.
  destruct (declared_length r) as [total|]; [|reflexivity].
  unfold bind at 1, HttpOld.os_path_join.
  destruct (HttpOld.choose_filename r file_name) as [filename|]; [|reflexivity].
  unfold ret at 1. cbv zeta.
  unfold bind at 1, HttpOld.open_wb, bind at 1, inspect at 1, gets at 1.
  destruct (disk_write_error (world env1) !! PyPath.join dir filename) as [msg|];
    [reflexivity|].
  unfold act at 1, modify at 1.
  unfold bind at 1, emit at 1, act at 1, modify at 1.
  fold (opened (PyPath.join dir filename) total filename env1).
  unfold bind at 1.
  destruct (resp_iter_content r chunk_size) as [chunks broken].
  cbn [fst snd].
  unfold bind at 1.
  pose proof (write_chunks_returns (PyPath.join dir filename) chunks
                (opened (PyPath.join dir filename) total filename env1)) as Hw.
  destruct (HttpOld.write_chunks _ chunks _) as [o env2]. cbn [fst snd] in *. subst o.
  destruct broken as [msg|]; [reflexivity|].
  unfold ret at 1. unfold bind at 1, inspect, gets.
  destruct (bool_decide _); reflexivity.
Qed.

Lemma download_run net url method params chunk_size dir file_name env :
  dir <> "" ->
  HttpOld.download_large_file net url method params chunk_size (Some dir) file_name env
  = downloaded net url method params chunk_size dir file_name env.
Proof.
  intros Hdir. destruct dir as [|c0 dir0]; [congruence|].
  set (dir := String c0 dir0).
  unfold HttpOld.download_large_file, downloaded, stream_request.
  unfold try_except at 1.
  unfold bind at 1, getattr at 1, gets. cbv beta iota.
  unfold bind at 1, getattr at 1, gets. cbv beta iota.
  unfold bind at 1, getattr at 1, gets. cbv beta iota.
  unfold bind at 1, getattr at 1, gets. cbv beta iota.
  unfold bind at 1.
  assert (Hcall : forall req,
    match
      match session_call net req env with
      | (Returned a, s') => HttpOld.store_response dir file_name chunk_size a s'
      | (Raised e, s') => (Raised e, s')
      end
    with
    | (Returned a, s') => (Returned a, s')
    | (Raised e, s') =>
        if is_RequestException e
        then (emit (Print ("Error downloading large file: " ++ str_exn e));> ret PyNone)%py s'
        else (Raised e, s')
    end
    = match net req with
      | Fails msg r =>
          (Returned PyNone, download_failed (RequestException msg r) (sending req env))
      | Responds r =>
          match stored dir file_name chunk_size r (sending req env) with
          | (Raised (RequestException msg r'), env2) =>
              (Returned PyNone, download_failed (RequestException msg r') env2)
          | other => other
          end
      end).
  { intros req. unfold session_call, bind at 1, act, modify. cbv beta iota.
    fold (sending req env).
    destruct (net req) as [r | msg r]; [|reflexivity].
    unfold ret at 1. rewrite store_response_run.
    destruct (stored dir file_name chunk_size r (sending req env)) as [[v|e] env2];
      [reflexivity|].
    destruct e; reflexivity. }
  destruct (String.eqb (PyStr.lower method) "get"); [apply Hcall|].
  destruct (String.eqb (PyStr.lower method) "post"); [apply Hcall|].
  reflexivity.
Qed.

(** ** Downloads and the cookie file *)

Lemma only_disk_and_console_refl (env : Env) : only_disk_and_console env env.
Proof. by repeat split. Qed.

Lemma only_disk_and_console_trans (e1 e2 e3 : Env) :
  only_disk_and_console e1 e2 -> only_disk_and_console e2 e3 ->
  only_disk_and_console e1 e3.
Proof.
  intros (A1 & A2 & A3 & A4 & A5 & A6) (B1 & B2 & B3 & B4 & B5 & B6).
  repeat split; congruence.
Qed.

Lemma holding_frame (path bytes : string) (env : Env) :
  only_disk_and_console env
    {| self := self env; world := holding path bytes (world env) |}.
Proof. unfold holding. destruct (cookie_paths _ _); by repeat split. Qed.



Lemma chunk_written_frame (path chunk : string) (env : Env) :
  only_disk_and_console env (chunk_written path chunk env).
Proof.
  unfold chunk_written.
  eapply only_disk_and_console_trans; [apply holding_frame|]. by repeat split.
Qed.

(** One round of the loop: an empty chunk is skipped, any other is
    appended to the file and counted on the progress bar. *)
Lemma write_chunks_cons (path ch : string) (chunks : list string) (env : Env) :
  HttpOld.write_chunks path (ch :: chunks) env
  = HttpOld.write_chunks path chunks
      (if String.eqb ch "" then env else chunk_written path ch env).
Proof.
  simpl. unfold bind at 1.
  destruct (String.eqb ch ""); [reflexivity|].
  unfold bind at 1, HttpOld.file_write, act, modify. cbv beta iota.
  unfold emit, act, modify. cbv beta iota. reflexivity.
Qed.

Lemma write_chunks_frame (path : string) (chunks : list string) (env : Env) :
  only_disk_and_console env (snd (HttpOld.write_chunks path chunks env)).
Proof.
  revert env. induction chunks as [|c chunks IH]; intros env.
  - apply only_disk_and_console_refl.
  - rewrite write_chunks_cons.
    destruct (String.eqb c ""); [apply IH|].
    eapply only_disk_and_console_trans; [apply chunk_written_frame | apply IH].
Qed.



Lemma opened_frame (path : string) (total : Z) (filename : string) (env : Env) :
  only_disk_and_console env (opened path total filename env).
Proof.
  unfold opened.
  eapply only_disk_and_console_trans; [apply holding_frame|]. by repeat split.
Qed.

Lemma stored_frame (dir : string) (file_name : option string) (chunk_size : Z)
    (r : Response) (env : Env) :
  only_disk_and_console env (snd (stored dir file_name chunk_size r env)).
Proof.
  unfold stored.
  destruct (error_status r); [apply only_disk_and_console_refl|].
  destruct (declared_length r) as [total|]; [|apply only_disk_and_console_refl].
  destruct (HttpOld.choose_filename r file_name) as [filename|];
    [|apply only_disk_and_console_refl].
  cbv zeta.
  destruct (disk_write_error (world env) !! PyPath.join dir filename);
    [apply only_disk_and_console_refl|].
  assert (Hw : only_disk_and_console env
                 (snd (HttpOld.write_chunks (PyPath.join dir filename)
                         (fst (resp_iter_content r chunk_size))
                         (opened (PyPath.join dir filename) total filename env)))).
  { eapply only_disk_and_console_trans; [apply opened_frame|].
    apply write_chunks_frame. }
  destruct (snd (resp_iter_content r chunk_size)); [exact Hw|].
  destruct (bool_decide _); [exact Hw|].
  eapply only_disk_and_console_trans; [exact Hw|]. by repeat split.
Qed.



Lemma mentions_app (c : ascii) (a b : string) :
  mentions c (a ++ b) = mentions c a || mentions c b.
Proof.
  induction a as [|x a IH]; simpl; [reflexivity|].
  rewrite IH. by rewrite orb_assoc.
Qed.

Lemma endswith_char_mentions (c : ascii) (s : string) :
  PyStr.endswith_char c s = true -> mentions c s = true.
Proof.
  induction s as [|x s IH]; simpl; [discriminate|].
  destruct s as [|y s'].
  - intros ->. reflexivity.
  - intros H. rewrite (IH H). apply orb_true_r.
Qed.

(** A path composed under a directory is never the literal name of the
    cookie file; it can still name that file, as './cookies.json'
    does. *)
Lemma join_never_cookie_file (dir filename : string) :
  dir <> "" -> PyPath.join dir filename <> COOKIE_FILE.
Proof.
  intros Hdir Heq.
  assert (Hno : mentions PyStr.slash COOKIE_FILE = false) by reflexivity.
  unfold PyPath.join in Heq.
  destruct (PyStr.startswith "/" filename) eqn:Hs.
  - rewrite Heq in Hs. discriminate Hs.
  - destruct (String.eqb dir "") eqn:He.
    + apply String.eqb_eq in He. contradiction.
    + simpl in Heq. destruct (PyStr.endswith_char PyStr.slash dir) eqn:Hend.
      * apply (endswith_char_mentions PyStr.slash dir) in Hend.
        rewrite <- Heq, mentions_app, Hend in Hno. discriminate Hno.
      * rewrite <- Heq, !mentions_app in Hno. simpl in Hno.
        rewrite orb_true_r in Hno. discriminate Hno.
Qed.


(** A download with a supported method hands exactly one request to the
    session. *)
Lemma sent_after_download (net : http_request -> net_result) (url method : string)
    (params : option json) (chunk_size : Z) (dir : string)
    (file_name : option string) (env : Env) (req : http_request) :
  dir <> "" ->
  stream_request method url params (self env) = Some req ->
  sent (world (snd (HttpOld.download_large_file net url method params chunk_size
                      (Some dir) file_name env)))
  = (sent (world env) ++ [req])%list.
Proof.
  intros Hdir Hreq.
  rewrite (download_run net url method params chunk_size dir file_name env Hdir).
  unfold downloaded. rewrite Hreq.
  destruct (net req) as [r | msg r]; [|reflexivity].
  pose proof (stored_frame dir file_name chunk_size r (sending req env))
    as (_ & _ & _ & _ & _ & Hs).
  destruct (stored dir file_name chunk_size r (sending req env)) as [[v|e] env2];
    cbn [snd] in *; [exact Hs|].
  destruct e; exact Hs.
Qed.







(** ** Downloads: the file name *)

Lemma choose_filename_spec (r : Response) (file_name : option string) :
  HttpOld.choose_filename r file_name
  = match disposition_filename r with
    | Some f => Some f
    | None => file_name
    end.
Proof.
  unfold HttpOld.choose_filename, disposition_filename.
  destruct (resp_content_disposition r) as [cd|]; [|reflexivity].
  destruct (String.eqb cd "") eqn:He.
  - apply String.eqb_eq in He. subst cd. reflexivity.
  - destruct (PyStr.find "filename=" cd); reflexivity.
Qed.



(** ** FTP upload: creating the remote directory *)

Lemma split_nonempty sep s : PyStr.split sep s <> [].
Proof.
  destruct s as [|c s]; simpl; [discriminate|].
  destruct (Ascii.eqb c sep); [discriminate|].
  destruct (PyStr.split sep s); discriminate.
Qed.

Lemma split_app_sep sep a b :
  PyStr.split sep (a ++ String sep b) = (PyStr.split sep a ++ PyStr.split sep b)%list.
Proof.
  induction a as [|c a IH]; simpl.
  - by rewrite Ascii.eqb_refl.
  - destruct (Ascii.eqb c sep); [by rewrite IH|].
    rewrite IH. pose proof (split_nonempty sep a) as Hne.
    destruct (PyStr.split sep a); [done|reflexivity].
Qed.

Lemma split_no_sep sep s : mentions sep s = false -> PyStr.split sep s = [s].
Proof.
  induction s as [|c s IH]; simpl; [reflexivity|].
  intros H. apply orb_false_elim in H as [Hc Hs].
  rewrite Hc, (IH Hs). reflexivity.
Qed.

Lemma split_pieces_no_sep sep s :
  Forall (fun x => mentions sep x = false) (PyStr.split sep s).
Proof.
  induction s as [|c s IH]; simpl.
  - by constructor.
  - destruct (Ascii.eqb c sep) eqn:Hc.
    + by constructor.
    + destruct (PyStr.split sep s) as [|h t].
      * constructor; [|constructor]. simpl. by rewrite Hc.
      * inversion IH; subst. constructor; [|done]. simpl. by rewrite Hc.
Qed.

Lemma startswith_app p a b : PyStr.startswith p a = true -> PyStr.startswith p (a ++ b) = true.
Proof.
  revert a. induction p as [|c p IH]; intros a; [by destruct a|].
  destruct a as [|x a]; simpl; [discriminate|].
  intros H. apply andb_prop in H as [H1 H2]. by rewrite H1, (IH a H2).
Qed.

Lemma rooted_extend cur d : rooted cur -> PyStr.startswith "/" (cur ++ "/" ++ d) = true.
Proof.
  intros [-> | H]; [reflexivity|]. by apply startswith_app.
Qed.

Lemma resolve_absolute c p : PyStr.startswith "/" p = true -> resolve c p = resolve [] p.
Proof. intros H. unfold resolve. by rewrite H. Qed.

Lemma resolve_extend c cur d :
  rooted cur -> mentions PyStr.slash d = false ->
  resolve c (cur ++ "/" ++ d) = step_into (resolve [] cur) d.
Proof.
  intros Hcur Hd.
  rewrite (resolve_absolute c _ (rooted_extend cur d Hcur)).
  unfold resolve. rewrite (rooted_extend cur d Hcur).
  change (cur ++ "/" ++ d) with (cur ++ String PyStr.slash d).
  rewrite split_app_sep, (split_no_sep _ d Hd), foldl_app.
  cbn [foldl]. by destruct (PyStr.startswith "/" cur).
Qed.

Lemma dir_exists_spec dirs t :
  dir_exists dirs t = true <-> t = [] \/ exists l, l ∈ dirs /\ t `prefix_of` l.
Proof.
  unfold dir_exists. rewrite orb_true_iff, bool_decide_eq_true, existsb_exists.
  split; (intros [H | (l & Hl & Hp)]; [by left | right; exists l]).
  - split; [by apply list_elem_of_In|]. by apply bool_decide_eq_true in Hp.
  - split; [by apply list_elem_of_In|]. by apply bool_decide_eq_true.
Qed.

Lemma removelast_prefix (t : list string) : removelast t `prefix_of` t.
Proof.
  destruct t as [|x t] using rev_ind; [done|].
  rewrite removelast_last. by apply prefix_app_r.
Qed.

Lemma dir_exists_removelast dirs t :
  dir_exists dirs t = true -> dir_exists dirs (removelast t) = true.
Proof.
  rewrite !dir_exists_spec. intros [-> | (l & Hl & Hp)]; [by left|].
  right. exists l. split; [done|]. etrans; [apply removelast_prefix|done].
Qed.

Lemma dir_exists_new dirs t : dir_exists (t :: dirs) t = true.
Proof. apply dir_exists_spec. right. exists t. split; [apply list_elem_of_here|done]. Qed.

Lemma dir_exists_mono dirs t x :
  dir_exists dirs x = true -> dir_exists (t :: dirs) x = true.
Proof.
  rewrite !dir_exists_spec. intros [-> | (l & Hl & Hp)]; [by left|].
  right. exists l. split; [by apply list_elem_of_further|done].
Qed.

Lemma step_into_cases cur d :
  step_into cur d = cur \/ step_into cur d = removelast cur
  \/ (step_into cur d = (cur ++ [d])%list /\ d <> "" /\ d <> "." /\ d <> "..").
Proof.
  unfold step_into.
  destruct (String.eqb d "") eqn:H1; [by left|].
  destruct (String.eqb d ".") eqn:H2; [by left|].
  destruct (String.eqb d "..") eqn:H3; [right; by left|].
  right. right. apply String.eqb_neq in H1, H2, H3. done.
Qed.

Lemma enter_step p w :
  PyStr.startswith "/" p = true ->
  srv_readonly (server w) = false ->
  (dir_exists (srv_dirs (server w)) (resolve [] p) = true
   \/ dir_exists (srv_dirs (server w)) (removelast (resolve [] p)) = true) ->
  try_except (Ftp.cwd p) is_error_perm (fun _ => Ftp.mkd p ;> Ftp.cwd p)%py w
  = (Returned tt, enter_or_create p w).
Proof.
  intros Habs Hro Hpar.
  unfold try_except, enter_or_create, Ftp.cwd at 1.
  unfold bind at 1, Ftp.send at 1, modify at 1.
  unfold bind at 1, gets at 1. rewrite (resolve_absolute _ p Habs).
  unfold bind at 1, gets at 1.
  change (srv_dirs (server (with_commands ?c w))) with (srv_dirs (server w)).
  destruct (dir_exists (srv_dirs (server w)) (resolve [] p)) eqn:Hex.
  - reflexivity.
  - destruct Hpar as [Hpar | Hpar]; [discriminate|].
    unfold raise at 1. cbn [is_error_perm].
    unfold bind at 1, Ftp.mkd.
    unfold bind at 1, Ftp.send at 1, modify at 1.
    unfold bind at 1, gets at 1. rewrite (resolve_absolute _ p Habs).
    unfold bind at 1, gets at 1.
    cbn [server with_commands].
    rewrite Hro, Hex, Hpar. cbn [negb].
    unfold modify at 1.
    unfold Ftp.cwd.
    unfold bind at 1, Ftp.send at 1, modify at 1.
    unfold bind at 1, gets at 1. rewrite (resolve_absolute _ p Habs).
    unfold bind at 1, gets at 1.
    cbn [server with_commands with_server srv_dirs with_dirs].
    rewrite dir_exists_new. reflexivity.
Qed.

Lemma enter_or_create_keeps p w :
  srv_readonly (server (enter_or_create p w)) = srv_readonly (server w)
  /\ srv_listening (server (enter_or_create p w)) = srv_listening (server w)
  /\ srv_files (server (enter_or_create p w)) = srv_files (server w)
  /\ local_files (enter_or_create p w) = local_files w
  /\ ftp_sock (enter_or_create p w) = ftp_sock w
  /\ ftp_console (enter_or_create p w) = ftp_console w
  /\ ftp_cwd (enter_or_create p w) = resolve [] p
  /\ dir_exists (srv_dirs (server (enter_or_create p w))) (resolve [] p) = true.
Proof.
  unfold enter_or_create. cbv zeta.
  destruct (dir_exists (srv_dirs (server w)) (resolve [] p)) eqn:Hex.
  - repeat split; try reflexivity. exact Hex.
  - repeat split; try reflexivity. apply dir_exists_new.
Qed.

Lemma enter_or_create_commands p w :
  commands (enter_or_create p w)
  = (commands w ++ incremental_plan (srv_dirs (server w)) [p])%list.
Proof.
  unfold enter_or_create. cbv zeta. simpl.
  destruct (dir_exists (srv_dirs (server w)) (resolve [] p)); simpl.
  - reflexivity.
  - by rewrite <- !app_assoc.
Qed.

Lemma enter_or_create_dirs p w x :
  dir_exists (srv_dirs (server w)) x = true ->
  dir_exists (srv_dirs (server (enter_or_create p w))) x = true.
Proof.
  intros Hx. unfold enter_or_create. cbv zeta.
  destruct (dir_exists (srv_dirs (server w)) (resolve [] p)); simpl; [exact Hx|].
  by apply dir_exists_mono.
Qed.

Lemma walk_keeps ps w :
  srv_readonly (server (walk ps w)) = srv_readonly (server w)
  /\ srv_files (server (walk ps w)) = srv_files (server w)
  /\ local_files (walk ps w) = local_files w
  /\ ftp_sock (walk ps w) = ftp_sock w
  /\ ftp_console (walk ps w) = ftp_console w.
Proof.
  revert w. induction ps as [|p ps IH]; intros w; simpl; [by repeat split|].
  destruct (IH (enter_or_create p w)) as (A & B & C & D & E).
  destruct (enter_or_create_keeps p w) as (A' & _ & B' & C' & D' & E' & _).
  repeat split; congruence.
Qed.

Lemma enter_or_create_srv_dirs p w :
  srv_dirs (server (enter_or_create p w))
  = if dir_exists (srv_dirs (server w)) (resolve [] p) then srv_dirs (server w)
    else resolve [] p :: srv_dirs (server w).
Proof.
  unfold enter_or_create. cbv zeta.
  destruct (dir_exists (srv_dirs (server w)) (resolve [] p)); reflexivity.
Qed.

Lemma walk_commands ps w :
  commands (walk ps w)
  = (commands w ++ incremental_plan (srv_dirs (server w)) ps)%list.
Proof.
  revert w. induction ps as [|p ps IH]; intros w; simpl.
  - by rewrite app_nil_r.
  - rewrite IH, enter_or_create_commands, enter_or_create_srv_dirs. simpl.
    destruct (dir_exists (srv_dirs (server w)) (resolve [] p)); simpl;
      by rewrite <- !app_assoc.
Qed.

Lemma walk_dirs_mono ps w x :
  dir_exists (srv_dirs (server w)) x = true ->
  dir_exists (srv_dirs (server (walk ps w))) x = true.
Proof.
  revert w. induction ps as [|p ps IH]; intros w Hx; simpl; [exact Hx|].
  apply IH. by apply enter_or_create_dirs.
Qed.

Lemma walk_all_exist ps w p :
  p ∈ ps -> dir_exists (srv_dirs (server (walk ps w))) (resolve [] p) = true.
Proof.
  revert w. induction ps as [|q ps IH]; intros w Hin; [by apply elem_of_nil in Hin|].
  apply elem_of_cons in Hin as [-> | Hin]; simpl.
  - apply walk_dirs_mono. apply enter_or_create_keeps.
  - by apply IH.
Qed.

Lemma make_dirs_run segs cur w :
  rooted cur ->
  Forall (fun x => mentions PyStr.slash x = false) segs ->
  srv_readonly (server w) = false ->
  dir_exists (srv_dirs (server w)) (resolve [] cur) = true ->
  HttpOld.make_dirs segs cur w = (Returned tt, walk (prefixes_from cur segs) w).
Proof.
  revert cur w. induction segs as [|d segs IH]; intros cur w Hcur Hsegs Hro Hex;
    [reflexivity|].
  inversion Hsegs as [|? ? Hd Hrest]; subst. simpl.
  destruct (String.eqb d "") eqn:Hempty; [by apply IH|].
  cbv zeta. unfold bind at 1.
  pose proof (rooted_extend cur d Hcur) as Habs.
  pose proof (resolve_extend [] cur d Hcur Hd) as Hres.
  rewrite enter_step; [| exact Habs | exact Hro |].
  - simpl. apply IH; [by right | exact Hrest | |].
    + destruct (enter_or_create_keeps (cur ++ "/" ++ d) w) as (-> & _). exact Hro.
    + apply enter_or_create_keeps.
  - rewrite Hres.
    destruct (step_into_cases (resolve [] cur) d) as [-> | [-> | (-> & _)]].
    + by left.
    + left. by apply dir_exists_removelast.
    + right. by rewrite removelast_last.
Qed.

Lemma open_session_run host username password port passive w :
  srv_listening (server w) = true ->
  (username, password) ∈ srv_accounts (server w) ->
  HttpOld.open_session host username password port passive w
  = (Returned tt, session_opened host port username passive w).
Proof.
  intros Hup Hacc.
  unfold HttpOld.open_session, session_opened. cbv zeta.
  unfold bind at 1, Ftp.FTP, modify at 1.
  unfold bind at 1, Ftp.connect.
  unfold bind at 1, Ftp.send at 1, modify at 1.
  unfold bind at 1, gets at 1. cbn [server with_commands with_sock with_passive].
  rewrite Hup.
  unfold modify at 1.
  unfold bind at 1, Ftp.login.
  unfold bind at 1, Ftp.send at 1, modify at 1.
  unfold bind at 1, gets at 1. cbn [server with_commands with_sock with_passive].
  rewrite (bool_decide_eq_true_2 _ Hacc).
  reflexivity.
Qed.

Lemma ensure_directory_run upload_dir w :
  srv_readonly (server w) = false ->
  dir_exists (srv_dirs (server w)) (resolve (ftp_cwd w) upload_dir) = false ->
  HttpOld.ensure_directory upload_dir w
  = (Returned None, directory_ensured upload_dir w).
Proof.
  intros Hro Hex.
  unfold HttpOld.ensure_directory, directory_ensured. cbv zeta.
  unfold try_except at 1.
  unfold bind at 1, Ftp.cwd.
  unfold bind at 1, Ftp.send at 1, modify at 1.
  unfold bind at 1, gets at 1.
  unfold bind at 1, gets at 1.
  cbn [server with_commands ftp_cwd]. rewrite Hex.
  unfold raise at 1. cbn [is_error_perm].
  unfold bind at 1, Ftp.logging at 1, modify at 1.
  unfold try_except at 1, bind at 1.
  rewrite make_dirs_run.
  - reflexivity.
  - by left.
  - apply split_pieces_no_sep.
  - exact Hro.
  - reflexivity.
Qed.

Lemma transfer_file_run file_path upload_dir data w :
  local_files w !! file_path = Some data ->
  srv_readonly (server w) = false ->
  HttpOld.transfer_file file_path upload_dir w
  = (Returned (PyPathStr (upload_dir ++ "/" ++ PyPath.basename file_path)),
     file_transferred file_path upload_dir data w).
Proof.
  intros Hfile Hro.
  unfold HttpOld.transfer_file, file_transferred. cbv zeta.
  unfold bind at 1, Ftp.logging at 1, modify at 1.
  unfold bind at 1, gets at 1. cbn [local_files with_ftp_console]. rewrite Hfile.
  cbn [default].
  unfold bind at 1, Ftp.logging at 1, modify at 1.
  unfold bind at 1, Ftp.storbinary.
  unfold bind at 1, Ftp.send at 1, modify at 1.
  unfold bind at 1, gets at 1. cbn [server with_commands with_ftp_console].
  rewrite Hro.
  reflexivity.
Qed.

Lemma directory_ensured_keeps (upload_dir : string) (w : FtpWorld) :
  srv_readonly (server (directory_ensured upload_dir w)) = srv_readonly (server w)
  /\ srv_files (server (directory_ensured upload_dir w)) = srv_files (server w)
  /\ local_files (directory_ensured upload_dir w) = local_files w
  /\ ftp_sock (directory_ensured upload_dir w) = ftp_sock w.
Proof.
  unfold directory_ensured. cbv zeta.
  match goal with
  | |- context [walk ?ps ?x] => destruct (walk_keeps ps x) as (A & B & C & D & _)
  end.
  rewrite A, B, C, D. by repeat split.
Qed.

Lemma upload_run (host username password file_path upload_dir : string)
    (port : Z) (passive : bool) (w : FtpWorld) (data : string) :
  local_files w !! file_path = Some data ->
  srv_listening (server w) = true ->
  (username, password) ∈ srv_accounts (server w) ->
  srv_readonly (server w) = false ->
  dir_exists (srv_dirs (server w)) (resolve (srv_home (server w)) upload_dir) = false ->
  HttpOld.upload_ftp host username password file_path upload_dir port passive w
  = (Returned (PyPathStr (upload_dir ++ "/" ++ PyPath.basename file_path)),
     upload_done host username file_path upload_dir data port passive w).
Proof.
  intros Hfile Hup Hacc Hro Hex.
  unfold HttpOld.upload_ftp, upload_done.
  unfold bind at 1, gets at 1. rewrite Hfile.
  rewrite bool_decide_eq_true_2 by (by eexists). cbn [negb].
  unfold try_finally, try_except at 1.
  unfold bind at 1. rewrite (open_session_run _ _ _ _ _ _ Hup Hacc).
  unfold bind at 1. rewrite ensure_directory_run; [| exact Hro | exact Hex].
  destruct (directory_ensured_keeps upload_dir
              (session_opened host port username passive w))
    as (Hro' & _ & Hfiles' & _).
  rewrite (transfer_file_run file_path upload_dir data).
  - reflexivity.
  - rewrite Hfiles'. exact Hfile.
  - rewrite Hro'. exact Hro.
Qed.

Lemma step_into_plain cur d :
  d <> "" -> plain_name d -> step_into cur d = (cur ++ [d])%list.
Proof.
  intros H1 [H2 H3]. unfold step_into.
  apply String.eqb_neq in H1, H2, H3. by rewrite H1, H2, H3.
Qed.

Lemma prefixes_from_deeper segs cur p :
  rooted cur ->
  Forall (fun x => mentions PyStr.slash x = false) segs ->
  Forall plain_name segs ->
  p ∈ prefixes_from cur segs ->
  exists l, l <> [] /\ resolve [] p = (resolve [] cur ++ l)%list.
Proof.
  revert cur. induction segs as [|d segs IH]; intros cur Hcur Hs Hp Hin;
    [by apply elem_of_nil in Hin|].
  inversion Hs as [|? ? Hd Hs']; inversion Hp as [|? ? Hpd Hp']; subst.
  simpl in Hin. destruct (String.eqb d "") eqn:He; [by apply (IH cur)|].
  apply String.eqb_neq in He.
  assert (Hres : resolve [] (cur ++ "/" ++ d) = (resolve [] cur ++ [d])%list)
    by (rewrite (resolve_extend [] cur d Hcur Hd); by apply step_into_plain).
  apply elem_of_cons in Hin as [-> | Hin].
  - exists [d]. split; [discriminate|exact Hres].
  - destruct (IH (cur ++ "/" ++ d)) as (l & Hl & Hr); try done.
    { right. by apply rooted_extend. }
    exists (d :: l). split; [discriminate|].
    rewrite Hr, Hres. by rewrite <- app_assoc.
Qed.

Lemma dir_exists_cons_false dirs t x :
  dir_exists dirs x = false -> ~ x `prefix_of` t -> dir_exists (t :: dirs) x = false.
Proof.
  intros Hx Hp. apply not_true_is_false. intros H.
  apply dir_exists_spec in H as [-> | (l & Hl & Hpl)].
  - by rewrite (proj2 (dir_exists_spec dirs []) (or_introl eq_refl)) in Hx.
  - apply elem_of_cons in Hl as [-> | Hl]; [done|].
    rewrite (proj2 (dir_exists_spec dirs x)) in Hx; [discriminate|].
    right. by exists l.
Qed.

Lemma plan_creates_all segs cur dirs :
  rooted cur ->
  Forall (fun x => mentions PyStr.slash x = false) segs ->
  Forall plain_name segs ->
  (forall p, p ∈ prefixes_from cur segs -> dir_exists dirs (resolve [] p) = false) ->
  incremental_plan dirs (prefixes_from cur segs)
  = flat_map (fun p => [CWD p; MKD p; CWD p]) (prefixes_from cur segs).
Proof.
  revert cur dirs. induction segs as [|d segs IH]; intros cur dirs Hcur Hs Hp Hnew;
    [reflexivity|].
  inversion Hs as [|? ? Hd Hs']; inversion Hp as [|? ? Hpd Hp']; subst.
  simpl in *. destruct (String.eqb d "") eqn:He; [by apply IH|].
  simpl. rewrite (Hnew (cur ++ "/" ++ d)) by apply list_elem_of_here.
  do 3 f_equal. apply IH; try done.
  { right. by apply rooted_extend. }
  intros q Hq.
  apply dir_exists_cons_false.
  - apply Hnew. by apply list_elem_of_further.
  - destruct (prefixes_from_deeper segs (cur ++ "/" ++ d) q) as (l & Hl & Hr);
      try done.
    { right. by apply rooted_extend. }
    rewrite Hr. intros Hpre. apply prefix_length in Hpre.
    rewrite length_app in Hpre. destruct l; [done|]. simpl in Hpre. lia.
Qed.

Lemma upload_done_commands (host username file_path upload_dir data : string)
    (port : Z) (passive : bool) (w : FtpWorld) :
  commands (upload_done host username file_path upload_dir data port passive w)
  = (commands w
       ++ [CONNECT host port; LOGIN username; CWD upload_dir]
       ++ incremental_plan (srv_dirs (server w)) (prefixes upload_dir)
       ++ [STOR (PyPath.basename file_path) data; QUIT])%list
  /\ ftp_sock (upload_done host username file_path upload_dir data port passive w)
     = false.
Proof.
  unfold upload_done, HttpOld.disconnect.
  assert (Hsock : ftp_sock (file_transferred file_path upload_dir data
                              (directory_ensured upload_dir
                                 (session_opened host port username passive w)))
                  = true).
  { unfold file_transferred. cbv zeta. cbn [ftp_sock with_ftp_console with_server with_commands].
    destruct (directory_ensured_keeps upload_dir
                (session_opened host port username passive w)) as (_ & _ & _ & ->).
    reflexivity. }
  rewrite Hsock. split; [|reflexivity].
  unfold bind, Ftp.quit, Ftp.send, Ftp.logging, modify, bind.
  cbn [snd commands with_ftp_console with_sock with_commands].
  unfold file_transferred. cbv zeta.
  cbn [commands with_ftp_console with_server with_commands].
  unfold directory_ensured. cbv zeta. rewrite walk_commands.
  cbn [commands server srv_dirs with_ftp_console with_commands session_opened
         with_passive with_cwd with_sock].
  by rewrite <- !app_assoc.
Qed.

Lemma upload_done_dirs (host username file_path upload_dir data : string)
    (port : Z) (passive : bool) (w : FtpWorld) (p : string) :
  p ∈ prefixes upload_dir ->
  dir_exists
    (srv_dirs (server (upload_done host username file_path upload_dir data port
                         passive w)))
    (resolve [] p) = true.
Proof.
  intros Hin.
  assert (Hsame : srv_dirs (server (upload_done host username file_path upload_dir
                                      data port passive w))
                  = srv_dirs (server (directory_ensured upload_dir
                                        (session_opened host port username passive w)))).
  { unfold upload_done, HttpOld.disconnect.
    destruct (ftp_sock _); reflexivity. }
  rewrite Hsame. unfold directory_ensured. cbv zeta. by apply walk_all_exist.
Qed.

(** C8: when the local file exists, the server accepts the connection,
    the login and writes, and the target directory cannot be entered,
    [upload_ftp] splits the path at its slashes and, for each
    progressively longer prefix in turn, tries to enter it and, failing
    that, creates it and enters it ([incremental_plan]); it then stores
    the file, closes the connection and returns [upload_dir], a slash and
    the base name of the file.  Afterwards every prefix exists.  If none
    of the levels existed and the pieces are plain names, as for the
    three levels of '/a/b/c', every level is created, in order. *)
Theorem upload_creates_remote_directories
    (host username password file_path upload_dir : string) (port : Z)
    (passive : bool) (w : FtpWorld) (data : string) :
  local_files w !! file_path = Some data ->
  srv_listening (server w) = true ->
  (username, password) ∈ srv_accounts (server w) ->
  srv_readonly (server w) = false ->
  dir_exists (srv_dirs (server w)) (resolve (srv_home (server w)) upload_dir) = false ->
  let run := HttpOld.upload_ftp host username password file_path upload_dir port
               passive w in
  let name := PyPath.basename file_path in
  fst run = Returned (PyPathStr (upload_dir ++ "/" ++ name))
  /\ commands (snd run)
     = (commands w
          ++ [CONNECT host port; LOGIN username; CWD upload_dir]
          ++ incremental_plan (srv_dirs (server w)) (prefixes upload_dir)
          ++ [STOR name data; QUIT])%list
  /\ (forall p, p ∈ prefixes upload_dir ->
        dir_exists (srv_dirs (server (snd run))) (resolve [] p) = true)
  /\ (Forall plain_name (PyStr.split PyStr.slash upload_dir) ->
      (forall p, p ∈ prefixes upload_dir ->
         dir_exists (srv_dirs (server w)) (resolve [] p) = false) ->
      incremental_plan (srv_dirs (server w)) (prefixes upload_dir)
      = flat_map (fun p => [CWD p; MKD p; CWD p]) (prefixes upload_dir))
  /\ ftp_sock (snd run) = false.
Proof.
  intros Hfile Hup Hacc Hro Hex run name. subst run name.
  rewrite (upload_run host username password file_path upload_dir port passive w
             data Hfile Hup Hacc Hro Hex).
  cbn [fst snd].
  destruct (upload_done_commands host username file_path upload_dir data port
              passive w) as [Hcmd Hsock].
  split; [reflexivity|]. split; [exact Hcmd|]. split; [|split; [|exact Hsock]].
  - intros p Hin. by apply upload_done_dirs.
  - intros Hplain Hnew. apply plan_creates_all; try done.
    + by left.
    + apply split_pieces_no_sep.
Qed.

Lemma upload_creates_remote_directories_witness :
  fst (HttpOld.upload_ftp "ftp.host" "user" "secret" "/tmp/report.txt" "/a/b/c"
         21 true ftp_start)
  = Returned (PyPathStr "/a/b/c/report.txt")
  /\ commands (snd (HttpOld.upload_ftp "ftp.host" "user" "secret"
                      "/tmp/report.txt" "/a/b/c" 21 true ftp_start))
     = [CONNECT "ftp.host" 21; LOGIN "user"; CWD "/a/b/c";
        CWD "/a"; MKD "/a"; CWD "/a";
        CWD "/a/b"; MKD "/a/b"; CWD "/a/b";
        CWD "/a/b/c"; MKD "/a/b/c"; CWD "/a/b/c";
        STOR "report.txt" "hello"; QUIT].
Proof.
  assert (H1 : local_files ftp_start !! "/tmp/report.txt" = Some "hello")
    by (vm_compute; reflexivity).
  assert (H2 : srv_listening (server ftp_start) = true) by reflexivity.
  assert (H3 : ("user", "secret") ∈ srv_accounts (server ftp_start))
    by (simpl; apply list_elem_of_here).
  assert (H4 : srv_readonly (server ftp_start) = false) by reflexivity.
  assert (H5 : dir_exists (srv_dirs (server ftp_start))
                 (resolve (srv_home (server ftp_start)) "/a/b/c") = false)
    by (vm_compute; reflexivity).
  destruct (upload_creates_remote_directories "ftp.host" "user" "secret"
              "/tmp/report.txt" "/a/b/c" 21 true ftp_start "hello"
              H1 H2 H3 H4 H5) as (Hres & Hcmd & _).
  split.
  - rewrite Hres. vm_compute. reflexivity.
  - rewrite Hcmd. vm_compute. reflexivity.
Defined.

(** * Further properties of the code *)

(** ** Configuration *)

Lemma set_headers_run (kvs : list (string * string)) (env : Env) :
  set_headers kvs env
  = (Returned tt,
     with_self (with_headers
                  (foldl (fun d kv => <[kv.1 := kv.2]> d) (headers (self env)) kvs)
                  (self env)) env).
Proof.
  revert env. induction kvs as [|[k v] kvs IH]; intros env.
  - destruct env as [[] w]. reflexivity.
  - cbn [set_headers]. unfold bind at 1, HttpOld.set_header, bind, getattr,
      setattr, gets, modify. cbv beta iota.
    rewrite IH. reflexivity.
Qed.

Lemma foldl_insert_lookup (kvs : list (string * string)) (d : gmap string string)
    (key : string) :
  foldl (fun d kv => <[kv.1 := kv.2]> d) d kvs !! key
  = match last_set key kvs with Some v => Some v | None => d !! key end.
Proof.
  unfold last_set.
  induction kvs as [|[k v] kvs IH] using rev_ind; [reflexivity|].
  rewrite !foldl_snoc. cbn [fst snd].
  destruct (String.eqb k key) eqn:Hk.
  - apply String.eqb_eq in Hk. subst k. apply lookup_insert_eq.
  - apply String.eqb_neq in Hk. rewrite lookup_insert_ne by done. exact IH.
Qed.

(** X1: after any sequence of [set_header] calls, a header has the value
    of the last call that named it, or its earlier value if no call did;
    nothing but the headers of the client has changed. *)
Theorem set_header_sequence_last_wins (kvs : list (string * string)) (env : Env)
    (key : string) :
  headers (self (snd (set_headers kvs env))) !! key
  = match last_set key kvs with
    | Some v => Some v
    | None => headers (self env) !! key
    end
  /\ snd (set_headers kvs env)
     = with_self (with_headers (headers (self (snd (set_headers kvs env))))
                    (self env)) env.
Proof.
  rewrite set_headers_run. cbn [snd self with_self headers with_headers].
  split; [apply foldl_insert_lookup | reflexivity].
Qed.







(** ** The cookie file, further *)

Lemma union_absorb (N P : gmap string string) : N ∪ (N ∪ P) = N ∪ P.
Proof.
  apply map_eq. intros k. rewrite !lookup_union_override.
  by destruct (N !! k).
Qed.

(** X5: when the cookie file can be loaded and written, [_save_cookies]
    never drops a cookie: every name in the file before is in it after,
    with its old value unless the response set that name; and saving the
    same cookies a second time leaves the file as the first save did. *)
Theorem save_cookies_keeps_and_is_idempotent
    (cookie_jar : list (string * string)) (env : Env) :
  jar (world env) <> NotAnObject ->
  jar_write_error (world env) = None ->
  let env1 := snd (HttpOld._save_cookies cookie_jar env) in
  exists D' : gmap string string,
    jar (world env1) = Object D'
    /\ (forall k v, persisted_cookies (jar (world env)) !! k = Some v ->
          dict_from_cookiejar cookie_jar !! k = None -> D' !! k = Some v)
    /\ (forall k, is_Some (persisted_cookies (jar (world env)) !! k) ->
          is_Some (D' !! k))
    /\ (forall k v, dict_from_cookiejar cookie_jar !! k = Some v -> D' !! k = Some v)
    /\ jar (world (snd (HttpOld._save_cookies cookie_jar env1))) = Object D'.
Proof.
  intros Hj Hw env1. subst env1.
  rewrite (save_cookies_run cookie_jar env Hj).
  unfold after_save. rewrite Hw. cbn [snd].
  set (N := dict_from_cookiejar cookie_jar).
  set (P := persisted_cookies (jar (world env))).
  exists (N ∪ P). split; [reflexivity|]. split; [|split; [|split]].
  - intros k v HP HN. by rewrite lookup_union_override, HN.
  - intros k [v HP]. rewrite lookup_union_override.
    destruct (N !! k); [by eexists | by exists v].
  - intros k v HN. by rewrite lookup_union_override, HN.
  - rewrite save_cookies_run by discriminate.
    unfold after_save. cbn. rewrite Hw. cbn. fold N. by rewrite union_absorb.
Qed.

Lemma save_cookies_keeps_and_is_idempotent_witness :
  jar (world (snd (HttpOld._save_cookies [("a", "2")]
                     (snd (HttpOld._save_cookies [("a", "2")]
                             (set_jar (Object {[ "a" := "1"; "z" := "0" ]}) fresh_env))))))
  = Object {[ "a" := "2"; "z" := "0" ]}.
Proof.
  destruct (save_cookies_keeps_and_is_idempotent [("a", "2")]
              (set_jar (Object {[ "a" := "1"; "z" := "0" ]}) fresh_env))
    as (D' & H1 & _ & _ & _ & H5); [discriminate | reflexivity |].
  rewrite H5, <- H1. reflexivity.
Defined.

(** X6: when reading the cookie file raises an exception that the
    inner [except] clause names ([IOError], when [open] finds no file
    or may not read it, or [JSONDecodeError], when [json.load] rejects
    the text) and the file can be written, [_save_cookies] replaces it
    by exactly the cookies of the response.  An exception of another
    class is outside this statement. *)
Theorem save_cookies_replaces_unloadable_file
    (cookie_jar : list (string * string)) (env : Env) (e : exn) :
  fst (json_load_cookie_file env) = Raised e ->
  is_IOError e || is_JSONDecodeError e = true ->
  jar_write_error (world env) = None ->
  HttpOld._save_cookies cookie_jar env
  = (Returned tt,
     logged (Info "Cookies saved to file 'cookies.json'")
       (set_jar (Object (dict_from_cookiejar cookie_jar)) env)).
Proof.
  intros Hload _ Hw.
  assert (Hcase : jar (world env) <> NotAnObject
                  /\ persisted_cookies (jar (world env)) = ∅).
  { revert Hload. unfold json_load_cookie_file, bind, inspect, gets.
    cbn [fst]. destruct (jar (world env)); cbn.
    - split; [discriminate | reflexivity].
    - split; [discriminate | reflexivity].
    - split; [discriminate | reflexivity].
    - discriminate.
    - discriminate. }
  destruct Hcase as [Hj HP].
  rewrite save_cookies_run by exact Hj.
  unfold after_save. rewrite Hw, HP. by rewrite (right_id_L ∅ (∪)).
Qed.

Lemma save_cookies_replaces_unloadable_file_witness :
  jar (world (snd (HttpOld._save_cookies [("a", "2"); ("b", "3")]
                     (set_jar (Malformed "Expecting value") fresh_env))))
  = Object {[ "a" := "2"; "b" := "3" ]}.
Proof.
  rewrite (save_cookies_replaces_unloadable_file [("a", "2"); ("b", "3")]
             (set_jar (Malformed "Expecting value") fresh_env)
             (JSONDecodeError "Expecting value")).
  - reflexivity.
  - reflexivity.
  - reflexivity.
  - reflexivity.
Defined.

(** X7: a cookie file that holds JSON other than an object (a list, a
    number, ...) is not tolerated: unpacking it raises [TypeError], which
    no handler names.  A verb dispatch then raises before anything is
    sent, with the error state and everything else as before;
    [_save_cookies] raises likewise and leaves the file. *)
Theorem non_object_cookie_file_raises (net : http_request -> net_result)
    (method url : string) (kw : kwargs) (cookie_jar : list (string * string))
    (env : Env) :
  jar (world env) = NotAnObject ->
  HttpOld._request net method url kw env
  = (Raised (TypeError "object is not a mapping"), env)
  /\ HttpOld._save_cookies cookie_jar env
     = (Raised (TypeError "object is not a mapping"), env).
Proof.
  intros Hj. split; [by apply request_not_an_object|].
  unfold HttpOld._save_cookies, HttpOld.load_cookie_file, json_load_cookie_file,
    try_except, bind, inspect, gets.
  rewrite Hj. reflexivity.
Qed.

Lemma non_object_cookie_file_raises_witness :
  fst (HttpOld.get (fun _ => Responds json_response) "http://host/x" None
         (set_jar NotAnObject env_after_404))
  = Raised (TypeError "object is not a mapping")
  /\ _error_code (self (snd (HttpOld.get (fun _ => Responds json_response)
                               "http://host/x" None
                               (set_jar NotAnObject env_after_404))))
     = Some 404.
Proof.
  destruct (non_object_cookie_file_raises (fun _ => Responds json_response) "get"
              "http://host/x" {| kw_params := None; kw_json := None |} []
              (set_jar NotAnObject env_after_404) eq_refl) as [Hrun _].
  unfold HttpOld.get. rewrite Hrun. split; reflexivity.
Defined.

(** ** Dispatches, further *)






(** X10: a dispatch answered with a status outside 400 to 599 returns
    the body: the decoded JSON when the content-type header contains
    'application/json' (and the body decodes), the text otherwise, also
    when the response has no content-type header; the error state is
    clear and the url is remembered as [base_url]. *)
Theorem answered_dispatch_returns_body (net : http_request -> net_result)
    (method url : string) (kw : kwargs) (env : Env) (r : Response) :
  jar (world env) <> NotAnObject ->
  net (dispatch_request method url kw env) = Responds r ->
  error_status r = false ->
  let run := HttpOld._request net method url kw env in
  (forall ct v, resp_content_type r = Some ct ->
                PyStr.contains "application/json" ct = true ->
                resp_json r = Some v -> fst run = Returned (Json v))
  /\ (forall ct, resp_content_type r = Some ct ->
                 PyStr.contains "application/json" ct = false ->
                 fst run = Returned (Text (resp_text r)))
  /\ (resp_content_type r = None -> fst run = Returned (Text (resp_text r)))
  /\ (forall v, fst run = Returned v ->
        _error_message (self (snd run)) = None
        /\ _error_code (self (snd run)) = None
        /\ base_url (self (snd run)) = url).
Proof.
  intros Hj Hnet Hok run. subst run.
  rewrite (request_run net method url kw env Hj). cbv zeta. rewrite Hnet, Hok.
  split; [|split; [|split]].
  - intros ct v -> Hct ->. cbn [default from_option id]. rewrite Hct. reflexivity.
  - intros ct -> Hct. cbn [default from_option id]. rewrite Hct. reflexivity.
  - intros ->. reflexivity.
  - intros v. unfold after_save.
    destruct (PyStr.contains _ _); [destruct (resp_json r)|]; intros [= <-];
      cbn; destruct (jar_write_error (world env)); repeat split; reflexivity.
Qed.

Lemma answered_dispatch_returns_body_witness :
  fst (HttpOld._request (fun _ => Responds json_response) "get" "http://host/x"
         {| kw_params := None; kw_json := None |} fresh_env)
  = Returned (Json (JObject [("ok", JBool true)]))
  /\ fst (HttpOld._request (fun _ => Responds plain_response) "get" "http://host/x"
            {| kw_params := None; kw_json := None |} fresh_env)
     = Returned (Text "data").
Proof.
  split.
  - apply (proj1 (answered_dispatch_returns_body (fun _ => Responds json_response)
                    "get" "http://host/x" {| kw_params := None; kw_json := None |}
                    fresh_env json_response ltac:(discriminate) eq_refl eq_refl)
             "application/json; charset=utf-8"); reflexivity.
  - apply (proj1 (proj2 (answered_dispatch_returns_body
                           (fun _ => Responds plain_response)
                           "get" "http://host/x"
                           {| kw_params := None; kw_json := None |}
                           fresh_env plain_response ltac:(discriminate)
                           eq_refl eq_refl))
             "application/octet-stream"); reflexivity.
Defined.

(** X11: the cookie file is written before the body is decoded: when
    the cookie file can be loaded and written, and a response with a
    status that is no error announces JSON and its body does not
    decode, the dispatch raises the decoding error of the library,
    records its text (which depends on the body) and no code, and the
    cookies of the response are already in the file. *)
Theorem undecodable_body_raises_after_save (net : http_request -> net_result)
    (method url ct : string) (kw : kwargs) (env : Env) (r : Response) :
  jar (world env) <> NotAnObject ->
  jar_write_error (world env) = None ->
  net (dispatch_request method url kw env) = Responds r ->
  error_status r = false ->
  resp_content_type r = Some ct ->
  PyStr.contains "application/json" ct = true ->
  resp_json r = None ->
  let run := HttpOld._request net method url kw env in
  fst run = Raised (RequestException (resp_json_error r) None)
  /\ jar (world (snd run))
     = Object (dict_from_cookiejar (resp_cookies r)
                 ∪ persisted_cookies (jar (world env)))
  /\ _error_message (self (snd run)) = Some (resp_json_error r)
  /\ _error_code (self (snd run)) = None.
Proof.
  intros Hj Hw Hnet Hok Hct Hjson Hbody run. subst run.
  rewrite (request_run net method url kw env Hj). cbv zeta.
  rewrite Hnet, Hok, Hct. cbn [default from_option id]. rewrite Hjson, Hbody.
  unfold after_save. cbn. rewrite Hw. repeat split; reflexivity.
Qed.

Lemma undecodable_body_raises_after_save_witness :
  fst (HttpOld._request (fun _ => Responds empty_json_response) "get"
         "http://host/x" {| kw_params := None; kw_json := None |} fresh_env)
  = Raised (RequestException "Expecting value: line 1 column 1 (char 0)" None)
  /\ jar (world (snd (HttpOld._request (fun _ => Responds empty_json_response)
                        "get" "http://host/x"
                        {| kw_params := None; kw_json := None |} fresh_env)))
     = Object {[ "sid" := "7" ]}.
Proof.
  destruct (undecodable_body_raises_after_save
              (fun _ => Responds empty_json_response) "get" "http://host/x"
              "application/json" {| kw_params := None; kw_json := None |}
              fresh_env empty_json_response)
    as (Hout & Hjar & _).
  - discriminate.
  - reflexivity.
  - reflexivity.
  - reflexivity.
  - reflexivity.
  - reflexivity.
  - reflexivity.
  - split; [exact Hout|]. rewrite Hjar. reflexivity.
Defined.

(** ** Downloads: what is written, and where *)

Lemma str_app_nil_r (s : string) : s ++ "" = s.
Proof.
  induction s as [|a s IH]; [reflexivity|].
  change (String a (s ++ "") = String a s). by rewrite IH.
Qed.

Lemma str_app_assoc (s t u : string) : (s ++ t) ++ u = s ++ t ++ u.
Proof.
  induction s as [|a s IH]; [reflexivity|].
  change (String a ((s ++ t) ++ u) = String a (s ++ t ++ u)). by rewrite IH.
Qed.

Lemma str_length_app (s t : string) :
  String.length (s ++ t) = (String.length s + String.length t)%nat.
Proof.
  induction s as [|a s IH]; [reflexivity|].
  change (S (String.length (s ++ t)) = S (String.length s + String.length t)).
  by rewrite IH.
Qed.

Lemma bar_progress_snoc (out : list output) (o : output) :
  bar_progress (out ++ [o])
  = bar_progress out + match o with BarUpdate k => k | _ => 0 end.
Proof.
  induction out as [|x out IH].
  - simpl. destruct o; lia.
  - change (bar_progress ((x :: out) ++ [o]))
      with (match x with BarUpdate k => k + bar_progress (out ++ [o])
                    | _ => bar_progress (out ++ [o]) end).
    change (bar_progress (x :: out))
      with (match x with BarUpdate k => k + bar_progress out
                    | _ => bar_progress out end).
    rewrite IH. destruct x; lia.
Qed.

Lemma holding_disk (path bytes : string) (w : World) :
  disk (holding path bytes w) = <[path := bytes]> (disk w)
  /\ console (holding path bytes w) = console w.
Proof. unfold holding. destruct (cookie_paths w path); split; reflexivity. Qed.

Lemma chunk_written_disk (path ch c : string) (env : Env) :
  disk (world env) !! path = Some c ->
  disk (world (chunk_written path ch env)) = <[path := c ++ ch]> (disk (world env))
  /\ console (world (chunk_written path ch env))
     = (console (world env) ++ [BarUpdate (Z.of_nat (String.length ch))])%list.
Proof.
  intros Hc. unfold chunk_written, logged.
  cbn [world disk console with_console].
  destruct (holding_disk path (default "" (disk (world env) !! path) ++ ch)
              (world env)) as [-> ->].
  rewrite Hc. split; reflexivity.
Qed.

(** The loop appends the chunks to the open file in order, advances the
    progress bar by their lengths, and touches no other file. *)
Lemma write_chunks_disk (path : string) (chunks : list string) (env : Env)
    (c : string) :
  disk (world env) !! path = Some c ->
  let env' := snd (HttpOld.write_chunks path chunks env) in
  disk (world env') = <[path := c ++ joined chunks]> (disk (world env))
  /\ bar_progress (console (world env'))
     = bar_progress (console (world env))
       + Z.of_nat (String.length (joined chunks)).
Proof.
  cbv zeta. revert env c.
  induction chunks as [|ch chunks IH]; intros env c Hc.
  - change (joined []) with "". rewrite str_app_nil_r. split; [|simpl; lia].
    symmetry. by apply insert_id.
  - rewrite write_chunks_cons.
    change (joined (ch :: chunks)) with (ch ++ joined chunks).
    destruct (String.eqb ch "") eqn:He.
    + apply String.eqb_eq in He. subst ch. apply IH, Hc.
    + destruct (chunk_written_disk path ch c env Hc) as [Hd1 Hc1].
      destruct (IH (chunk_written path ch env) (c ++ ch)) as [Hd Hp].
      { rewrite Hd1. apply lookup_insert_eq. }
      rewrite Hd, Hp, Hd1, Hc1.
      split.
      * rewrite insert_insert_eq. by rewrite str_app_assoc.
      * rewrite bar_progress_snoc, str_length_app. lia.
Qed.

(** What [store_response] comes to once the destination can be opened. *)
Lemma stored_stream (dir : string) (file_name : option string) (chunk_size : Z)
    (r : Response) (env1 : Env) (total : Z) (filename : string)
    (chunks : list string) (broken : option string) :
  error_status r = false ->
  declared_length r = Some total ->
  HttpOld.choose_filename r file_name = Some filename ->
  disk_write_error (world env1) !! PyPath.join dir filename = None ->
  resp_iter_content r chunk_size = (chunks, broken) ->
  let path := PyPath.join dir filename in
  let env2 := snd (HttpOld.write_chunks path chunks (opened path total filename env1)) in
  stored dir file_name chunk_size r env1
  = match broken with
    | Some msg => (Raised (RequestException msg None), env2)
    | None => (Returned (PyPathStr path), env2)
    end
  /\ disk (world env2) = <[path := joined chunks]> (disk (world env1))
  /\ bar_progress (console (world env2))
     = bar_progress (console (world env1)) + Z.of_nat (String.length (joined chunks)).
Proof.
  intros Hok Hlen Hname Hopen Hiter path env2.
  assert (Hopened : disk (world (opened path total filename env1))
                    = <[path := ""]> (disk (world env1))
                    /\ console (world (opened path total filename env1))
                       = (console (world env1) ++ [Bar total (Some filename)])%list).
  { unfold opened, logged. cbn [world disk console with_console].
    destruct (holding_disk path "" (world env1)) as [-> ->]. split; reflexivity. }
  destruct Hopened as [Hod Hoc].
  destruct (write_chunks_disk path chunks (opened path total filename env1) "")
    as [Hd Hp].
  { rewrite Hod. apply lookup_insert_eq. }
  fold env2 in Hd, Hp.
  assert (Hdisk : disk (world env2) = <[path := joined chunks]> (disk (world env1))).
  { rewrite Hd, Hod. cbn. by rewrite insert_insert_eq. }
  split; [|split; [exact Hdisk|]].
  - unfold stored. rewrite Hok, Hlen, Hname. cbv zeta.
    rewrite Hopen, Hiter. cbn [fst snd]. fold path. fold env2.
    destruct broken; [reflexivity|].
    rewrite bool_decide_eq_true_2; [reflexivity|].
    rewrite Hdisk, lookup_insert_eq. by eexists.
  - rewrite Hp, Hoc, bar_progress_snoc. lia.
Qed.

(** A download that is answered comes to what [stored] says, with the
    exceptions the handler names turned into [None]. *)
Lemma download_answered (net : http_request -> net_result) (url method : string)
    (params : option json) (chunk_size : Z) (dir : string)
    (file_name : option string) (env : Env) (req : http_request) (r : Response) :
  dir <> "" ->
  stream_request method url params (self env) = Some req ->
  net req = Responds r ->
  HttpOld.download_large_file net url method params chunk_size (Some dir)
    file_name env
  = match stored dir file_name chunk_size r (sending req env) with
    | (Raised (RequestException msg r'), env2) =>
        (Returned PyNone, download_failed (RequestException msg r') env2)
    | other => other
    end.
Proof.
  intros Hdir Hreq Hnet.
  rewrite (download_run net url method params chunk_size dir file_name env Hdir).
  unfold downloaded. by rewrite Hreq, Hnet.
Qed.

(** X12: a download whose stream ends normally returns the path
    [os.path.join(download_dir, filename)]; the file at that path then
    holds exactly the chunks of the response in order, whatever it held
    before, no other file is touched, and the progress bar has advanced
    by the number of bytes written, whatever length the header
    declared. *)
Theorem completed_download_holds_the_chunks (net : http_request -> net_result)
    (url method : string) (params : option json) (chunk_size : Z) (dir : string)
    (file_name : option string) (env : Env) (req : http_request) (r : Response)
    (total : Z) (filename : string) (chunks : list string) :
  dir <> "" ->
  stream_request method url params (self env) = Some req ->
  net req = Responds r ->
  error_status r = false ->
  declared_length r = Some total ->
  HttpOld.choose_filename r file_name = Some filename ->
  disk_write_error (world env) !! PyPath.join dir filename = None ->
  resp_iter_content r chunk_size = (chunks, None) ->
  let run := HttpOld.download_large_file net url method params chunk_size
               (Some dir) file_name env in
  let path := PyPath.join dir filename in
  fst run = Returned (PyPathStr path)
  /\ disk (world (snd run)) = <[path := joined chunks]> (disk (world env))
  /\ bar_progress (console (world (snd run)))
     = bar_progress (console (world env))
       + Z.of_nat (String.length (joined chunks)).
Proof.
  intros Hdir Hreq Hnet Hok Hlen Hname Hopen Hiter run path. subst run.
  rewrite (download_answered net url method params chunk_size dir file_name env
             req r Hdir Hreq Hnet).
  destruct (stored_stream dir file_name chunk_size r (sending req env) total
              filename chunks None Hok Hlen Hname Hopen Hiter)
    as (-> & Hd & Hp).
  subst path. cbn [fst snd]. by rewrite Hd, Hp.
Qed.

Lemma completed_download_holds_the_chunks_witness :
  fst (HttpOld.download_large_file (fun _ => Responds plain_response)
         "http://host/file" "GET" None 8192 (Some "downloads") (Some "f.bin")
         fresh_env)
  = Returned (PyPathStr "downloads/f.bin")
  /\ disk (world (snd (HttpOld.download_large_file
                         (fun _ => Responds plain_response)
                         "http://host/file" "GET" None 8192 (Some "downloads")
                         (Some "f.bin") fresh_env)))
     = {[ "downloads/f.bin" := "data" ]}.
Proof.
  destruct (completed_download_holds_the_chunks (fun _ => Responds plain_response)
              "http://host/file" "GET" None 8192 "downloads" (Some "f.bin")
              fresh_env fresh_get_request plain_response 4 "f.bin"
              ["da"; ""; "ta"])
    as (Hout & Hdisk & _).
  - discriminate.
  - reflexivity.
  - reflexivity.
  - reflexivity.
  - reflexivity.
  - reflexivity.
  - reflexivity.
  - reflexivity.
  - split; [exact Hout|]. rewrite Hdisk. reflexivity.
Defined.

(** X13: when the stream breaks after some chunks, the download prints
    the error and returns [None], and the file stays on disk with the
    chunks received so far: a partial file is not removed. *)
Theorem broken_download_keeps_partial_file (net : http_request -> net_result)
    (url method : string) (params : option json) (chunk_size : Z) (dir : string)
    (file_name : option string) (env : Env) (req : http_request) (r : Response)
    (total : Z) (filename msg : string) (chunks : list string) :
  dir <> "" ->
  stream_request method url params (self env) = Some req ->
  net req = Responds r ->
  error_status r = false ->
  declared_length r = Some total ->
  HttpOld.choose_filename r file_name = Some filename ->
  disk_write_error (world env) !! PyPath.join dir filename = None ->
  resp_iter_content r chunk_size = (chunks, Some msg) ->
  let run := HttpOld.download_large_file net url method params chunk_size
               (Some dir) file_name env in
  fst run = Returned PyNone
  /\ disk (world (snd run)) !! PyPath.join dir filename = Some (joined chunks)
  /\ last (console (world (snd run)))
     = Some (Print ("Error downloading large file: " ++ msg)).
Proof.
  intros Hdir Hreq Hnet Hok Hlen Hname Hopen Hiter run. subst run.
  rewrite (download_answered net url method params chunk_size dir file_name env
             req r Hdir Hreq Hnet).
  destruct (stored_stream dir file_name chunk_size r (sending req env) total
              filename chunks (Some msg) Hok Hlen Hname Hopen Hiter)
    as (-> & Hd & _).
  cbn [fst snd]. split; [reflexivity|]. split.
  - unfold download_failed, logged. cbn [world disk with_console].
    rewrite Hd. apply lookup_insert_eq.
  - unfold download_failed, logged. cbn [world console with_console str_exn].
    apply last_snoc.
Qed.

Lemma broken_download_keeps_partial_file_witness :
  fst (HttpOld.download_large_file (fun _ => Responds broken_response)
         "http://host/file" "GET" None 8192 (Some "downloads") (Some "f.bin")
         fresh_env)
  = Returned PyNone
  /\ disk (world (snd (HttpOld.download_large_file
                         (fun _ => Responds broken_response)
                         "http://host/file" "GET" None 8192 (Some "downloads")
                         (Some "f.bin") fresh_env))) !! "downloads/f.bin"
     = Some "da".
Proof.
  destruct (broken_download_keeps_partial_file (fun _ => Responds broken_response)
              "http://host/file" "GET" None 8192 "downloads" (Some "f.bin")
              fresh_env fresh_get_request broken_response 4 "f.bin"
              "Connection broken" ["da"])
    as (Hout & Hdisk & _).
  - discriminate.
  - reflexivity.
  - reflexivity.
  - reflexivity.
  - reflexivity.
  - reflexivity.
  - reflexivity.
  - reflexivity.
  - split; [exact Hout | exact Hdisk].
Defined.

(** X14: the name served in the content-disposition header takes the
    place of the [file_name] argument, and when it is an absolute path
    the file is written there: [os.path.join] drops the download
    directory, so the download lands outside of it. *)
Theorem served_absolute_name_leaves_the_directory
    (net : http_request -> net_result) (url method : string)
    (params : option json) (chunk_size : Z) (dir : string)
    (file_name : option string) (env : Env) (req : http_request) (r : Response)
    (total : Z) (f : string) (chunks : list string) :
  dir <> "" ->
  stream_request method url params (self env) = Some req ->
  net req = Responds r ->
  error_status r = false ->
  declared_length r = Some total ->
  disposition_filename r = Some f ->
  PyStr.startswith "/" f = true ->
  disk_write_error (world env) !! f = None ->
  resp_iter_content r chunk_size = (chunks, None) ->
  let run := HttpOld.download_large_file net url method params chunk_size
               (Some dir) file_name env in
  fst run = Returned (PyPathStr f)
  /\ disk (world (snd run)) = <[f := joined chunks]> (disk (world env)).
Proof.
  intros Hdir Hreq Hnet Hok Hlen Hname Habs Hopen Hiter run. subst run.
  rewrite (download_answered net url method params chunk_size dir file_name env
             req r Hdir Hreq Hnet).
  assert (Hjoin : PyPath.join dir f = f) by (unfold PyPath.join; by rewrite Habs).
  assert (Hchoose : HttpOld.choose_filename r file_name = Some f)
    by (by rewrite choose_filename_spec, Hname).
  destruct (stored_stream dir file_name chunk_size r (sending req env) total
              f chunks None Hok Hlen Hchoose) as (-> & Hd & _).
  - by rewrite Hjoin.
  - exact Hiter.
  - cbn [fst snd]. rewrite Hd, Hjoin. split; reflexivity.
Qed.

Lemma served_absolute_name_leaves_the_directory_witness :
  fst (HttpOld.download_large_file (fun _ => Responds absolute_name_response)
         "http://host/file" "GET" None 8192 (Some "downloads") (Some "f.bin")
         fresh_env)
  = Returned (PyPathStr "/etc/motd")
  /\ disk (world (snd (HttpOld.download_large_file
                         (fun _ => Responds absolute_name_response)
                         "http://host/file" "GET" None 8192 (Some "downloads")
                         (Some "f.bin") fresh_env)))
     = {[ "/etc/motd" := "data" ]}.
Proof.
  destruct (served_absolute_name_leaves_the_directory
              (fun _ => Responds absolute_name_response)
              "http://host/file" "GET" None 8192 "downloads" (Some "f.bin")
              fresh_env fresh_get_request absolute_name_response 0 "/etc/motd"
              ["da"; "ta"])
    as (Hout & Hdisk).
  - discriminate.
  - reflexivity.
  - reflexivity.
  - reflexivity.
  - reflexivity.
  - reflexivity.
  - reflexivity.
  - reflexivity.
  - reflexivity.
  - split; [exact Hout|]. rewrite Hdisk. reflexivity.
Defined.

(** X15: with GET or POST in any letter case and a directory, a
    download hands the session exactly one request, for the given url,
    streamed, with the client's headers, credentials and timeout; it
    always follows redirects, whatever [set_follow_redirects] chose.
    GET passes [params] as the query, POST passes it as the JSON body. *)
Theorem download_sends_one_streaming_request (net : http_request -> net_result)
    (url method : string) (params : option json) (chunk_size : Z) (dir : string)
    (file_name : option string) (env : Env) :
  dir <> "" ->
  PyStr.lower method = "get" \/ PyStr.lower method = "post" ->
  let run := HttpOld.download_large_file net url method params chunk_size
               (Some dir) file_name env in
  exists req : http_request,
    sent (world (snd run)) = (sent (world env) ++ [req])%list
    /\ req_url req = url /\ req_stream req = true
    /\ req_allow_redirects req = true
    /\ req_headers req = headers (self env)
    /\ req_auth req = auth (self env)
    /\ req_timeout req = timeout (self env)
    /\ (PyStr.lower method = "get" ->
        req_method req = "GET" /\ req_params req = params /\ req_json req = None)
    /\ (PyStr.lower method = "post" ->
        req_method req = "POST" /\ req_params req = None /\ req_json req = params).
Proof.
  intros Hdir Hm run. subst run.
  destruct (stream_request method url params (self env)) as [req|] eqn:Hreq.
  - exists req.
    rewrite (sent_after_download net url method params chunk_size dir file_name
               env req Hdir Hreq).
    unfold stream_request in Hreq.
    destruct Hm as [Hm | Hm]; rewrite Hm in Hreq; cbn in Hreq;
      injection Hreq as <-; cbn; repeat split; try reflexivity; congruence.
  - unfold stream_request in Hreq.
    destruct Hm as [Hm | Hm]; rewrite Hm in Hreq; discriminate Hreq.
Qed.

Lemma download_sends_one_streaming_request_witness :
  exists req : http_request,
    sent (world (snd (HttpOld.download_large_file
                        (fun _ => Responds plain_response)
                        "http://host/file" "Post" (Some (JStr "q")) 8192
                        (Some "downloads") (Some "f.bin")
                        (snd (HttpOld.set_follow_redirects false fresh_env)))))
    = [req]
    /\ req_allow_redirects req = true
    /\ req_method req = "POST"
    /\ req_json req = Some (JStr "q").
Proof.
  destruct (download_sends_one_streaming_request
              (fun _ => Responds plain_response)
              "http://host/file" "Post" (Some (JStr "q")) 8192 "downloads"
              (Some "f.bin")
              (snd (HttpOld.set_follow_redirects false fresh_env)))
    as (req & Hs & _ & _ & Hr & _ & _ & _ & _ & Hpost).
  - discriminate.
  - right. reflexivity.
  - exists req. destruct (Hpost eq_refl) as (Hmeth & _ & Hjson).
    split; [exact Hs|]. split; [exact Hr|]. split; [exact Hmeth | exact Hjson].
Defined.

(** X16: when the session fails to answer, or answers with a status
    from 400 to 599, the download prints the error and returns [None];
    no file is created or changed, and, unlike the dispatcher, nothing
    is recorded in the client's error message and code. *)
Theorem failed_download_returns_none (net : http_request -> net_result)
    (url method : string) (params : option json) (chunk_size : Z) (dir : string)
    (file_name : option string) (env : Env) (req : http_request) :
  dir <> "" ->
  stream_request method url params (self env) = Some req ->
  (exists msg r0, net req = Fails msg r0)
  \/ (exists r, net req = Responds r /\ error_status r = true) ->
  let run := HttpOld.download_large_file net url method params chunk_size
               (Some dir) file_name env in
  fst run = Returned PyNone
  /\ disk (world (snd run)) = disk (world env)
  /\ _error_message (self (snd run)) = _error_message (self env)
  /\ _error_code (self (snd run)) = _error_code (self env)
  /\ exists msg, last (console (world (snd run)))
                 = Some (Print ("Error downloading large file: " ++ msg)).
Proof.
  intros Hdir Hreq Hfail run. subst run.
  rewrite (download_run net url method params chunk_size dir file_name env Hdir).
  unfold downloaded. rewrite Hreq.
  destruct Hfail as [(msg & r0 & ->) | (r & -> & Herr)].
  - cbn. repeat split. exists msg. apply last_snoc.
  - unfold stored. rewrite Herr. cbn. repeat split.
    eexists. apply last_snoc.
Qed.

Lemma failed_download_returns_none_witness :
  fst (HttpOld.download_large_file (fun _ => Responds not_found_response)
         "http://host/file" "get" None 8192 (Some "downloads") (Some "f.bin")
         env_after_404)
  = Returned PyNone
  /\ disk (world (snd (HttpOld.download_large_file
                         (fun _ => Responds not_found_response)
                         "http://host/file" "get" None 8192 (Some "downloads")
                         (Some "f.bin") env_after_404)))
     = ∅.
Proof.
  destruct (failed_download_returns_none (fun _ => Responds not_found_response)
              "http://host/file" "get" None 8192 "downloads" (Some "f.bin")
              env_after_404 fresh_get_request)
    as (Hout & Hdisk & _).
  - discriminate.
  - reflexivity.
  - right. exists not_found_response. split; reflexivity.
  - split; [exact Hout|]. rewrite Hdisk. reflexivity.
Defined.

(** X17: errors that are no [RequestException] leave
    [download_large_file] as exceptions, after the request was sent and
    with nothing written: the [ValueError] of a content-length header
    that [int] does not accept, and the [IOError] of a destination that
    cannot be opened for writing. *)
Theorem download_local_errors_are_raised (net : http_request -> net_result)
    (url method : string) (params : option json) (chunk_size : Z) (dir : string)
    (file_name : option string) (env : Env) (req : http_request) (r : Response) :
  dir <> "" ->
  stream_request method url params (self env) = Some req ->
  net req = Responds r ->
  error_status r = false ->
  let run := HttpOld.download_large_file net url method params chunk_size
               (Some dir) file_name env in
  (forall s, resp_content_length r = Some s -> PyStr.int s = None ->
     exists msg, run = (Raised (ValueError msg), sending req env))
  /\ (forall total filename msg,
        declared_length r = Some total ->
        HttpOld.choose_filename r file_name = Some filename ->
        disk_write_error (world env) !! PyPath.join dir filename = Some msg ->
        run = (Raised (IOError msg), sending req env)).
Proof.
  intros Hdir Hreq Hnet Hok run. subst run.
  rewrite (download_answered net url method params chunk_size dir file_name env
             req r Hdir Hreq Hnet).
  unfold stored. rewrite Hok. split.
  - intros s Hs Hint. unfold declared_length. rewrite Hs, Hint.
    eexists. reflexivity.
  - intros total filename msg -> -> Hopen. cbv zeta.
    change (disk_write_error (world (sending req env)))
      with (disk_write_error (world env)).
    by rewrite Hopen.
Qed.

Lemma download_local_errors_are_raised_witness :
  (exists msg,
     HttpOld.download_large_file (fun _ => Responds odd_length_response)
       "http://host/file" "get" None 8192 (Some "downloads") (Some "f.bin")
       fresh_env
     = (Raised (ValueError msg), sending fresh_get_request fresh_env))
  /\ HttpOld.download_large_file (fun _ => Responds plain_response)
       "http://host/file" "get" None 8192 (Some "downloads") (Some "f.bin")
       locked_env
     = (Raised (IOError "Permission denied"), sending fresh_get_request locked_env).
Proof.
  split.
  - apply (proj1 (download_local_errors_are_raised
                    (fun _ => Responds odd_length_response)
                    "http://host/file" "get" None 8192 "downloads" (Some "f.bin")
                    fresh_env fresh_get_request odd_length_response
                    ltac:(discriminate) eq_refl eq_refl eq_refl)
             "4 bytes"); reflexivity.
  - apply (proj2 (download_local_errors_are_raised
                    (fun _ => Responds plain_response)
                    "http://host/file" "get" None 8192 "downloads" (Some "f.bin")
                    locked_env fresh_get_request plain_response
                    ltac:(discriminate) eq_refl eq_refl eq_refl)
             4 "f.bin" "Permission denied"); reflexivity.
Defined.

(** Without a download directory ([None] or the empty string) nothing
    is attempted: the call prints a notice and returns [False], not
    [None]; the session is not called and the method is not looked at. *)
Lemma download_without_directory_is_skipped (net : http_request -> net_result)
    (url method : string) (params : option json) (chunk_size : Z)
    (download_dir file_name : option string) (env : Env) :
  download_dir = None \/ download_dir = Some "" ->
  HttpOld.download_large_file net url method params chunk_size download_dir
    file_name env
  = (Returned PyFalse,
     logged (Print "No download directory provided. Download skipped.") env).
Proof. intros [-> | ->]; reflexivity. Qed.

(** ** FTP upload: what it never does *)

Section Rules.
Context {S : Type} (I : S -> Prop).

Lemma spec_ret {A} (P : A -> Prop) (E : exn -> Prop) (a : A) :
  P a -> spec I P E (ret a).
Proof. intros Ha s Hs. by split. Qed.

Lemma spec_raise {A} (P : A -> Prop) (E : exn -> Prop) (e : exn) :
  E e -> spec I P E (raise (A := A) e).
Proof. intros He s Hs. by split. Qed.

Lemma spec_gets {A} (P : A -> Prop) (E : exn -> Prop) (f : S -> A) :
  (forall s, I s -> P (f s)) -> spec I P E (gets f).
Proof. intros Hf s Hs. split; [exact Hs | by apply Hf]. Qed.

Lemma spec_modify (E : exn -> Prop) (f : S -> S) :
  (forall s, I s -> I (f s)) -> spec I (fun _ => True) E (modify f).
Proof. intros Hf s Hs. split; [by apply Hf | exact Logic.I]. Qed.

Lemma spec_bind {A B} (P : A -> Prop) (Q : B -> Prop) (E : exn -> Prop)
    (m : M S A) (k : A -> M S B) :
  spec I P E m -> (forall a, P a -> spec I Q E (k a)) -> spec I Q E (bind m k).
Proof.
  intros Hm Hk s Hs. unfold bind.
  destruct (Hm s Hs) as [Hi Ho].
  destruct (m s) as [[a|e] s']; cbn [fst snd] in *.
  - by apply Hk.
  - by split.
Qed.

Lemma spec_try_except {A} (P : A -> Prop) (E E' : exn -> Prop) (m : M S A)
    (catches : exn -> bool) (h : exn -> M S A) :
  spec I P E m ->
  (forall e, E e -> if catches e then spec I P E' (h e) else E' e) ->
  spec I P E' (try_except m catches h).
Proof.
  intros Hm Hh s Hs. unfold try_except.
  destruct (Hm s Hs) as [Hi Ho].
  destruct (m s) as [[a|e] s']; cbn [fst snd] in *.
  - by split.
  - specialize (Hh e Ho). destruct (catches e).
    + by apply Hh.
    + by split.
Qed.

Lemma spec_weaken {A} (P P' : A -> Prop) (E E' : exn -> Prop) (m : M S A) :
  spec I P E m -> (forall a, P a -> P' a) -> (forall e, E e -> E' e) ->
  spec I P' E' m.
Proof.
  intros Hm HP HE s Hs. destruct (Hm s Hs) as [Hi Ho]. split; [exact Hi|].
  destruct (fst (m s)); auto.
Qed.

End Rules.

Lemma server_safe_refl (v : FtpServer) : server_safe v v.
Proof. by repeat split. Qed.

Lemma ftp_safe_refl (w : FtpWorld) : ftp_safe w w.
Proof. split; [reflexivity | apply server_safe_refl]. Qed.

Section Upload.
Variable w0 : FtpWorld.

Lemma safe_session (f : FtpWorld -> FtpWorld) :
  (forall w, local_files (f w) = local_files w /\ server (f w) = server w) ->
  forall w, ftp_safe w0 w -> ftp_safe w0 (f w).
Proof.
  intros Hf w [Hl Hs]. destruct (Hf w) as [Hl' Hs'].
  split; [by rewrite Hl' | by rewrite Hs'].
Qed.

Lemma send_spec (E : exn -> Prop) (c : ftp_command) :
  spec (ftp_safe w0) anything E (Ftp.send c).
Proof. apply spec_modify, safe_session. by intros w. Qed.

Lemma logging_spec (E : exn -> Prop) (o : output) :
  spec (ftp_safe w0) anything E (Ftp.logging o).
Proof. apply spec_modify, safe_session. by intros w. Qed.

Lemma cwd_spec (dirname : string) : spec (ftp_safe w0) anything refusal (Ftp.cwd dirname).
Proof.
  unfold Ftp.cwd.
  eapply spec_bind; [apply send_spec|]. intros _ _.
  eapply spec_bind; [by apply (spec_gets _ anything)|]. intros target _.
  eapply spec_bind; [by apply (spec_gets _ anything)|]. intros [] _.
  - apply spec_modify, safe_session. by intros w.
  - by apply spec_raise.
Qed.

Lemma mkd_spec (dirname : string) : spec (ftp_safe w0) anything refusal (Ftp.mkd dirname).
Proof.
  unfold Ftp.mkd.
  eapply spec_bind; [apply send_spec|]. intros _ _.
  eapply spec_bind; [by apply (spec_gets _ anything)|]. intros target _.
  intros w Hw. unfold bind, gets.
  destruct (srv_readonly (server w)) eqn:Hro; [by split|].
  destruct (dir_exists (srv_dirs (server w)) target); [by split|].
  destruct (negb _); [by split|].
  split; [|exact Logic.I].
  destruct Hw as (Hl & H1 & H2 & H3 & H4 & H5 & H6).
  split; [exact Hl|]. cbn. repeat split; try assumption.
  - intros d Hd. apply H5 in Hd.
    apply dir_exists_spec. apply dir_exists_spec in Hd as [-> | (l & Hin & Hp)].
    + by left.
    + right. exists l. split; [by apply list_elem_of_further | exact Hp].
  - intros Hro0. rewrite Hro0 in H4. congruence.
Qed.

Lemma make_dirs_spec (dirs : list string) (current_dir : string) :
  spec (ftp_safe w0) anything refusal (HttpOld.make_dirs dirs current_dir).
Proof.
  revert current_dir. induction dirs as [|dir rest IH]; intros current_dir.
  - by apply spec_ret.
  - simpl. destruct (String.eqb dir ""); [apply IH|].
    eapply spec_bind; [|intros _ _; apply IH].
    eapply spec_try_except; [apply cwd_spec|].
    intros e He. unfold refusal in He. rewrite He.
    eapply spec_bind; [apply mkd_spec|]. intros _ _. apply cwd_spec.
Qed.

(** [ensure_directory] does not raise: it falls through or asks for the
    return of [None]. *)
Lemma ensure_directory_spec (upload_dir : string) :
  spec (ftp_safe w0) (fun r => r = None \/ r = Some PyNone) (fun _ => False)
    (HttpOld.ensure_directory upload_dir).
Proof.
  unfold HttpOld.ensure_directory.
  eapply spec_try_except.
  - eapply spec_bind; [apply cwd_spec|]. intros _ _. apply spec_ret. by left.
  - intros e He. unfold refusal in He. rewrite He.
    eapply spec_bind; [apply logging_spec|]. intros _ _.
    eapply (spec_try_except _ _ anything).
    + eapply spec_bind; [|intros _ _; apply spec_ret; by left].
      eapply spec_weaken; [apply make_dirs_spec | done | done].
    + intros e' _. cbv beta.
      eapply spec_bind; [apply logging_spec|]. intros _ _. apply spec_ret. by right.
Qed.

Lemma storbinary_spec (name data : string) :
  spec (ftp_safe w0) (fun _ => srv_readonly (server w0) = false) anything
    (Ftp.storbinary name data).
Proof.
  unfold Ftp.storbinary.
  eapply spec_bind; [apply send_spec|]. intros _ _.
  intros w Hw. unfold bind, gets.
  destruct (srv_readonly (server w)) eqn:Hro; [by split|].
  unfold modify. cbn [fst snd].
  destruct Hw as (Hl & H1 & H2 & H3 & H4 & H5 & H6).
  split; [|congruence].
  split; [exact Hl|]. cbn. repeat split; try assumption.
  intros Hro0. rewrite Hro0 in H4. congruence.
Qed.

(** [transfer_file] returns the composed path, and returns at all only
    when the server takes writes. *)
Lemma transfer_file_spec (file_path upload_dir : string) :
  spec (ftp_safe w0)
    (fun r => r = PyPathStr (upload_dir ++ "/" ++ PyPath.basename file_path)
              /\ srv_readonly (server w0) = false)
    anything (HttpOld.transfer_file file_path upload_dir).
Proof.
  unfold HttpOld.transfer_file.
  eapply spec_bind; [apply logging_spec|]. intros _ _.
  eapply spec_bind; [by apply (spec_gets _ anything)|]. intros data _. cbv zeta.
  eapply spec_bind; [apply logging_spec|]. intros _ _.
  eapply spec_bind; [apply storbinary_spec|]. intros u Hro. cbv beta in Hro.
  eapply spec_bind; [apply logging_spec|]. intros _ _.
  eapply spec_bind; [apply logging_spec|]. intros _ _.
  by apply spec_ret.
Qed.

Lemma open_session_spec (host username password : string) (port : Z)
    (passive : bool) :
  spec (ftp_safe w0) anything anything
    (HttpOld.open_session host username password port passive).
Proof.
  unfold HttpOld.open_session.
  eapply spec_bind; [apply spec_modify, safe_session; by intros w|]. intros _ _.
  eapply spec_bind.
  { unfold Ftp.connect.
    eapply spec_bind; [apply send_spec|]. intros _ _.
    eapply spec_bind; [by apply (spec_gets _ anything)|]. intros [] _.
    - apply spec_modify, safe_session. by intros w.
    - by apply spec_raise. }
  intros _ _.
  eapply spec_bind.
  { unfold Ftp.login.
    eapply spec_bind; [apply send_spec|]. intros _ _.
    eapply spec_bind; [by apply (spec_gets _ anything)|]. intros [] _.
    - eapply spec_bind; [by apply (spec_gets _ anything)|]. intros home _.
      apply spec_modify, safe_session. by intros w.
    - by apply spec_raise. }
  intros _ _.
  eapply spec_bind; [apply spec_modify, safe_session; by intros w|]. intros _ _.
  apply logging_spec.
Qed.

Lemma disconnect_safe (host : string) (port : Z) (w : FtpWorld) :
  ftp_safe w0 w -> ftp_safe w0 (HttpOld.disconnect host port w).
Proof.
  intros Hw. unfold HttpOld.disconnect.
  destruct (ftp_sock w); [|exact Hw].
  revert w Hw. apply safe_session. by intros w.
Qed.

(** The whole of [upload_ftp]: it does not raise, and returns the
    composed path only when the server takes writes. *)
Lemma upload_ftp_spec (host username password file_path upload_dir : string)
    (port : Z) (passive : bool) :
  spec (ftp_safe w0)
    (fun r => upload_result file_path upload_dir r
              /\ (srv_readonly (server w0) = true -> r = PyNone))
    (fun _ => False)
    (HttpOld.upload_ftp host username password file_path upload_dir port passive).
Proof.
  unfold HttpOld.upload_ftp.
  eapply spec_bind; [by apply (spec_gets _ anything)|]. intros isfile _.
  destruct (negb isfile).
  { eapply spec_bind; [apply logging_spec|]. intros _ _.
    apply spec_ret. split; [by left | done]. }
  intros w Hw. unfold try_finally.
  match goal with
  | |- context [try_except ?m ?c ?h w] =>
      assert (Hb : spec (ftp_safe w0)
                     (fun r => upload_result file_path upload_dir r
                               /\ (srv_readonly (server w0) = true -> r = PyNone))
                     (fun _ => False) (try_except m c h))
  end.
  { eapply (spec_try_except _ _ anything).
    - eapply spec_bind; [apply open_session_spec|]. intros _ _.
      eapply spec_bind.
      { eapply spec_weaken; [apply ensure_directory_spec | intros a Ha; exact Ha | done]. }
      intros [r|] Hr.
      + destruct Hr as [Hr | Hr]; [discriminate|]. injection Hr as ->.
        apply spec_ret. split; [by left | done].
      + eapply spec_weaken; [apply transfer_file_spec | | done].
        intros r [-> Hro]. split; [by right|]. congruence.
    - intros e _. cbv beta.
      eapply spec_bind; [apply logging_spec|]. intros _ _.
      apply spec_ret. split; [by left | done]. }
  destruct (Hb w Hw) as [Hi Ho].
  destruct (try_except _ _ _ w) as [o w']. cbn [fst snd] in *.
  split; [by apply disconnect_safe | exact Ho].
Qed.

End Upload.

Lemma disconnect_closes (host : string) (port : Z) (w : FtpWorld) :
  ftp_sock (HttpOld.disconnect host port w) = false.
Proof.
  unfold HttpOld.disconnect. destruct (ftp_sock w) eqn:Hs; [reflexivity | exact Hs].
Qed.

(** X18: facing the server of this model in any of its states (up or
    down, with any accounts, directories and files, taking writes or
    not), whose refusals are a refused connection and the 5xx replies to
    LOGIN, CWD, MKD and STOR, and with QUIT running to its end,
    [upload_ftp] does not raise: it returns [None] or [upload_dir], a
    slash and the base name of the file.  It leaves the local files and
    the accounts of the server as they were, removes no directory of the
    server, and, when the local file exists, ends with the control
    connection closed.  Replies of other classes (4xx, a connection
    that drops) are outside the model. *)
Theorem upload_never_raises_and_disconnects
    (host username password file_path upload_dir : string) (port : Z)
    (passive : bool) (w : FtpWorld) :
  let run := HttpOld.upload_ftp host username password file_path upload_dir port
               passive w in
  (fst run = Returned PyNone
   \/ fst run = Returned (PyPathStr (upload_dir ++ "/" ++ PyPath.basename file_path)))
  /\ local_files (snd run) = local_files w
  /\ srv_accounts (server (snd run)) = srv_accounts (server w)
  /\ (forall d, dir_exists (srv_dirs (server w)) d = true ->
                dir_exists (srv_dirs (server (snd run))) d = true)
  /\ (is_Some (local_files w !! file_path) -> ftp_sock (snd run) = false).
Proof.
  cbv zeta.
  destruct (upload_ftp_spec w host username password file_path upload_dir port
              passive w (ftp_safe_refl w))
    as [(Hl & _ & Ha & _ & _ & Hd & _) Ho].
  split; [|split; [exact Hl|split; [exact Ha|split; [exact Hd|]]]].
  - destruct (fst _) as [r|e]; [|done].
    destruct Ho as [[-> | ->] _]; [by left | by right].
  - intros Hfile. unfold HttpOld.upload_ftp, bind at 1, gets at 1.
    rewrite (bool_decide_eq_true_2 _ Hfile). cbn [negb].
    unfold try_finally. destruct (try_except _ _ _ w) as [o w'].
    apply disconnect_closes.
Qed.

(** X19: on a server that takes no writes an upload returns [None] and
    leaves the server exactly as it was, whether the target directory
    exists or not. *)
Theorem upload_to_readonly_server_fails
    (host username password file_path upload_dir : string) (port : Z)
    (passive : bool) (w : FtpWorld) :
  srv_readonly (server w) = true ->
  let run := HttpOld.upload_ftp host username password file_path upload_dir port
               passive w in
  fst run = Returned PyNone /\ server (snd run) = server w.
Proof.
  intros Hro. cbv zeta.
  destruct (upload_ftp_spec w host username password file_path upload_dir port
              passive w (ftp_safe_refl w))
    as [(_ & _ & _ & _ & _ & _ & Hs) Ho].
  split; [|by apply Hs].
  destruct (fst _) as [r|e]; [|done].
  destruct Ho as [_ ->]; done.
Qed.

Lemma upload_to_readonly_server_fails_witness :
  fst (HttpOld.upload_ftp "ftp.host" "user" "secret" "/tmp/report.txt" "/pub"
         21 true readonly_start)
  = Returned PyNone
  /\ server (snd (HttpOld.upload_ftp "ftp.host" "user" "secret" "/tmp/report.txt"
                    "/pub" 21 true readonly_start))
     = server readonly_start.
Proof.
  apply (upload_to_readonly_server_fails "ftp.host" "user" "secret"
           "/tmp/report.txt" "/pub" 21 true readonly_start).
  reflexivity.
Defined.

(** ** FTP upload: the other courses it takes *)

Lemma disconnect_keeps (host : string) (port : Z) (w : FtpWorld) :
  commands (HttpOld.disconnect host port w)
  = (if ftp_sock w then commands w ++ [QUIT] else commands w)%list
  /\ server (HttpOld.disconnect host port w) = server w.
Proof.
  unfold HttpOld.disconnect. destruct (ftp_sock w); split; reflexivity.
Qed.

Lemma file_transferred_keeps (file_path upload_dir data : string) (w : FtpWorld) :
  commands (file_transferred file_path upload_dir data w)
  = (commands w ++ [STOR (PyPath.basename file_path) data])%list
  /\ srv_files (server (file_transferred file_path upload_dir data w))
     = (ftp_cwd w, PyPath.basename file_path, data) :: srv_files (server w)
  /\ srv_dirs (server (file_transferred file_path upload_dir data w))
     = srv_dirs (server w)
  /\ ftp_sock (file_transferred file_path upload_dir data w) = ftp_sock w.
Proof. repeat split; reflexivity. Qed.

Lemma session_opened_keeps (host : string) (port : Z) (username : string)
    (passive : bool) (w : FtpWorld) :
  commands (session_opened host port username passive w)
  = (commands w ++ [CONNECT host port; LOGIN username])%list
  /\ server (session_opened host port username passive w) = server w
  /\ ftp_cwd (session_opened host port username passive w) = srv_home (server w)
  /\ ftp_sock (session_opened host port username passive w) = true.
Proof.
  unfold session_opened. cbv zeta.
  cbn [commands server ftp_cwd ftp_sock with_ftp_console with_passive with_cwd
         with_commands with_sock].
  split; [by rewrite <- app_assoc|]. repeat split; reflexivity.
Qed.

Lemma ensure_directory_enters (upload_dir : string) (w : FtpWorld) :
  dir_exists (srv_dirs (server w)) (resolve (ftp_cwd w) upload_dir) = true ->
  HttpOld.ensure_directory upload_dir w
  = (Returned None,
     with_cwd (resolve (ftp_cwd w) upload_dir)
       (with_commands (commands w ++ [CWD upload_dir]) w)).
Proof.
  intros Hex.
  unfold HttpOld.ensure_directory, try_except at 1.
  unfold bind at 1, Ftp.cwd.
  unfold bind at 1, Ftp.send at 1, modify at 1.
  unfold bind at 1, gets at 1.
  unfold bind at 1, gets at 1.
  cbn [server with_commands ftp_cwd]. rewrite Hex.
  reflexivity.
Qed.

(** X20: when the target directory can be entered, nothing is created:
    the commands are CONNECT, LOGIN, CWD, STOR and QUIT in this order,
    the file is stored under its base name in the target directory as
    seen from the login directory, and the directories of the server
    are as before.  The path returned is the text of [upload_dir], a
    slash and the base name. *)
Theorem upload_into_existing_directory
    (host username password file_path upload_dir : string) (port : Z)
    (passive : bool) (w : FtpWorld) (data : string) :
  local_files w !! file_path = Some data ->
  srv_listening (server w) = true ->
  (username, password) ∈ srv_accounts (server w) ->
  srv_readonly (server w) = false ->
  dir_exists (srv_dirs (server w)) (resolve (srv_home (server w)) upload_dir) = true ->
  let run := HttpOld.upload_ftp host username password file_path upload_dir port
               passive w in
  let name := PyPath.basename file_path in
  fst run = Returned (PyPathStr (upload_dir ++ "/" ++ name))
  /\ commands (snd run)
     = (commands w ++ [CONNECT host port; LOGIN username; CWD upload_dir;
                       STOR name data; QUIT])%list
  /\ srv_files (server (snd run))
     = (resolve (srv_home (server w)) upload_dir, name, data) :: srv_files (server w)
  /\ srv_dirs (server (snd run)) = srv_dirs (server w).
Proof.
  intros Hfile Hup Hacc Hro Hex run name.
  assert (Hrun : exists w',
    run = (Returned (PyPathStr (upload_dir ++ "/" ++ name)), w')
    /\ commands w'
       = (commands w ++ [CONNECT host port; LOGIN username; CWD upload_dir;
                         STOR name data; QUIT])%list
    /\ srv_files (server w')
       = (resolve (srv_home (server w)) upload_dir, name, data) :: srv_files (server w)
    /\ srv_dirs (server w') = srv_dirs (server w)).
  { subst run name. unfold HttpOld.upload_ftp.
    unfold bind at 1, gets at 1. rewrite Hfile.
    rewrite bool_decide_eq_true_2 by (by eexists). cbn [negb].
    unfold try_finally, try_except at 1.
    unfold bind at 1. rewrite (open_session_run _ _ _ _ _ _ Hup Hacc).
    destruct (session_opened_keeps host port username passive w)
      as (Hc1 & Hs1 & Hw1 & Hk1).
    unfold bind at 1. rewrite ensure_directory_enters by (by rewrite Hw1, Hs1).
    rewrite (transfer_file_run file_path upload_dir data);
      [| exact Hfile | by rewrite <- Hs1 in Hro].
    eexists. split; [reflexivity|].
    match goal with
    | |- context [HttpOld.disconnect host port ?x] =>
        destruct (disconnect_keeps host port x) as [-> ->]
    end.
    match goal with
    | |- context [file_transferred file_path upload_dir data ?x] =>
        destruct (file_transferred_keeps file_path upload_dir data x)
          as (-> & -> & -> & ->)
    end.
    cbn [commands server ftp_cwd ftp_sock with_cwd with_commands].
    rewrite Hc1, Hs1, Hw1, Hk1. rewrite <- !app_assoc.
    split; [reflexivity|]. split; reflexivity. }
  destruct Hrun as (w' & -> & Hc & Hf & Hd). done.
Qed.

Lemma upload_into_existing_directory_witness :
  fst (HttpOld.upload_ftp "ftp.host" "user" "secret" "/tmp/report.txt" "in"
         21 true home_start)
  = Returned (PyPathStr "in/report.txt")
  /\ commands (snd (HttpOld.upload_ftp "ftp.host" "user" "secret"
                      "/tmp/report.txt" "in" 21 true home_start))
     = [CONNECT "ftp.host" 21; LOGIN "user"; CWD "in";
        STOR "report.txt" "hello"; QUIT]
  /\ srv_files (server (snd (HttpOld.upload_ftp "ftp.host" "user" "secret"
                               "/tmp/report.txt" "in" 21 true home_start)))
     = [(["home"; "u"; "in"], "report.txt", "hello")].
Proof.
  assert (H1 : local_files home_start !! "/tmp/report.txt" = Some "hello")
    by (vm_compute; reflexivity).
  assert (H2 : srv_listening (server home_start) = true) by reflexivity.
  assert (H3 : ("user", "secret") ∈ srv_accounts (server home_start))
    by (simpl; apply list_elem_of_here).
  assert (H4 : srv_readonly (server home_start) = false) by reflexivity.
  assert (H5 : dir_exists (srv_dirs (server home_start))
                 (resolve (srv_home (server home_start)) "in") = true)
    by (vm_compute; reflexivity).
  destruct (upload_into_existing_directory "ftp.host" "user" "secret"
              "/tmp/report.txt" "in" 21 true home_start "hello"
              H1 H2 H3 H4 H5) as (Hres & Hcmd & Hfiles & _).
  split; [|split].
  - rewrite Hres. vm_compute. reflexivity.
  - rewrite Hcmd. vm_compute. reflexivity.
  - rewrite Hfiles. vm_compute. reflexivity.
Defined.

(** X21: when the server does not accept the connection, the upload
    logs the error and returns [None] after the one attempt to connect;
    no QUIT is sent, there being no connection to close.  When the
    connection is accepted and the login refused, it returns [None]
    after CONNECT and LOGIN, and closes the connection with QUIT. *)
Theorem upload_refused_at_the_door
    (host username password file_path upload_dir : string) (port : Z)
    (passive : bool) (w : FtpWorld) :
  is_Some (local_files w !! file_path) ->
  srv_listening (server w) = false
  \/ (username, password) ∉ srv_accounts (server w) ->
  let run := HttpOld.upload_ftp host username password file_path upload_dir port
               passive w in
  fst run = Returned PyNone
  /\ commands (snd run)
     = (commands w
          ++ (if srv_listening (server w)
              then [CONNECT host port; LOGIN username; QUIT]
              else [CONNECT host port]))%list
  /\ server (snd run) = server w.
Proof.
  intros Hfile Hrefused run.
  assert (Hrun : exists w',
    run = (Returned PyNone, w')
    /\ commands w'
       = (commands w
            ++ (if srv_listening (server w)
                then [CONNECT host port; LOGIN username; QUIT]
                else [CONNECT host port]))%list
    /\ server w' = server w).
  { subst run. unfold HttpOld.upload_ftp.
    unfold bind at 1, gets at 1.
    rewrite (bool_decide_eq_true_2 _ Hfile). cbn [negb].
    unfold try_finally, try_except at 1.
    unfold bind at 1, HttpOld.open_session.
    unfold bind at 1, Ftp.FTP, modify at 1.
    unfold bind at 1, Ftp.connect.
    unfold bind at 1, Ftp.send at 1, modify at 1.
    unfold bind at 1, gets at 1. cbn [server with_commands with_sock with_passive].
    destruct (srv_listening (server w)) eqn:Hup.
    - destruct Hrefused as [Hdown | Hacc]; [discriminate|].
      unfold modify at 1.
      unfold bind at 1, Ftp.login.
      unfold bind at 1, Ftp.send at 1, modify at 1.
      unfold bind at 1, gets at 1. cbn [server with_commands with_sock with_passive].
      rewrite (bool_decide_eq_false_2 _ Hacc).
      unfold raise at 1. cbv beta iota.
      eexists. split; [reflexivity|].
      unfold HttpOld.disconnect.
      cbn [fst snd ftp_sock with_ftp_console with_commands with_sock].
      unfold bind, Ftp.quit, Ftp.send, Ftp.logging, modify, bind.
      cbn [fst snd commands server with_ftp_console with_commands with_sock
             with_passive].
      split; [by rewrite <- !app_assoc | reflexivity].
    - unfold raise at 1. cbv beta iota.
      eexists. split; [reflexivity|].
      unfold HttpOld.disconnect.
      cbn [fst snd ftp_sock with_ftp_console with_commands with_sock with_passive].
      split; reflexivity. }
  destruct Hrun as (w' & -> & Hc & Hs). done.
Qed.

Lemma upload_refused_at_the_door_witness :
  commands (snd (HttpOld.upload_ftp "ftp.host" "user" "secret" "/tmp/report.txt"
                   "/a" 21 true down_start))
  = [CONNECT "ftp.host" 21]
  /\ commands (snd (HttpOld.upload_ftp "ftp.host" "user" "guess" "/tmp/report.txt"
                      "/a" 21 true ftp_start))
     = [CONNECT "ftp.host" 21; LOGIN "user"; QUIT].
Proof.
  split.
  - apply (upload_refused_at_the_door "ftp.host" "user" "secret" "/tmp/report.txt"
             "/a" 21 true down_start).
    + vm_compute. by eexists.
    + left. reflexivity.
  - apply (upload_refused_at_the_door "ftp.host" "user" "guess" "/tmp/report.txt"
             "/a" 21 true ftp_start).
    + vm_compute. by eexists.
    + right. vm_compute. intros H. apply list_elem_of_singleton in H. discriminate H.
Defined.

Lemma foldl_step_into_blank (segs : list string) (cur : list string) :
  forallb (fun d => String.eqb d "") segs = true ->
  foldl step_into cur segs = cur.
Proof.
  revert cur. induction segs as [|d segs IH]; intros cur H; [reflexivity|].
  simpl in H. apply andb_true_iff in H as [Hd Hs].
  cbn [foldl].
  assert (Hstep : step_into cur d = cur) by (unfold step_into; by rewrite Hd).
  rewrite Hstep. by apply IH.
Qed.

(** The loop ends in the directory its pieces name from the root. *)
Lemma walk_prefixes_cwd (segs : list string) (cur : string) (w : FtpWorld) :
  rooted cur ->
  Forall (fun x => mentions PyStr.slash x = false) segs ->
  ftp_cwd (walk (prefixes_from cur segs) w)
  = if forallb (fun d => String.eqb d "") segs then ftp_cwd w
    else foldl step_into (resolve [] cur) segs.
Proof.
  revert cur w. induction segs as [|d segs IH]; intros cur w Hcur Hsegs;
    [reflexivity|].
  inversion Hsegs as [|? ? Hd Hrest]; subst.
  cbn [prefixes_from forallb foldl].
  destruct (String.eqb d "") eqn:He.
  - cbn [andb]. rewrite (IH cur w Hcur Hrest).
    assert (Hstep : step_into (resolve [] cur) d = resolve [] cur)
      by (unfold step_into; by rewrite He).
    by rewrite Hstep.
  - cbn [andb walk].
    rewrite (IH (cur ++ "/" ++ d) (enter_or_create (cur ++ "/" ++ d) w));
      [| right; by apply rooted_extend | exact Hrest].
    rewrite (resolve_extend [] cur d Hcur Hd).
    destruct (forallb _ segs) eqn:Hall; [|reflexivity].
    rewrite (foldl_step_into_blank segs _ Hall).
    destruct (enter_or_create_keeps (cur ++ "/" ++ d) w)
      as (_ & _ & _ & _ & _ & _ & -> & _).
    apply (resolve_extend [] cur d Hcur Hd).
Qed.

(** X22: a target directory that cannot be entered is created, and the
    file stored, under the path [upload_dir] names from the root of the
    server, because the loop prefixes every level with a slash; this
    holds for a relative [upload_dir] too, whatever the login
    directory, although the attempt to enter it was made from there. *)
Theorem created_directory_hangs_from_the_root
    (host username password file_path upload_dir : string) (port : Z)
    (passive : bool) (w : FtpWorld) (data piece : string) :
  local_files w !! file_path = Some data ->
  srv_listening (server w) = true ->
  (username, password) ∈ srv_accounts (server w) ->
  srv_readonly (server w) = false ->
  dir_exists (srv_dirs (server w)) (resolve (srv_home (server w)) upload_dir) = false ->
  piece ∈ PyStr.split PyStr.slash upload_dir ->
  piece <> "" ->
  let run := HttpOld.upload_ftp host username password file_path upload_dir port
               passive w in
  srv_files (server (snd run))
  = (resolve [] upload_dir, PyPath.basename file_path, data) :: srv_files (server w)
  /\ dir_exists (srv_dirs (server (snd run))) (resolve [] upload_dir) = true.
Proof.
  intros Hfile Hup Hacc Hro Hex Hin Hpiece run. subst run.
  rewrite (upload_run host username password file_path upload_dir port passive w
             data Hfile Hup Hacc Hro Hex).
  cbn [snd].
  assert (Hblank : forallb (fun d => String.eqb d "") (PyStr.split PyStr.slash upload_dir)
                   = false).
  { apply not_true_is_false. intros Hall.
    rewrite forallb_forall in Hall.
    apply list_elem_of_In, Hall, String.eqb_eq in Hin. contradiction. }
  assert (Hroot : resolve [] upload_dir
                  = foldl step_into [] (PyStr.split PyStr.slash upload_dir))
    by (unfold resolve; by destruct (PyStr.startswith "/" upload_dir)).
  assert (Hcwd : ftp_cwd (directory_ensured upload_dir
                            (session_opened host port username passive w))
                 = resolve [] upload_dir).
  { unfold directory_ensured, prefixes. cbv zeta.
    rewrite walk_prefixes_cwd; [| by left | apply split_pieces_no_sep].
    by rewrite Hblank, Hroot. }
  assert (Hdirs : srv_dirs (server (upload_done host username file_path upload_dir
                                      data port passive w))
                  = srv_dirs (server (directory_ensured upload_dir
                                        (session_opened host port username passive w)))
                  /\ srv_files (server (upload_done host username file_path upload_dir
                                          data port passive w))
                     = (ftp_cwd (directory_ensured upload_dir
                                   (session_opened host port username passive w)),
                        PyPath.basename file_path, data)
                         :: srv_files (server (directory_ensured upload_dir
                                         (session_opened host port username passive w)))).
  { unfold upload_done, HttpOld.disconnect.
    destruct (ftp_sock _); split; reflexivity. }
  destruct Hdirs as [Hd Hf]. rewrite Hd, Hf, Hcwd.
  destruct (directory_ensured_keeps upload_dir
              (session_opened host port username passive w)) as (_ & -> & _ & _).
  split; [reflexivity|].
  rewrite <- Hcwd. unfold directory_ensured. cbv zeta.
  set (w2 := with_ftp_console _ _).
  clearbody w2.
  unfold prefixes.
  assert (Hlast : forall segs cur w',
            rooted cur ->
            Forall (fun x => mentions PyStr.slash x = false) segs ->
            forallb (fun d => String.eqb d "") segs = false ->
            dir_exists (srv_dirs (server (walk (prefixes_from cur segs) w')))
              (ftp_cwd (walk (prefixes_from cur segs) w')) = true).
  { clear. induction segs as [|d segs IH]; intros cur w' Hcur Hsegs Hall;
      [discriminate|].
    inversion Hsegs as [|? ? Hd Hrest]; subst.
    cbn [prefixes_from forallb] in *.
    destruct (String.eqb d "") eqn:He; [by apply IH|].
    cbn [walk].
    destruct (forallb (fun d0 => String.eqb d0 "") segs) eqn:Hall'.
    - rewrite walk_prefixes_cwd; [| right; by apply rooted_extend | exact Hrest].
      rewrite Hall'.
      apply walk_dirs_mono.
      destruct (enter_or_create_keeps (cur ++ "/" ++ d) w')
        as (_ & _ & _ & _ & _ & _ & -> & Hex'). exact Hex'.
    - apply IH; [right; by apply rooted_extend | exact Hrest | reflexivity]. }
  apply Hlast; [by left | apply split_pieces_no_sep | exact Hblank].
Qed.

Lemma created_directory_hangs_from_the_root_witness :
  srv_files (server (snd (HttpOld.upload_ftp "ftp.host" "user" "secret"
                            "/tmp/report.txt" "out/today" 21 true home_start)))
  = [(["out"; "today"], "report.txt", "hello")].
Proof.
  assert (H1 : local_files home_start !! "/tmp/report.txt" = Some "hello")
    by (vm_compute; reflexivity).
  assert (H2 : srv_listening (server home_start) = true) by reflexivity.
  assert (H3 : ("user", "secret") ∈ srv_accounts (server home_start))
    by (simpl; apply list_elem_of_here).
  assert (H4 : srv_readonly (server home_start) = false) by reflexivity.
  assert (H5 : dir_exists (srv_dirs (server home_start))
                 (resolve (srv_home (server home_start)) "out/today") = false)
    by (vm_compute; reflexivity).
  assert (H6 : "out" ∈ PyStr.split PyStr.slash "out/today")
    by (vm_compute; apply list_elem_of_here).
  assert (H7 : "out" <> "") by discriminate.
  destruct (created_directory_hangs_from_the_root "ftp.host" "user" "secret"
              "/tmp/report.txt" "out/today" 21 true home_start "hello" "out"
              H1 H2 H3 H4 H5 H6 H7) as [Hfiles _].
  rewrite Hfiles. vm_compute. reflexivity.
Defined.

(** ** Sizes for display *)

(** The loop divides by 1024 until the value is below 1024; when it
    runs out of units the value was at least 1024 to the number of
    units. *)
Lemma format_loop_spec (units : list string) (size : Q) :
  match HttpOld.format_loop units size with
  | Some (q, unit) =>
      (q < 1024)%Q
      /\ exists k : nat,
           nth_error units k = Some unit
           /\ (q * inject_Z (1024 ^ Z.of_nat k) == size)%Q
           /\ (k = 0%nat \/ (1 <= q)%Q)
  | None => units = [] \/ (inject_Z (1024 ^ Z.of_nat (length units)) <= size)%Q
  end.
Proof.
  revert size. induction units as [|unit rest IH]; intros size; [by left|].
  cbn [HttpOld.format_loop].
  destruct (Qlt_le_dec size 1024) as [Hlt | Hge].
  - split; [exact Hlt|]. exists 0%nat. split; [reflexivity|].
    split; [|by left]. change (inject_Z (1024 ^ Z.of_nat 0)) with 1%Q. ring.
  - assert (Hpow : forall k : nat,
              (inject_Z (1024 ^ Z.of_nat (S k)) == 1024 * inject_Z (1024 ^ Z.of_nat k))%Q).
    { intros k. rewrite Nat2Z.inj_succ, Z.pow_succ_r by lia.
      by rewrite inject_Z_mult. }
    specialize (IH (size / 1024)%Q).
    destruct (HttpOld.format_loop rest (size / 1024)) as [[q u]|].
    + destruct IH as (Hq & k & Hk & Hscale & Hone).
      split; [exact Hq|]. exists (S k). split; [exact Hk|]. split.
      * rewrite Hpow.
        assert (Hcomm : (q * (1024 * inject_Z (1024 ^ Z.of_nat k))
                         == 1024 * (q * inject_Z (1024 ^ Z.of_nat k)))%Q) by ring.
        rewrite Hcomm, Hscale. field.
      * right. destruct Hone as [-> | Hone]; [|exact Hone].
        change (inject_Z (1024 ^ Z.of_nat 0)) with 1%Q in Hscale.
        assert (Hq1 : (q == size / 1024)%Q) by (rewrite <- Hscale; ring).
        rewrite Hq1. apply Qle_shift_div_l; [reflexivity|]. lra.
    + right. cbn [length]. rewrite Hpow.
      destruct IH as [-> | IH].
      * change (inject_Z (1024 ^ Z.of_nat (length []))) with 1%Q. lra.
      * apply (Qmult_le_l _ _ 1024) in IH; [|reflexivity].
        assert (Hback : (1024 * (size / 1024) == size)%Q) by field.
        by rewrite Hback in IH.
Qed.

(** X23: [_format_size] returns a size below 1024 bytes as it is (a
    negative one too), and otherwise divides by 1024 as often as it
    takes to get below 1024, naming the unit reached: the value
    returned is at least 1, below 1024, and times 1024 to the rank of
    the unit it is the size.  From 1024 to the fifth on there is no
    unit left, and the method returns [None].  The bound on [size] is
    the range in which Python's floats are the exact quotients that
    [format_loop] computes. *)
Theorem format_size_scales (size : Z) :
  size < 2 ^ 53 ->
  match HttpOld._format_size size with
  | Some (q, unit) =>
      (q < 1024)%Q
      /\ exists k : nat,
           nth_error ["bytes"; "KB"; "MB"; "GB"; "TB"] k = Some unit
           /\ (q * inject_Z (1024 ^ Z.of_nat k) == inject_Z size)%Q
           /\ (if decide (k = 0%nat) then q = inject_Z size else (1 <= q)%Q)
  | None => 1024 ^ 5 <= size
  end.
Proof.
  intros _. unfold HttpOld._format_size.
  pose proof (format_loop_spec ["bytes"; "KB"; "MB"; "GB"; "TB"] (inject_Z size))
    as Hspec.
  assert (Hfirst : forall q u,
            HttpOld.format_loop ["bytes"; "KB"; "MB"; "GB"; "TB"] (inject_Z size)
            = Some (q, u) -> u = "bytes" -> q = inject_Z size).
  { intros q u. cbn [HttpOld.format_loop].
    destruct (Qlt_le_dec (inject_Z size) 1024); [by intros [= <- _]|].
    repeat (destruct (Qlt_le_dec _ 1024); [intros [= _ <-]; discriminate|]).
    discriminate. }
  destruct (HttpOld.format_loop _ _) as [[q u]|].
  - destruct Hspec as (Hq & k & Hk & Hscale & Hone).
    split; [exact Hq|]. exists k. split; [exact Hk|]. split; [exact Hscale|].
    destruct (decide (k = 0%nat)) as [-> | Hk0].
    + apply (Hfirst q u eq_refl). by injection Hk as <-.
    + by destruct Hone.
  - destruct Hspec as [Hnil | Hge]; [discriminate|].
    cbn [length] in Hge. rewrite <- Zle_Qle in Hge. exact Hge.
Qed.

Lemma format_size_scales_witness :
  1536 < 2 ^ 53
  /\ match HttpOld._format_size 1536 with
     | Some (q, unit) =>
         (q < 1024)%Q
         /\ exists k : nat,
              nth_error ["bytes"; "KB"; "MB"; "GB"; "TB"] k = Some unit
              /\ (q * inject_Z (1024 ^ Z.of_nat k) == inject_Z 1536)%Q
              /\ (if decide (k = 0%nat) then q = inject_Z 1536 else (1 <= q)%Q)
     | None => 1024 ^ 5 <= 1536
     end.
Proof.
  split; [reflexivity|]. apply (format_size_scales 1536). reflexivity.
Defined.
